(** * CareerGap: the strategy decision and lifecycle engine

    A shallow embedding of the decision core of the resume pipeline:

    - [BottleneckAnalyzer]  bottleneck_analyzer.py  (stage 2, the diagnoser)
    - [StrategySelector]    strategy_selector.py    (stage 3, the selector)
    - [AgentLoop]           agent_loop.py           (lifecycle state machine,
                                                     re-evaluation, fallback)
    - [RoadmapGenerator]    roadmap_generator.py    (the eligibility gate)

    Modelling conventions.

    - Python [float] confidences.  Every constant of the source is a decimal
      with two digits and every computed confidence is the result of
      [round(x, 2)], so the confidences the engine holds are hundredths.
      The lifecycle holds them as exact rationals ([Q]) and computes on
      them in decimal arithmetic.  The confidence update is also given on
      binary64 floats ([Binary64]), for every float the function can be
      handed; the two are proved to give the same hundredth on every
      hundredth between 0 and 1, along every sequence of updates.  Off
      that grid they can differ: the float sum may lie on the other side
      of a rounding tie than the exact sum.
    - Python [str] is [string]; [dict] is [gmap]; a [set] is [gset]; [None]
      is [option].  Enum [StrategyState] is an inductive type.  A document
      parsed by [json.loads] is a [json] value.
    - The engine mutates the session object in place and returns it; here
      every operation takes the session and returns the updated session.
      The record held in [current_strategy] is updated field by field; the
      only places that build a new [StrategyRecord] are [initialize_session]
      and [re_evaluate_strategy].
    - An exception is the [Raises] result of a call, together with the
      state in which the call leaves the session.
    - f-string log lines are kept as structured [LogEntry] values carrying
      the values the source interpolates. *)

From Stdlib Require Import QArith Qround Qabs Qminmax Lqa Lia ZArith Ascii String.
From Stdlib Require Import Floats.SpecFloat.
From stdpp Require Import gmap strings list.

Local Open Scope Q_scope.
Local Open Scope string_scope.

(** ** Numbers *)

Module Numeric.

(** [x < y] and [x >= y] on floats, as booleans. *)
Definition Qltb (x y : Q) : bool := negb (Qle_bool y x).
Definition Qgeb (x y : Q) : bool := Qle_bool y x.

(** Python's [max(a, b)]: the later argument wins only when strictly
    greater.  [min(a, b)] likewise. *)
Definition py_max (a b : Q) : Q := if Qltb a b then b else a.
Definition py_min (a b : Q) : Q := if Qltb b a then b else a.

(** Nearest integer, ties to the even neighbour. *)
Definition round_half_even (q : Q) : Z :=
  let f := Qfloor q in
  match Qcompare (q - inject_Z f) (1 # 2) with
  | Lt => f
  | Gt => (f + 1)%Z
  | Eq => if Z.even f then f else (f + 1)%Z
  end.

(** Python's [round(x, 2)]. *)
Definition py_round2 (q : Q) : Q :=
  Qred (inject_Z (round_half_even (q * 100)) / 100).

(** A value with at most two decimals. *)
Definition two_decimals (q : Q) : Prop := exists n : Z, q == inject_Z n / 100.

End Numeric.

Export Numeric.

(** ** Stage 2: bottleneck analysis (bottleneck_analyzer.py) *)

Module BottleneckAnalyzer.

(** Stage 1 output, as far as stages 2 and 3 read it.  A key that is
    absent from [section_signals] reads as [False]; the whole
    [section_signals] entry may be absent. *)
Record Evidence := mkEvidence {
  normalized_skills : list string;
  skill_evidence_map : gmap string (list string);
  section_signals : option (gmap string bool);
}.

Record BottleneckReport := mkReport {
  implied_role : string;
  bottlenecks : gmap string string;
  dominant_issue : option string;
  justification : string;
}.

(** [str.lower()] on ASCII letters. *)
Definition lower_ascii (c : ascii) : ascii :=
  let n := N_of_ascii c in
  if ((65 <=? n) && (n <=? 90))%N then ascii_of_N (n + 32) else c.

Fixpoint lower (s : string) : string :=
  match s with
  | EmptyString => EmptyString
  | String c r => String (lower_ascii c) (lower r)
  end.

(** [ROLE_SKILL_MAP], in declaration order: role key, primary skills,
    secondary skills. *)
Definition ROLE_SKILL_MAP : list (string * (list string * list string)) :=
  [ ("data_analyst",
      (["sql"; "excel"; "python"; "tableau"; "power bi"; "data analysis"],
       ["statistics"; "pandas"; "numpy"; "data visualization"]));
    ("data_scientist",
      (["python"; "machine learning"; "deep learning"; "tensorflow"; "pytorch"],
       ["sql"; "pandas"; "numpy"; "statistics"; "nlp"; "data science"]));
    ("software_engineer",
      (["java"; "python"; "javascript"; "c++"; "data structures"; "algorithms"],
       ["git"; "sql"; "api"; "rest"; "oop"; "dsa"]));
    ("frontend_developer",
      (["javascript"; "react"; "html"; "css"; "typescript"],
       ["vue.js"; "angular"; "node.js"; "git"]));
    ("backend_developer",
      (["java"; "python"; "node.js"; "sql"; "api"],
       ["docker"; "postgresql"; "mongodb"; "rest"; "spring"; "django"]));
    ("devops_engineer",
      (["docker"; "kubernetes"; "aws"; "linux"; "ci/cd"],
       ["jenkins"; "terraform"; "ansible"; "git"; "python"; "bash"]));
    ("ml_engineer",
      (["python"; "tensorflow"; "pytorch"; "machine learning"; "deep learning"],
       ["docker"; "aws"; "mlops"; "pandas"; "numpy"]));
    ("web_developer",
      (["html"; "css"; "javascript"; "react"],
       ["node.js"; "sql"; "git"; "python"])) ].

Definition ROLE_DISPLAY_NAMES : list (string * string) :=
  [ ("data_analyst", "Data Analyst");
    ("data_scientist", "Data Scientist");
    ("software_engineer", "Software Engineer");
    ("frontend_developer", "Frontend Developer");
    ("backend_developer", "Backend Developer");
    ("devops_engineer", "DevOps Engineer");
    ("ml_engineer", "ML Engineer");
    ("web_developer", "Web Developer") ].

(** [d.get(k)] on a table kept in declaration order. *)
Fixpoint assoc_get {V} (k : string) (d : list (string * V)) : option V :=
  match d with
  | [] => None
  | (k', v) :: r => if String.eqb k k' then Some v else assoc_get k r
  end.

Definition skills_lower_of (skills : list string) : gset string :=
  list_to_set (lower <$> skills).

(** [sum(1 for s in skills if s in have)] *)
Definition count_in (skills : list string) (have : gset string) : nat :=
  length (filter (λ s, s ∈ have) skills).

(** [max(d, key=d.get)]: the first key, in iteration order, whose score
    is maximal. *)
Fixpoint first_max (best : string * nat) (l : list (string * nat)) : string * nat :=
  match l with
  | [] => best
  | x :: r => first_max (if (snd best <? snd x)%nat then x else best) r
  end.

Definition role_scores (skills_lower : gset string) : list (string * nat) :=
  (λ '(role, (primary, secondary)),
     (role, (count_in primary skills_lower * 3 + count_in secondary skills_lower * 1)%nat))
  <$> ROLE_SKILL_MAP.

Definition infer_role (normalized_skills : list string) : string :=
  let skills_lower := skills_lower_of normalized_skills in
  match role_scores skills_lower with
  | [] => "Software Engineer"
  | x :: r =>
      let best := first_max x r in
      if (snd best =? 0)%nat then "Software Engineer"
      else default (fst best) (assoc_get (fst best) ROLE_DISPLAY_NAMES)
  end.

(** [section_signals.get(k, False)] *)
Definition signal (section_signals : gmap string bool) (k : string) : bool :=
  default false (section_signals !! k).

(** [sum(1 for evidence in m.values() if tag in evidence)] *)
Definition count_evidence (tag : string) (m : gmap string (list string)) : nat :=
  length (filter (λ kv : string * list string, tag ∈ kv.2) (map_to_list m)).

Definition is_listed_only (evidence : list string) : bool :=
  bool_decide ("listed_only" ∈ evidence) && (length evidence =? 1)%nat.

Definition is_multi_source (evidence : list string) : bool :=
  (2 <=? size ((list_to_set evidence : gset string) ∖ {["listed_only"]}))%nat.

Definition evaluate_positioning
    (skill_evidence_map : gmap string (list string))
    (section_signals : gmap string bool) : string :=
  if bool_decide (skill_evidence_map = ∅) then "missing" else
  let entries := map_to_list skill_evidence_map in
  let listed_only_count :=
    length (filter (λ kv : string * list string, is_listed_only kv.2 = true) entries) in
  let multi_source_count :=
    length (filter (λ kv : string * list string,
                      is_listed_only kv.2 = false ∧ is_multi_source kv.2 = true) entries) in
  let total := size skill_evidence_map in
  if (total =? 0)%nat then "missing" else
  let multi_ratio := inject_Z (Z.of_nat multi_source_count) / inject_Z (Z.of_nat total) in
  let listed_ratio := inject_Z (Z.of_nat listed_only_count) / inject_Z (Z.of_nat total) in
  if Qgeb multi_ratio 0.4 then "strong"
  else if Qgeb listed_ratio 0.5 then "missing"
  else "weak".

Definition evaluate_evidence_depth
    (skill_evidence_map : gmap string (list string))
    (section_signals : gmap string bool) : string :=
  let has_projects := signal section_signals "has_projects" in
  let has_internship := signal section_signals "has_internship" in
  let has_metrics := signal section_signals "has_metrics" in
  if has_projects && has_internship && has_metrics then "strong"
  else if has_projects && has_internship then "weak"
  else if has_projects || has_internship then "weak"
  else "missing".

Definition evaluate_experience_strength
    (skill_evidence_map : gmap string (list string))
    (section_signals : gmap string bool) : string :=
  let has_internship := signal section_signals "has_internship" in
  let has_deployment := signal section_signals "has_deployment" in
  let internship_skills := count_evidence "internship" skill_evidence_map in
  if negb has_internship && (internship_skills =? 0)%nat then "missing"
  else if has_deployment && has_internship then "strong"
  else if has_internship || (0 <? internship_skills)%nat then "weak"
  else "missing".

(** The first key of [ROLE_DISPLAY_NAMES] whose display name is the role. *)
Fixpoint find_role_key (implied_role : string) (names : list (string * string))
    : option string :=
  match names with
  | [] => None
  | (key, display) :: r =>
      if String.eqb display implied_role then Some key else find_role_key implied_role r
  end.

Definition evaluate_skill_alignment
    (normalized_skills : list string) (implied_role : string) : string :=
  let skills_lower := skills_lower_of normalized_skills in
  match find_role_key implied_role ROLE_DISPLAY_NAMES with
  | None => "weak"
  | Some role_key =>
      match assoc_get role_key ROLE_SKILL_MAP with
      | None => "weak"
      | Some (primary, _) =>
          let primary_skills : gset string := list_to_set primary in
          let primary_matches := size (skills_lower ∩ primary_skills) in
          let primary_total := size primary_skills in
          if (primary_total =? 0)%nat then "weak" else
          let match_ratio :=
            inject_Z (Z.of_nat primary_matches) / inject_Z (Z.of_nat primary_total) in
          if Qgeb match_ratio 0.6 then "strong"
          else if Qgeb match_ratio 0.3 then "weak"
          else "missing"
      end
  end.

Definition evaluate_outcome_visibility
    (section_signals : gmap string bool)
    (skill_evidence_map : gmap string (list string)) : string :=
  let has_metrics := signal section_signals "has_metrics" in
  let has_projects := signal section_signals "has_projects" in
  let project_skills := count_evidence "project" skill_evidence_map in
  if has_metrics && has_projects && (2 <=? project_skills)%nat then "strong"
  else if has_projects || (0 <? project_skills)%nat then "weak"
  else "missing".

Definition evaluate_bottlenecks
    (normalized_skills : list string)
    (skill_evidence_map : gmap string (list string))
    (section_signals : gmap string bool)
    (implied_role : string) : gmap string string :=
  <["positioning" := evaluate_positioning skill_evidence_map section_signals]>
  (<["evidence_depth" := evaluate_evidence_depth skill_evidence_map section_signals]>
  (<["experience_strength" := evaluate_experience_strength skill_evidence_map section_signals]>
  (<["skill_alignment" := evaluate_skill_alignment normalized_skills implied_role]>
  (<["outcome_visibility" := evaluate_outcome_visibility section_signals skill_evidence_map]>
   ∅)))).

(** Priority order for dominant issue selection (most critical first). *)
Definition BOTTLENECK_PRIORITY : list string :=
  [ "experience_strength"; "evidence_depth"; "outcome_visibility";
    "positioning"; "skill_alignment" ].

(** [JUSTIFICATION_TEMPLATES.get(dominant, {}).get(severity, "")] with the
    placeholders of the two parameterised templates already filled. *)
Definition justification_text
    (dominant severity present missing role : string) : string :=
  match dominant, severity with
  | "experience_strength", "missing" =>
      "No internship or work experience evidence found in resume signals."
  | "experience_strength", "weak" =>
      "Internship exists but lacks production/deployment indicators."
  | "evidence_depth", "missing" =>
      "Resume lacks both project and internship sections."
  | "evidence_depth", "weak" =>
      "Has " ++ present ++ " but missing " ++ missing ++ "; no quantifiable metrics found."
  | "outcome_visibility", "missing" =>
      "No measurable outcomes or project evidence detected."
  | "outcome_visibility", "weak" =>
      "Projects present but lack quantifiable metrics or results."
  | "positioning", "missing" =>
      "Skills are listed without contextual evidence of application."
  | "positioning", "weak" =>
      "Most skills lack diverse evidence sources (project, internship, coursework)."
  | "skill_alignment", "missing" =>
      "Minimal overlap between skills and target role requirements."
  | "skill_alignment", "weak" =>
      "Some primary skills for " ++ role ++ " present, but notable gaps remain."
  | _, _ => ""
  end.

(** [", ".join(items) if items else fallback] *)
Definition join_or (items : list string) (fallback : string) : string :=
  match items with
  | [] => fallback
  | x :: r => fold_left (λ acc s, acc ++ ", " ++ s) r x
  end.

(** [b for b in BOTTLENECK_PRIORITY if bottlenecks.get(b) == severity] *)
Definition rated_in_order (bottlenecks : gmap string string) (severity : string)
    : list string :=
  filter (λ b, bottlenecks !! b = Some severity) BOTTLENECK_PRIORITY.

Definition select_dominant_issue
    (bottlenecks : gmap string string)
    (section_signals : gmap string bool)
    (implied_role : string) : option string * string :=
  let missing := rated_in_order bottlenecks "missing" in
  let weak := rated_in_order bottlenecks "weak" in
  let has_projects := signal section_signals "has_projects" in
  let has_internship := signal section_signals "has_internship" in
  let present :=
    ((if has_projects then ["projects"] else []) ++
     (if has_internship then ["internship"] else []))%list in
  let missing_items :=
    ((if has_projects then [] else ["projects"]) ++
     (if has_internship then [] else ["internship"]))%list in
  let fill dominant severity :=
    justification_text dominant severity
      (join_or present "neither") (join_or missing_items "none") implied_role in
  match missing with
  | dominant :: _ => (Some dominant, fill dominant "missing")
  | [] =>
      match weak with
      | dominant :: _ => (Some dominant, fill dominant "weak")
      | [] => (None, "All bottleneck categories are strong.")
      end
  end.

Definition analyze_bottlenecks (stage1_output : Evidence) : BottleneckReport :=
  let normalized_skills := normalized_skills stage1_output in
  let skill_evidence_map := skill_evidence_map stage1_output in
  let section_signals := default ∅ (section_signals stage1_output) in
  let implied_role := infer_role normalized_skills in
  let bottlenecks :=
    evaluate_bottlenecks normalized_skills skill_evidence_map section_signals implied_role in
  let '(dominant_issue, justification) :=
    select_dominant_issue bottlenecks section_signals implied_role in
  {| implied_role := implied_role;
     bottlenecks := bottlenecks;
     dominant_issue := dominant_issue;
     justification := justification |}.

End BottleneckAnalyzer.

Export BottleneckAnalyzer.

(** ** Stage 3: strategy selection (strategy_selector.py) *)

Module StrategySelector.

Record StrategyDecision := mkDecision {
  strategy : string;
  action : string;
  confidence : Q;
}.

(** [ACTION_TEMPLATES.get((strategy, dominant_issue), {})] *)
Definition ACTION_TEMPLATES (strategy : string) (dominant_issue : option string)
    : gmap string string :=
  match strategy, dominant_issue with
  | "ResumeOptimization", Some "evidence_depth" =>
      {[ "weak" := "Rewrite the primary project description to include problem statement, approach, tools used, and quantifiable outcome.";
         "missing" := "Add a Projects section with one completed project including problem, solution, and measurable result." ]}
  | "ResumeOptimization", Some "positioning" =>
      {[ "weak" := "Add context to top 3 listed skills by linking each to a specific project or experience where it was applied.";
         "missing" := "Create skill-evidence links by adding brief descriptions of how each skill was used in projects or coursework." ]}
  | "ResumeOptimization", Some "outcome_visibility" =>
      {[ "weak" := "Add metrics to the primary project or experience entry (e.g., performance improvement %, users served, data processed).";
         "missing" := "Quantify one achievement in the experience or project section with a specific number or percentage." ]}
  | "SkillGapPatch", Some "skill_alignment" =>
      {[ "weak" := "Identify the top missing primary skill for the target role and add it through a focused micro-project or certification.";
         "missing" := "Complete one foundational skill course for the target role and add the credential to the resume." ]}
  | "RoleShift", Some "experience_strength" =>
      {[ "weak" := "Reframe existing project work as professional experience by emphasizing deliverables and stakeholder impact.";
         "missing" := "Pivot target role to one that values project-based evidence over formal work experience." ]}
  | "HoldPosition", None =>
      {[ "strong" := "Maintain current resume positioning and proceed to application phase." ]}
  | _, _ => ∅
  end.

Definition FALLBACK_ACTIONS : gmap string string :=
  {[ "ResumeOptimization" := "Restructure the resume to highlight evidence of applied skills in project and experience sections.";
     "SkillGapPatch" := "Add one in-demand skill for the target role through a verifiable project or credential.";
     "RoleShift" := "Adjust target role to better align with current evidence profile.";
     "HoldPosition" := "Proceed with current resume positioning." ]}.

Definition BASE_CONFIDENCE : gmap string Q :=
  {[ "ResumeOptimization" := 0.70;
     "SkillGapPatch" := 0.55;
     "RoleShift" := 0.45;
     "HoldPosition" := 0.85 ]}.

Definition CONFIDENCE_ADJUSTMENTS : gmap string Q :=
  {[ "strong" := 0.10;
     "weak" := 0.00;
     "missing" := -0.10 ]}.

(** [if not dominant_issue]: [None] and the empty string are falsy. *)
Definition no_issue (dominant_issue : option string) : bool :=
  match dominant_issue with
  | None => true
  | Some d => String.eqb d ""
  end.

(** [v in ("weak", "missing")] *)
Definition weak_or_missing (v : string) : bool :=
  String.eqb v "weak" || String.eqb v "missing".

Definition calculate_confidence
    (strategy : string) (bottlenecks : gmap string string)
    (dominant_issue : option string) : Q :=
  let base := default 0.50 (BASE_CONFIDENCE !! strategy) in
  match dominant_issue with
  | Some d =>
      if no_issue dominant_issue then py_min 0.90 (base + 0.05) else
      let severity := default "weak" (bottlenecks !! d) in
      let adjustment := default 0.0 (CONFIDENCE_ADJUSTMENTS !! severity) in
      let other_issues :=
        length (filter (λ kv : string * string,
                          kv.1 ≠ d ∧ weak_or_missing kv.2 = true)
                       (map_to_list bottlenecks)) in
      let other_penalty := inject_Z (Z.of_nat other_issues) * 0.05 in
      let confidence := base + adjustment - other_penalty in
      py_round2 (py_max 0.20 (py_min 0.95 confidence))
  | None => py_min 0.90 (base + 0.05)
  end.

(** [if section_signals]: [None] and the empty dict are falsy. *)
Definition has_signals (section_signals : option (gmap string bool)) : bool :=
  match section_signals with
  | None => false
  | Some m => negb (bool_decide (m = ∅))
  end.

Definition select_strategy
    (dominant_issue : option string) (bottlenecks : gmap string string)
    (section_signals : option (gmap string bool)) : string :=
  match dominant_issue with
  | None => "HoldPosition"
  | Some d =>
      if String.eqb d "evidence_depth" || String.eqb d "positioning"
      then "ResumeOptimization"
      else if String.eqb d "outcome_visibility" then "ResumeOptimization"
      else if String.eqb d "skill_alignment" then "SkillGapPatch"
      else if String.eqb d "experience_strength" then
        let signals := default ∅ section_signals in
        if has_signals section_signals
           && negb (signal signals "has_internship")
           && negb (signal signals "has_projects")
        then "RoleShift"
        else
          let severity := default "missing" (bottlenecks !! "experience_strength") in
          if String.eqb severity "missing" then "RoleShift" else "ResumeOptimization"
      else "ResumeOptimization"
  end.

(** [if action]: a non-empty string. *)
Definition nonempty (a : option string) : option string :=
  match a with
  | Some s => if String.eqb s "" then None else Some s
  | None => None
  end.

Definition get_action
    (strategy : string) (dominant_issue : option string)
    (bottlenecks : gmap string string) : string :=
  match dominant_issue with
  | None =>
      default (default "" (FALLBACK_ACTIONS !! "HoldPosition"))
              (ACTION_TEMPLATES "HoldPosition" None !! "strong")
  | Some d =>
      let severity := default "weak" (bottlenecks !! d) in
      let action_map := ACTION_TEMPLATES strategy dominant_issue in
      match nonempty (action_map !! severity) with
      | Some action => action
      | None =>
          match nonempty (action_map !! "weak") with
          | Some action => action
          | None =>
              default "Review and optimize resume content."
                      (FALLBACK_ACTIONS !! strategy)
          end
      end
  end.

Definition select_strategy_and_action
    (stage2_output : BottleneckReport)
    (section_signals : option (gmap string bool)) : StrategyDecision :=
  let bottlenecks := bottlenecks stage2_output in
  let dominant_issue := dominant_issue stage2_output in
  let strategy := select_strategy dominant_issue bottlenecks section_signals in
  let action := get_action strategy dominant_issue bottlenecks in
  let confidence := calculate_confidence strategy bottlenecks dominant_issue in
  {| strategy := strategy; action := action; confidence := confidence |}.

End StrategySelector.

Export StrategySelector.

(** ** The agentic loop (agent_loop.py) *)

Module AgentLoop.

Inductive StrategyState := EXPLORE | VALIDATE | EXECUTE | RECONSIDER.

#[export] Instance StrategyState_eq_dec : EqDecision StrategyState.
Proof. solve_decision. Defined.

(** Record of a strategy attempt with outcomes.  The field [strategy] of
    the source is [rec_strategy] here, [strategy] being the field of the
    decision of stage 3. *)
Record StrategyRecord := mkRecord {
  rec_strategy : string;
  initial_confidence : Q;
  current_confidence : Q;
  outcomes : list string;
  failed : bool;
  strategy_state : StrategyState;
}.

(** [StrategyRecord(strategy=..., initial_confidence=c, current_confidence=c,
    strategy_state=EXPLORE)]: the constructor call of the source, with the
    dataclass defaults for [outcomes] and [failed]. *)
Definition new_record (strategy : string) (c : Q) : StrategyRecord :=
  {| rec_strategy := strategy;
     initial_confidence := c;
     current_confidence := c;
     outcomes := [];
     failed := false;
     strategy_state := EXPLORE |}.

(** Why a lifecycle transition was taken (the text after "Reason:"). *)
Inductive TransitionReason :=
| ConfidenceBelowThreshold (current : Q)
| NegativeOutcomes (negative_count : nat)
| InterviewsReceived (interview_count : nat) (current : Q)
| InterviewsNoPositioningIssue (interview_count : nat) (current : Q)
| PositioningIssueDetected.

(** Entries of [explanation_log]. *)
Inductive LogEntry :=
| LogInitialized (strategy : string) (dominant_issue : option string) (c : Q)
| LogRecorded (outcome strategy : string) (c : Q) (state : StrategyState)
| LogMarkedFailed (strategy : string) (n_outcomes : nat) (c : Q)
| LogTransition (old_state new_state : StrategyState) (reason : option TransitionReason)
| LogReEvaluated (failed_strategy new_strategy : string) (c : Q).

(** Complete agent session state. *)
Record AgentSession := mkSession {
  stage1_evidence : Evidence;
  stage2_bottleneck : BottleneckReport;
  stage3_strategy : StrategyDecision;
  current_strategy : option StrategyRecord;
  strategy_history : list StrategyRecord;
  loop_iteration : Z;
  explanation_log : list LogEntry;
}.

(** How a call ends: it returns a value, or it raises an exception and
    leaves the session object in the state [session_left]. *)
Inductive Completion (A : Type) :=
| Returns (value : A)
| Raises (error : string) (session_left : AgentSession).
Arguments Returns {A} value.
Arguments Raises {A} error session_left.

(** Field updates of the session object and of its current record. *)
Definition set_current (s : AgentSession) (r : option StrategyRecord) : AgentSession :=
  {| stage1_evidence := stage1_evidence s;
     stage2_bottleneck := stage2_bottleneck s;
     stage3_strategy := stage3_strategy s;
     current_strategy := r;
     strategy_history := strategy_history s;
     loop_iteration := loop_iteration s;
     explanation_log := explanation_log s |}.

Definition log_append (s : AgentSession) (e : LogEntry) : AgentSession :=
  {| stage1_evidence := stage1_evidence s;
     stage2_bottleneck := stage2_bottleneck s;
     stage3_strategy := stage3_strategy s;
     current_strategy := current_strategy s;
     strategy_history := strategy_history s;
     loop_iteration := loop_iteration s;
     explanation_log := (explanation_log s ++ [e])%list |}.

Definition set_failed (r : StrategyRecord) (b : bool) : StrategyRecord :=
  {| rec_strategy := rec_strategy r;
     initial_confidence := initial_confidence r;
     current_confidence := current_confidence r;
     outcomes := outcomes r;
     failed := b;
     strategy_state := strategy_state r |}.

Definition set_state (r : StrategyRecord) (st : StrategyState) : StrategyRecord :=
  {| rec_strategy := rec_strategy r;
     initial_confidence := initial_confidence r;
     current_confidence := current_confidence r;
     outcomes := outcomes r;
     failed := failed r;
     strategy_state := st |}.

Definition set_confidence (r : StrategyRecord) (c : Q) : StrategyRecord :=
  {| rec_strategy := rec_strategy r;
     initial_confidence := initial_confidence r;
     current_confidence := c;
     outcomes := outcomes r;
     failed := failed r;
     strategy_state := strategy_state r |}.

Definition append_outcome (r : StrategyRecord) (o : string) : StrategyRecord :=
  {| rec_strategy := rec_strategy r;
     initial_confidence := initial_confidence r;
     current_confidence := current_confidence r;
     outcomes := (outcomes r ++ [o])%list;
     failed := failed r;
     strategy_state := strategy_state r |}.

(** Confidence adjustments per outcome. *)
Definition CONFIDENCE_DELTA : gmap string Q :=
  {[ "interview" := 0.15;
     "rejected" := -0.10;
     "no_response" := -0.08 ]}.

(** Threshold for strategy failure. *)
Definition FAILURE_THRESHOLD : Q := 0.30.
Definition NEGATIVE_OUTCOME_LIMIT : nat := 3.

Definition update_confidence (current : Q) (outcome : string) : Q :=
  let delta := default 0.0 (CONFIDENCE_DELTA !! outcome) in
  let new_confidence := current + delta in
  py_round2 (py_max 0.10 (py_min 0.95 new_confidence)).

(** [sum(1 for o in outcomes if o in ("rejected", "no_response"))] *)
Definition negative_count (outcomes : list string) : nat :=
  length (filter (λ o, o = "rejected" ∨ o = "no_response") outcomes).

(** [sum(1 for o in outcomes if o == "interview")] *)
Definition interview_count (outcomes : list string) : nat :=
  length (filter (λ o, o = "interview") outcomes).

Definition should_invalidate (record : StrategyRecord) : bool :=
  if failed record then true
  else if Qltb (current_confidence record) FAILURE_THRESHOLD then true
  else if (NEGATIVE_OUTCOME_LIMIT <=? negative_count (outcomes record))%nat then true
  else false.

(** The [profile_signals] dict that [evaluate_strategy_state] reads: for each
    named signal under ["signals"], its ["triggered"] flag. *)
Record ProfileSignals := mkSignals {
  signals : gmap string bool;
}.

(** What a caller passes as [profile_signals]: [None], a dict, or the
    [ProfileSignals] dataclass instance that [extract_profile_signals] of
    career_snapshot.py returns, which is truthy and has no [get]. *)
Inductive SignalsArgument :=
| SignalsNone
| SignalsDict (p : ProfileSignals)
| SignalsObject.

Definition has_positioning_issue_of (profile_signals : SignalsArgument) : bool :=
  match profile_signals with
  | SignalsDict p => default false (signals p !! "resume_positioning_issue")
  | SignalsNone | SignalsObject => false
  end.

(** The [if / elif] chain of [evaluate_strategy_state]: the new state and
    the reason of the transition. *)
Definition next_state (record : StrategyRecord) (has_positioning_issue : bool)
    : StrategyState * option TransitionReason :=
  let current_state := strategy_state record in
  let interviews := interview_count (outcomes record) in
  let negatives := negative_count (outcomes record) in
  let c := current_confidence record in
  if Qltb c FAILURE_THRESHOLD then
    (RECONSIDER, Some (ConfidenceBelowThreshold c))
  else if (NEGATIVE_OUTCOME_LIMIT <=? negatives)%nat then
    (RECONSIDER, Some (NegativeOutcomes negatives))
  else
    match current_state with
    | EXPLORE =>
        if (1 <=? interviews)%nat && Qgeb c 0.55
        then (VALIDATE, Some (InterviewsReceived interviews c))
        else (current_state, None)
    | VALIDATE =>
        if (2 <=? interviews)%nat && Qgeb c 0.65 && negb has_positioning_issue
        then (EXECUTE, Some (InterviewsNoPositioningIssue interviews c))
        else if has_positioning_issue && (interviews <? 2)%nat
        then (EXPLORE, Some PositioningIssueDetected)
        else (current_state, None)
    | EXECUTE | RECONSIDER => (current_state, None)
    end.

(** The body of [evaluate_strategy_state] once [has_positioning_issue] is
    read: the transition, its log line and the failed flag. *)
Definition apply_transition
    (session : AgentSession) (has_positioning_issue : bool) : AgentSession :=
  match current_strategy session with
  | None => session
  | Some record =>
      let current_state := strategy_state record in
      let '(new_state, transition_reason) := next_state record has_positioning_issue in
      if bool_decide (new_state ≠ current_state) then
        let record := set_state record new_state in
        let session :=
          log_append (set_current session (Some record))
                     (LogTransition current_state new_state transition_reason) in
        if bool_decide (new_state = RECONSIDER)
        then set_current session (Some (set_failed record true))
        else session
      else session
  end.

(** With a current strategy, [profile_signals.get("signals", {})] is
    evaluated before anything is written: on the dataclass instance it
    raises [AttributeError]. *)
Definition evaluate_strategy_state
    (session : AgentSession) (profile_signals : SignalsArgument)
    : Completion AgentSession :=
  match current_strategy session, profile_signals with
  | Some _, SignalsObject =>
      Raises "AttributeError: 'ProfileSignals' object has no attribute 'get'" session
  | _, _ =>
      Returns (apply_transition session (has_positioning_issue_of profile_signals))
  end.

(** [outcome in ("no_response", "rejected", "interview")] *)
Definition valid_outcome (outcome : string) : bool :=
  String.eqb outcome "no_response" || String.eqb outcome "rejected"
  || String.eqb outcome "interview".

Definition record_outcome (session : AgentSession) (outcome : string)
    : Completion AgentSession :=
  if negb (valid_outcome outcome) then
    Raises ("Invalid outcome: " ++ outcome
            ++ ". Must be one of: no_response, rejected, interview") session
  else
    match current_strategy session with
    | None => Raises "No active strategy to record outcome for" session
    | Some record =>
        let record := append_outcome record outcome in
        let record :=
          set_confidence record (update_confidence (current_confidence record) outcome) in
        if should_invalidate record then
          let record := set_failed record true in
          Returns (log_append (set_current session (Some record))
                     (LogMarkedFailed (rec_strategy record) (length (outcomes record))
                                      (current_confidence record)))
        else
          Returns (log_append (set_current session (Some record))
                     (LogRecorded outcome (rec_strategy record)
                                  (current_confidence record) (strategy_state record)))
    end.

(** The fallback tables of [_select_fallback_strategy]. *)
Definition STRATEGY_PRIORITY : list string :=
  [ "ResumeOptimization"; "SkillGapPatch"; "RoleShift"; "HoldPosition" ].

Definition FALLBACK_ACTIONS : gmap string string :=
  {[ "ResumeOptimization" := "Restructure the resume to highlight evidence of applied skills.";
     "SkillGapPatch" := "Add one in-demand skill through a verifiable project or credential.";
     "RoleShift" := "Adjust target role to better align with current evidence profile.";
     "HoldPosition" := "Maintain current positioning and continue application process." ]}.

Definition FALLBACK_CONFIDENCE : gmap string Q :=
  {[ "ResumeOptimization" := 0.55;
     "SkillGapPatch" := 0.45;
     "RoleShift" := 0.35;
     "HoldPosition" := 0.70 ]}.

Definition EXHAUSTED_ACTION : string :=
  "All strategies exhausted. Recommend manual review of career positioning.".

(** The loop [for strategy in STRATEGY_PRIORITY: if strategy not in
    failed_strategies: return ...]. *)
Fixpoint first_not_failed (priority : list string) (failed_strategies : gset string)
    : option StrategyDecision :=
  match priority with
  | [] => None
  | strategy :: rest =>
      if bool_decide (strategy ∉ failed_strategies) then
        Some {| strategy := strategy;
                action := default "" (FALLBACK_ACTIONS !! strategy);
                confidence := default 0 (FALLBACK_CONFIDENCE !! strategy) |}
      else first_not_failed rest failed_strategies
  end.

Definition _select_fallback_strategy
    (stage2_output : BottleneckReport) (failed_strategies : gset string)
    (section_signals : option (gmap string bool)) : StrategyDecision :=
  match first_not_failed STRATEGY_PRIORITY failed_strategies with
  | Some d => d
  | None =>
      {| strategy := "HoldPosition";
         action := EXHAUSTED_ACTION;
         confidence := 0.25 |}
  end.

(** [{s.strategy for s in strategy_history if s.failed}] *)
Definition failed_strategies_of (history : list StrategyRecord) : gset string :=
  list_to_set (rec_strategy <$> filter (λ r, failed r = true) history).

Definition re_evaluate_strategy (session : AgentSession) : AgentSession :=
  match current_strategy session with
  | None => session
  | Some current =>
      if negb (failed current) then session else
      let history := (strategy_history session ++ [current])%list in
      let failed_strategy := rec_strategy current in
      let iteration := (loop_iteration session + 1)%Z in
      let failed_strategies := failed_strategies_of history in
      let new_stage2 := analyze_bottlenecks (stage1_evidence session) in
      let section_signals := section_signals (stage1_evidence session) in
      let new_stage3 := select_strategy_and_action new_stage2 section_signals in
      let new_stage3 :=
        if bool_decide (strategy new_stage3 ∈ failed_strategies)
        then _select_fallback_strategy new_stage2 failed_strategies section_signals
        else new_stage3 in
      {| stage1_evidence := stage1_evidence session;
         stage2_bottleneck := new_stage2;
         stage3_strategy := new_stage3;
         current_strategy :=
           Some (new_record (strategy new_stage3) (confidence new_stage3));
         strategy_history := history;
         loop_iteration := iteration;
         explanation_log :=
           (explanation_log session
            ++ [LogReEvaluated failed_strategy (strategy new_stage3)
                               (confidence new_stage3)])%list |}
  end.

Definition initialize_session
    (stage1_evidence : Evidence) (stage2_bottleneck : BottleneckReport)
    (stage3_strategy : StrategyDecision) : AgentSession :=
  {| stage1_evidence := stage1_evidence;
     stage2_bottleneck := stage2_bottleneck;
     stage3_strategy := stage3_strategy;
     current_strategy :=
       Some (new_record (strategy stage3_strategy) (confidence stage3_strategy));
     strategy_history := [];
     loop_iteration := 0;
     explanation_log :=
       [LogInitialized (strategy stage3_strategy) (dominant_issue stage2_bottleneck)
                       (confidence stage3_strategy)] |}.

(** The one-line explanation of [generate_short_explanation]. *)
Inductive Explanation :=
| NoActiveStrategy
| Selected (strategy : string) (dominant_issue : option string)
           (c : Q) (state : StrategyState)
| Shifted (prev_strategy : option string) (strategy : string)
          (iterations : Z) (c : Q) (state : StrategyState).

Definition generate_short_explanation (session : AgentSession) : Explanation :=
  match current_strategy session with
  | None => NoActiveStrategy
  | Some current =>
      if (loop_iteration session =? 0)%Z then
        Selected (rec_strategy current) (dominant_issue (stage2_bottleneck session))
                 (current_confidence current) (strategy_state current)
      else
        Shifted (rec_strategy <$> last (strategy_history session))
                (rec_strategy current) (loop_iteration session)
                (current_confidence current) (strategy_state current)
  end.

Record ProcessResult := mkResult {
  res_session : AgentSession;
  strategy_changed : bool;
  res_current_strategy : StrategyDecision;
  explanation : Explanation;
  res_strategy_state : option StrategyState;
}.

Section FullLoopStep.

(** Step 2 of [process_outcome] leaves [profile_signals] at [None] when the
    snapshot layer is not importable, the evidence holds no snapshot, or the
    extraction raises (as it does on a snapshot stored as a dict); otherwise
    it holds the dataclass instance the extraction returned. *)
Variable extraction_succeeds : AgentSession -> bool.

(** Step 7 adds the signals to the result only when they are not [None],
    which a step that completes never sees. *)
Definition process_outcome (session : AgentSession) (outcome : string)
    : Completion ProcessResult :=
  match record_outcome session outcome with
  | Raises error session_left => Raises error session_left
  | Returns session =>
      let profile_signals :=
        if extraction_succeeds session then SignalsObject else SignalsNone in
      match evaluate_strategy_state session profile_signals with
      | Raises error session_left => Raises error session_left
      | Returns session =>
          let '(session, strategy_changed) :=
            match current_strategy session with
            | Some current =>
                if bool_decide (strategy_state current = RECONSIDER) then
                  let old_strategy := rec_strategy current in
                  let session := re_evaluate_strategy session in
                  (session,
                   match current_strategy session with
                   | Some c => negb (String.eqb (rec_strategy c) old_strategy)
                   | None => false
                   end)
                else (session, false)
            | None => (session, false)
            end in
          Returns
            {| res_session := session;
               strategy_changed := strategy_changed;
               res_current_strategy := stage3_strategy session;
               explanation := generate_short_explanation session;
               res_strategy_state := strategy_state <$> current_strategy session |}
      end
  end.

End FullLoopStep.

End AgentLoop.

Export AgentLoop.

(** ** Confidence arithmetic on binary64 floats (agent_loop.py) *)

Module Binary64.

(** A Python [float] is an IEEE 754 binary64 number: 53 bits of precision,
    exponents below 1024.  The operations are those of the standard
    library's specification of floating-point arithmetic. *)
Definition prec : Z := 53.
Definition emax : Z := 1024.
Definition float : Type := spec_float.

#[global] Instance float_eq_dec : EqDecision float.
Proof. solve_decision. Defined.

Definition integer (k : Z) : float :=
  match k with
  | Z0 => S754_zero false
  | Zpos p => S754_finite false p 0
  | Zneg p => S754_finite true p 0
  end.

(** The float nearest to [n / d], ties to even: what the literal of that
    decimal denotes and what the conversion of a decimal string returns. *)
Definition decimal (n : Z) (d : positive) : float :=
  SFdiv prec emax (integer n) (integer (Zpos d)).

(** The number a finite float stands for. *)
Definition value (x : float) : Q :=
  match x with
  | S754_finite s m e => inject_Z (cond_Zopp s (Zpos m)) * 2 ^ e
  | _ => 0
  end.

(** [x < y]: the numbers are compared, a NaN is below nothing and nothing
    is below it. *)
Definition lt (x y : float) : bool :=
  match x, y with
  | S754_nan, _ | _, S754_nan => false
  | S754_infinity sx, S754_infinity sy => sx && negb sy
  | S754_infinity sx, _ => sx
  | _, S754_infinity sy => negb sy
  | _, _ => Qltb (value x) (value y)
  end.

(** [x + y] *)
Definition add : float -> float -> float := SFadd prec emax.

(** [max(a, b)] and [min(a, b)]: the later argument wins only when the
    comparison with the earlier one succeeds. *)
Definition py_max (a b : float) : float := if lt a b then b else a.
Definition py_min (a b : float) : float := if lt b a then b else a.

(** [round(x, 2)]: the number is rounded to the nearest hundredth, an exact
    tie to the even one, and the float nearest to that hundredth is
    returned, a zero with the sign of [x]; zeros, infinities and NaN round
    to themselves. *)
Definition py_round2 (x : float) : float :=
  match x with
  | S754_finite s _ _ =>
      let hundredths := round_half_even (value x * 100) in
      if (hundredths =? 0)%Z then S754_zero s else decimal hundredths 100
  | _ => x
  end.

Definition CONFIDENCE_DELTA : gmap string float :=
  {[ "interview" := decimal 15 100;
     "rejected" := decimal (-10) 100;
     "no_response" := decimal (-8) 100 ]}.

Definition update_confidence (current : float) (outcome : string) : float :=
  let delta := default (decimal 0 10) (CONFIDENCE_DELTA !! outcome) in
  let new_confidence := add current delta in
  py_round2 (py_max (decimal 10 100) (py_min (decimal 95 100) new_confidence)).

(** [x * y] *)
Definition mul : float -> float -> float :=
  SFmul prec emax.

(** [float(n)] for an [int]: the nearest float, ties to even. *)
Definition of_int (n : Z) : float :=
  binary_normalize prec emax n 0 false.

(** [x <= y] *)
Definition le (x y : float) : bool :=
  match x, y with
  | S754_nan, _ | _, S754_nan => false
  | S754_infinity sx, S754_infinity sy => sx || negb sy
  | S754_infinity sx, _ => sx
  | _, S754_infinity sy => negb sy
  | _, _ => Qle_bool (value x) (value y)
  end.

End Binary64.

(** ** The roadmap gate (roadmap_generator.py) *)

Module RoadmapGenerator.

(** The gate reads a session document as parsed by [json.loads]. *)
#[local] Set Warnings "-register-all".
Inductive json :=
| JNull
| JBool (b : bool)
| JNum (q : Q)
| JStr (s : string)
| JArr (items : list json)
| JObj (fields : list (string * json)).

(** Python truthiness of a parsed value. *)
Definition truthy (j : json) : bool :=
  match j with
  | JNull => false
  | JBool b => b
  | JNum q => negb (Qeq_bool q 0)
  | JStr s => negb (String.eqb s "")
  | JArr [] => false
  | JArr (_ :: _) => true
  | JObj [] => false
  | JObj (_ :: _) => true
  end.

(** [value == "text"] *)
Definition is_str (j : json) (text : string) : bool :=
  match j with
  | JStr s => String.eqb s text
  | _ => false
  end.

Inductive PyError := AttributeError | KeyError | TypeError.

Inductive Attempt (A : Type) :=
| Done (value : A)
| Fails (e : PyError).
Arguments Done {A} value.
Arguments Fails {A} e.

(** [d.get(key)]: only a dict has [get]. *)
Definition py_get (d : json) (key : string) : Attempt (option json) :=
  match d with
  | JObj fields => Done (assoc_get key fields)
  | _ => Fails AttributeError
  end.

(** [d[key]] with a string key. *)
Definition py_item (d : json) (key : string) : Attempt json :=
  match d with
  | JObj fields =>
      match assoc_get key fields with
      | Some v => Done v
      | None => Fails KeyError
      end
  | _ => Fails TypeError
  end.

(** The [value] of a [StrategyState] member. *)
Definition state_value (st : StrategyState) : string :=
  match st with
  | EXPLORE => "explore"
  | VALIDATE => "validate"
  | EXECUTE => "execute"
  | RECONSIDER => "reconsider"
  end.

(** [StrategyRecord.to_dict] *)
Definition record_to_dict (r : StrategyRecord) : json :=
  JObj [ ("strategy", JStr (rec_strategy r));
         ("initial_confidence", JNum (initial_confidence r));
         ("current_confidence", JNum (current_confidence r));
         ("outcomes", JArr (JStr <$> outcomes r));
         ("failed", JBool (failed r));
         ("strategy_state", JStr (state_value (strategy_state r))) ].

(** The [reason] text of the gate, with the interpolated values. *)
Inductive Reason :=
| NoSessionProvided
| NoActiveStrategyFound
| InExecuteState (strategy_name confidence : json)
| InExploreState (strategy_name : json)
| InValidateState (strategy_name : json)
| InReconsiderState (strategy_name : json)
| UnknownStrategyState (strategy_state : json).

Record Eligibility := mkEligibility {
  eligible : bool;
  reason : Reason;
  current_state : option json;
  recommendation : option string;
}.

Definition check_roadmap_eligibility (session : json) : Attempt Eligibility :=
  if negb (truthy session) then
    Done {| eligible := false; reason := NoSessionProvided;
            current_state := None; recommendation := None |}
  else
    match py_get session "current_strategy" with
    | Fails e => Fails e
    | Done found =>
        let current_strategy := default JNull found in
        if negb (truthy current_strategy) then
          Done {| eligible := false; reason := NoActiveStrategyFound;
                  current_state := None; recommendation := None |}
        else
          match py_get current_strategy "strategy_state",
                py_get current_strategy "strategy",
                py_get current_strategy "current_confidence" with
          | Done st, Done name, Done conf =>
              let strategy_state := default (JStr "explore") st in
              let strategy_name := default (JStr "Unknown") name in
              let confidence := default (JNum 0.0) conf in
              if is_str strategy_state "execute" then
                Done {| eligible := true;
                        reason := InExecuteState strategy_name confidence;
                        current_state := Some strategy_state;
                        recommendation := None |}
              else if is_str strategy_state "explore" then
                Done {| eligible := false;
                        reason := InExploreState strategy_name;
                        current_state := Some strategy_state;
                        recommendation := Some "Continue applying to roles and track outcomes. Roadmap will unlock after validation." |}
              else if is_str strategy_state "validate" then
                Done {| eligible := false;
                        reason := InValidateState strategy_name;
                        current_state := Some strategy_state;
                        recommendation := Some "Strategy is showing promise! Get more interviews to lock it in for execution." |}
              else if is_str strategy_state "reconsider" then
                Done {| eligible := false;
                        reason := InReconsiderState strategy_name;
                        current_state := Some strategy_state;
                        recommendation := Some "System is re-evaluating strategy. Wait for new strategy selection." |}
              else
                Done {| eligible := false;
                        reason := UnknownStrategyState strategy_state;
                        current_state := Some strategy_state;
                        recommendation := None |}
          | Fails e, _, _ | _, Fails e, _ | _, _, Fails e => Fails e
          end
    end.

(** What [generate_roadmap] returns; the content of a roadmap is one of
    four fixed templates and is kept as the template's strategy name. *)
Inductive RoadmapResult :=
| NotAllowed (reason : Reason) (current_state : option json) (recommendation : string)
| Generated (template : string)
| NoTemplate (strategy_name : json)
| GenerationFailed.

(** [session.get(outer, {}).get(inner, {})] *)
Definition nested_get (session : json) (outer inner : string) : Attempt json :=
  match py_get session outer with
  | Fails e => Fails e
  | Done found =>
      match py_get (default (JObj []) found) inner with
      | Fails e => Fails e
      | Done value => Done (default (JObj []) value)
      end
  end.

(** A per-strategy generator reads [current_confidence], [strategy] and
    [initial_confidence] of the current strategy, and the one for
    ResumeOptimization reads the bottlenecks of stage 2 first; whatever
    these reads raise is caught by [generate_roadmap]. *)
Definition fill_template (template : string) (session : json) : RoadmapResult :=
  match py_item session "current_strategy" with
  | Fails _ => GenerationFailed
  | Done current_strategy =>
      let stage2_read :=
        if String.eqb template "ResumeOptimization"
        then nested_get session "stage2_bottleneck" "bottlenecks"
        else Done JNull in
      match stage2_read,
            py_item current_strategy "current_confidence",
            py_item current_strategy "strategy",
            py_item current_strategy "initial_confidence" with
      | Done _, Done _, Done _, Done _ => Generated template
      | _, _, _, _ => GenerationFailed
      end
  end.

(** [value if value is not None else session.get("stage1_evidence",
    {}).get(key, {})] *)
Definition or_from_evidence (given : option json) (session : json) (key : string)
    : Attempt json :=
  match given with
  | Some value => Done value
  | None => nested_get session "stage1_evidence" key
  end.

Definition generate_roadmap
    (session : json) (enhanced_snapshot profile_signals : option json)
    : Attempt RoadmapResult :=
  match check_roadmap_eligibility session with
  | Fails e => Fails e
  | Done eligibility =>
      if negb (eligible eligibility) then
        Done (NotAllowed (reason eligibility) (current_state eligibility)
                         (default "" (recommendation eligibility)))
      else
        match py_item session "current_strategy" with
        | Fails e => Fails e
        | Done current_strategy =>
            match py_item current_strategy "strategy" with
            | Fails e => Fails e
            | Done strategy_name =>
                match or_from_evidence enhanced_snapshot session "enhanced_snapshot",
                      or_from_evidence profile_signals session "profile_signals" with
                | Fails e, _ | Done _, Fails e => Fails e
                | Done _, Done _ =>
                    if is_str strategy_name "ResumeOptimization"
                    then Done (fill_template "ResumeOptimization" session)
                    else if is_str strategy_name "SkillGapPatch"
                    then Done (fill_template "SkillGapPatch" session)
                    else if is_str strategy_name "RoleShift"
                    then Done (fill_template "RoleShift" session)
                    else if is_str strategy_name "HoldPosition"
                    then Done (fill_template "HoldPosition" session)
                    else Done (NoTemplate strategy_name)
                end
            end
        end
  end.

End RoadmapGenerator.

Export RoadmapGenerator.

(** ** The gate as a call on the caller's session (roadmap_generator.py) *)

Module OnSession.

(** The session is a dict the caller passes by reference.  A step of code
    that holds it takes the dict as it stands and gives what the step
    evaluates to, or the exception it raises, together with the dict as the
    step leaves it. *)
Definition Step (A : Type) : Type := json -> Attempt A * json.

Definition pure {A : Type} (a : A) : Step A := λ session, (Done a, session).

Definition bind {A B : Type} (m : Step A) (k : A -> Step B) : Step B :=
  λ session,
    match m session with
    | (Done a, session') => k a session'
    | (Fails e, session') => (Fails e, session')
    end.

(** An expression over values already read. *)
Definition eval {A : Type} (a : Attempt A) : Step A := λ session, (a, session).

(** [not session] *)
Definition is_falsy : Step bool := λ session, (Done (negb (truthy session)), session).

(** [session.get(key)] *)
Definition get (key : string) : Step (option json) :=
  λ session, (py_get session key, session).

(** [check_roadmap_eligibility(session)], statement by statement. *)
Definition check_roadmap_eligibility : Step Eligibility :=
  bind is_falsy (λ no_session,
  if no_session then
    pure {| eligible := false; reason := NoSessionProvided;
            current_state := None; recommendation := None |}
  else
  bind (get "current_strategy") (λ found,
  let current_strategy := default JNull found in
  if negb (truthy current_strategy) then
    pure {| eligible := false; reason := NoActiveStrategyFound;
            current_state := None; recommendation := None |}
  else
  bind (eval (py_get current_strategy "strategy_state")) (λ st,
  bind (eval (py_get current_strategy "strategy")) (λ name,
  bind (eval (py_get current_strategy "current_confidence")) (λ conf,
  let strategy_state := default (JStr "explore") st in
  let strategy_name := default (JStr "Unknown") name in
  let confidence := default (JNum 0.0) conf in
  if is_str strategy_state "execute" then
    pure {| eligible := true;
            reason := InExecuteState strategy_name confidence;
            current_state := Some strategy_state;
            recommendation := None |}
  else if is_str strategy_state "explore" then
    pure {| eligible := false;
            reason := InExploreState strategy_name;
            current_state := Some strategy_state;
            recommendation := Some "Continue applying to roles and track outcomes. Roadmap will unlock after validation." |}
  else if is_str strategy_state "validate" then
    pure {| eligible := false;
            reason := InValidateState strategy_name;
            current_state := Some strategy_state;
            recommendation := Some "Strategy is showing promise! Get more interviews to lock it in for execution." |}
  else if is_str strategy_state "reconsider" then
    pure {| eligible := false;
            reason := InReconsiderState strategy_name;
            current_state := Some strategy_state;
            recommendation := Some "System is re-evaluating strategy. Wait for new strategy selection." |}
  else
    pure {| eligible := false;
            reason := UnknownStrategyState strategy_state;
            current_state := Some strategy_state;
            recommendation := None |}))))).

End OnSession.

(** ** Vocabulary of the specification *)

Module Spec.

(** [y] is [x] clamped to the interval [[lo, hi]]. *)
Definition is_clamp (lo hi x y : Q) : Prop :=
  (x <= lo /\ y == lo) \/ (hi <= x /\ y == hi) \/ (lo <= x <= hi /\ y == x).

(** [r] is [x] rounded to two decimals: a hundredth nearest to [x]. *)
Definition rounds_to_2_decimals (x r : Q) : Prop :=
  two_decimals r /\ Qabs (r - x) <= 1 # 200.

(** The per-outcome update of the specification:
    [new = round2 (clamp (old + delta, 0.10, 0.95))]. *)
Definition confidence_step (old delta new : Q) : Prop :=
  exists y, is_clamp 0.10 0.95 (old + delta) y /\ rounds_to_2_decimals y new.

(** The invariant of a record's current confidence. *)
Definition confidence_invariant (c : Q) : Prop :=
  0.10 <= c <= 0.95 /\ two_decimals c.

(** [c] is the first entry of [order] that satisfies [P]. *)
Definition first_in_order (P : string -> Prop) (order : list string) (c : string)
    : Prop :=
  exists i, order !! i = Some c /\ P c /\
            forall j c', (j < i)%nat -> order !! j = Some c' -> ~ P c'.

(** Category [c] of report [r] is rated [severity]. *)
Definition rated (r : BottleneckReport) (severity c : string) : Prop :=
  bottlenecks r !! c = Some severity.

(** The routing condition of [experience_strength] as the specification
    words it: no internship and no project evidence, or severity missing
    while at least one of the two is absent. *)
Definition role_shift_as_specified
    (b : gmap string string) (sig : option (gmap string bool)) : Prop :=
  let has_internship := signal (default ∅ sig) "has_internship" in
  let has_projects := signal (default ∅ sig) "has_projects" in
  let severity := default "missing" (b !! "experience_strength") in
  (has_internship = false /\ has_projects = false) \/
  (severity = "missing" /\ (has_internship = false \/ has_projects = false)).

(** The routing condition the selector implements: signals are supplied
    and non-empty with neither flag set, or the severity is missing (an
    unrated category reads as missing). *)
Definition role_shift_condition
    (b : gmap string string) (sig : option (gmap string bool)) : Prop :=
  (exists m, sig = Some m /\ m <> ∅ /\
             signal m "has_internship" = false /\ signal m "has_projects" = false) \/
  default "missing" (b !! "experience_strength") = "missing".

(** The five categories of a bottleneck report. *)
Definition CATEGORIES : list string :=
  [ "positioning"; "evidence_depth"; "experience_strength";
    "skill_alignment"; "outcome_visibility" ].

(** A report rates exactly the five categories, each strong, weak or
    missing. *)
Definition well_formed_ratings (b : gmap string string) : Prop :=
  (forall c, c ∈ CATEGORIES <-> is_Some (b !! c)) /\
  (forall c v, b !! c = Some v -> v = "strong" \/ v = "weak" \/ v = "missing").

(** Base confidence of each strategy. *)
Definition base_confidence (strategy : string) : option Q :=
  match strategy with
  | "ResumeOptimization" => Some 0.70
  | "SkillGapPatch" => Some 0.55
  | "RoleShift" => Some 0.45
  | "HoldPosition" => Some 0.85
  | _ => None
  end.

(** Severity adjustment: strong +0.10, weak 0, missing -0.10. *)
Definition severity_adjustment (severity : string) : option Q :=
  match severity with
  | "strong" => Some 0.10
  | "weak" => Some 0.00
  | "missing" => Some (-0.10)
  | _ => None
  end.

(** The number of categories other than [d] that are not rated strong. *)
Definition other_non_strong (b : gmap string string) (d : string) : nat :=
  length (filter (fun c => c <> d /\ b !! c <> Some "strong") CATEGORIES).

(** The confidence formula of the specification. *)
Definition specified_confidence
    (strategy : string) (b : gmap string string) (d : string) (c : Q) : Prop :=
  exists base severity adjustment y,
    base_confidence strategy = Some base /\
    b !! d = Some severity /\
    severity_adjustment severity = Some adjustment /\
    is_clamp 0.20 0.95
      (base + adjustment - 0.05 * inject_Z (Z.of_nat (other_non_strong b d))) y /\
    rounds_to_2_decimals y c.

(** The scenario report: evidence_depth weak, every other category
    strong. *)
Definition scenario_report : BottleneckReport :=
  {| implied_role := "Software Engineer";
     bottlenecks :=
       {[ "positioning" := "strong"; "evidence_depth" := "weak";
          "experience_strength" := "strong"; "skill_alignment" := "strong";
          "outcome_visibility" := "strong" ]};
     dominant_issue := Some "evidence_depth";
     justification := "Has projects, internship but missing none; no quantifiable metrics found." |}.

(** The reduced confidence of a fallback strategy. *)
Definition fallback_confidence (strategy : string) : option Q :=
  match strategy with
  | "ResumeOptimization" => Some 0.55
  | "SkillGapPatch" => Some 0.45
  | "RoleShift" => Some 0.35
  | "HoldPosition" => Some 0.70
  | _ => None
  end.

(** The strategy names marked failed in a history. *)
Definition ever_failed (history : list StrategyRecord) (name : string) : Prop :=
  exists h, h ∈ history /\ failed h = true /\ rec_strategy h = name.

(** The three outcome tags. *)
Definition is_outcome_tag (o : string) : Prop :=
  o = "interview" \/ o = "rejected" \/ o = "no_response".

(** The failure trigger of the lifecycle: confidence below 0.30, or at
    least three rejected or no_response outcomes. *)
Definition failure_condition (r : StrategyRecord) : Prop :=
  current_confidence r < 0.30 \/ (3 <= negative_count (outcomes r))%nat.

(** [r'] is the record [r] after updates in place: the strategy and the
    initial confidence are never reassigned, outcomes are only appended. *)
Definition same_attempt (r r' : StrategyRecord) : Prop :=
  rec_strategy r' = rec_strategy r /\
  initial_confidence r' = initial_confidence r /\
  exists more, outcomes r' = (outcomes r ++ more)%list.

(** A record as the constructor call of the engine creates it. *)
Definition brand_new (r : StrategyRecord) : Prop :=
  exists name c, r = new_record name c.

(** A record in RECONSIDER carries the failed flag, as every record the
    engine itself moves to RECONSIDER does. *)
Definition reconsider_is_failed (s : AgentSession) : Prop :=
  forall r, current_strategy s = Some r ->
            strategy_state r = RECONSIDER -> failed r = true.

(** Processing a sequence of outcomes, one full step each. *)
Fixpoint process_outcomes
    (extract : AgentSession -> bool)
    (session : AgentSession) (outcomes : list string) : Completion AgentSession :=
  match outcomes with
  | [] => Returns session
  | o :: rest =>
      match process_outcome extract session o with
      | Returns result => process_outcomes extract (res_session result) rest
      | Raises error session_left => Raises error session_left
      end
  end.

(** The reason the gate gives for a strategy record, by its state. *)
Definition gate_reason (r : StrategyRecord) : Reason :=
  match strategy_state r with
  | EXECUTE => InExecuteState (JStr (rec_strategy r)) (JNum (current_confidence r))
  | EXPLORE => InExploreState (JStr (rec_strategy r))
  | VALIDATE => InValidateState (JStr (rec_strategy r))
  | RECONSIDER => InReconsiderState (JStr (rec_strategy r))
  end.

(** The current strategy of a session document is a record in EXECUTE. *)
Definition document_in_execute (doc : json) : Prop :=
  exists fields record,
    doc = JObj fields /\
    assoc_get "current_strategy" fields = Some (JObj record) /\
    assoc_get "strategy_state" record = Some (JStr "execute").

(** The three ratings of a category. *)
Definition is_severity (v : string) : Prop :=
  v = "strong" \/ v = "weak" \/ v = "missing".

(** The fixed delta of an outcome tag, in hundredths. *)
Definition delta_hundredths (o : string) : option Z :=
  if String.eqb o "interview" then Some 15%Z
  else if String.eqb o "rejected" then Some (-10)%Z
  else if String.eqb o "no_response" then Some (-8)%Z
  else None.

(** [new] is the float sum [old + delta] clamped to [[0.10, 0.95]] and
    rounded to two decimals: the upper bound when the sum is not below it,
    the lower bound when the sum is not above it, and otherwise a hundredth
    nearest to the sum. *)
Definition float_confidence_step (old delta new : Binary64.float) : Prop :=
  let sum := Binary64.add old delta in
  let lo := Binary64.decimal 10 100 in
  let hi := Binary64.decimal 95 100 in
  (Binary64.lt sum hi = false -> new = hi) /\
  (Binary64.lt sum hi = true -> Binary64.lt lo sum = false -> new = lo) /\
  (Binary64.lt lo sum = true -> Binary64.lt sum hi = true ->
   exists k : Z, new = Binary64.decimal k 100 /\
                 Qabs (inject_Z k / 100 - Binary64.value sum) <= 1 # 200).

(** The invariant of a confidence held as a float: one of the hundredths
    0.10, 0.11, ..., 0.95. *)
Definition float_confidence_invariant (c : Binary64.float) : Prop :=
  exists k : Z, (10 <= k <= 95)%Z /\ c = Binary64.decimal k 100.

(** The float [f] holds the decimal [q], a hundredth between 0 and 1. *)
Definition holds_decimal (f : Binary64.float) (q : Q) : Prop :=
  exists k : Z, (0 <= k <= 100)%Z /\ f = Binary64.decimal k 100 /\
                q == inject_Z k / 100.

(** On the hundredth [k / 100] the float update with the float delta and
    the decimal update with the decimal delta give the same hundredth. *)
Definition grid_agrees (delta_f : Binary64.float) (delta_q : Q) (k : Z) : bool :=
  bool_decide
    (Binary64.py_round2
       (Binary64.py_max (Binary64.decimal 10 100)
          (Binary64.py_min (Binary64.decimal 95 100)
             (Binary64.add (Binary64.decimal k 100) delta_f)))
     = Binary64.decimal
         (round_half_even
            (py_max 0.10 (py_min 0.95 (inject_Z k / 100 + delta_q)) * 100)) 100).

(** What the gate reads from a strategy record document, with the defaults
    for absent keys. *)
Definition state_read (record : list (string * json)) : json :=
  default (JStr "explore") (assoc_get "strategy_state" record).
Definition name_read (record : list (string * json)) : json :=
  default (JStr "Unknown") (assoc_get "strategy" record).
Definition confidence_read (record : list (string * json)) : json :=
  default (JNum 0.0) (assoc_get "current_confidence" record).

(** The shape of a session document: a dict whose [current_strategy], when
    the key is present, is [null] or a dict. *)
Definition session_document (doc : json) : Prop :=
  exists fields,
    doc = JObj fields /\
    (assoc_get "current_strategy" fields = None \/
     assoc_get "current_strategy" fields = Some JNull \/
     exists record, assoc_get "current_strategy" fields = Some (JObj record)).

End Spec.

Export Spec.

(** ** Sample inputs *)

Module Samples.

(** A resume with three skills, projects and an internship. *)
Definition sample_evidence : Evidence :=
  {| normalized_skills := ["Python"; "SQL"; "React"];
     skill_evidence_map :=
       {[ "Python" := ["project"; "internship"]; "SQL" := ["listed_only"] ]};
     section_signals :=
       Some {[ "has_projects" := true; "has_internship" := true ]} |}.

(** The stage outputs of the scenarios of test_state_machine.py. *)
Definition blank_evidence : Evidence :=
  {| normalized_skills := []; skill_evidence_map := ∅; section_signals := Some ∅ |}.

Definition depth_report : BottleneckReport :=
  {| implied_role := "Software Engineer";
     bottlenecks := {[ "evidence_depth" := "weak" ]};
     dominant_issue := Some "evidence_depth";
     justification := "Limited project depth" |}.

Definition depth_decision : StrategyDecision :=
  {| strategy := "ResumeOptimization";
     action := "Add detailed project descriptions";
     confidence := 0.70 |}.

(** The session of the success path, freshly initialized. *)
Definition fresh_session : AgentSession :=
  initialize_session blank_evidence depth_report depth_decision.

(** The sessions of the other three scenarios of test_state_machine.py. *)
Definition skill_gap_session : AgentSession :=
  initialize_session blank_evidence
    {| implied_role := "Data Scientist";
       bottlenecks := {[ "skill_alignment" := "missing" ]};
       dominant_issue := Some "skill_alignment";
       justification := "Missing key skills" |}
    {| strategy := "SkillGapPatch";
       action := "Complete Python certification";
       confidence := 0.55 |}.

Definition positioning_session : AgentSession :=
  initialize_session blank_evidence
    {| implied_role := "Frontend Developer";
       bottlenecks := {[ "positioning" := "weak" ]};
       dominant_issue := Some "positioning";
       justification := "Unclear positioning" |}
    {| strategy := "ResumeOptimization";
       action := "Clarify role positioning";
       confidence := 0.68 |}.

Definition role_shift_session : AgentSession :=
  initialize_session blank_evidence
    {| implied_role := "Backend Engineer";
       bottlenecks := {[ "experience_strength" := "missing" ]};
       dominant_issue := Some "experience_strength";
       justification := "No professional experience" |}
    {| strategy := "RoleShift";
       action := "Target entry-level roles";
       confidence := 0.45 |}.

(** The signals dict of the third scenario. *)
Definition positioning_issue_signals : SignalsArgument :=
  SignalsDict {| signals := {[ "resume_positioning_issue" := true ]} |}.

(** What a run leaves: the state and confidence of the current record and
    the strategy, state, confidence and failed flag of each archived one. *)
Definition summary (c : Completion AgentSession)
    : option (option (string * StrategyState * Q)
              * list (string * StrategyState * Q * bool)) :=
  match c with
  | Returns s =>
      Some ((fun r => (rec_strategy r, strategy_state r, current_confidence r))
              <$> current_strategy s,
            (fun r => (rec_strategy r, strategy_state r, current_confidence r, failed r))
              <$> strategy_history s)
  | Raises _ _ => None
  end.

(** No profile signal layer. *)
Definition no_signals : AgentSession -> bool := fun _ => false.

Definition with_current (r : StrategyRecord) : AgentSession :=
  {| stage1_evidence := blank_evidence;
     stage2_bottleneck := depth_report;
     stage3_strategy := depth_decision;
     current_strategy := Some r;
     strategy_history := [];
     loop_iteration := 0;
     explanation_log := [] |}.

(** A validated record: two interviews, state EXECUTE. *)
Definition execute_record : StrategyRecord :=
  {| rec_strategy := "ResumeOptimization";
     initial_confidence := 0.70;
     current_confidence := 0.95;
     outcomes := ["interview"; "interview"];
     failed := false;
     strategy_state := EXECUTE |}.

(** A session document whose record is in RECONSIDER without the failed
    flag. *)
Definition unflagged_reconsider_record : StrategyRecord :=
  {| rec_strategy := "ResumeOptimization";
     initial_confidence := 0.70;
     current_confidence := 0.70;
     outcomes := [];
     failed := false;
     strategy_state := RECONSIDER |}.

(** A record that failed on low confidence. *)
Definition failed_record : StrategyRecord :=
  {| rec_strategy := "RoleShift";
     initial_confidence := 0.45;
     current_confidence := 0.29;
     outcomes := ["no_response"; "no_response"];
     failed := true;
     strategy_state := RECONSIDER |}.

End Samples.

Export Samples.

(** * More of the engine *)

(** ** The strategy catalogue (strategy_selector.py) *)

Module StrategyCatalogue.
(** [STRATEGIES] of strategy_selector.py. *)
Definition STRATEGIES : gset string :=
  {[ "ResumeOptimization"; "SkillGapPatch"; "RoleShift"; "HoldPosition" ]}.
End StrategyCatalogue.
Export StrategyCatalogue.

(** ** A resume without bottlenecks *)

Module MoreSamples.
(** A resume on which every category is strong. *)
Definition strong_evidence : Evidence :=
  {| normalized_skills := ["Python"; "SQL"; "Excel"; "Tableau"];
     skill_evidence_map :=
       {[ "Python" := ["project"; "internship"]; "SQL" := ["project"; "internship"] ]};
     section_signals :=
       Some {[ "has_projects" := true; "has_internship" := true;
               "has_metrics" := true; "has_deployment" := true ]} |}.
End MoreSamples.
Export MoreSamples.

(** ** One step on the current record and what a run keeps (agent_loop.py) *)

Module Lifecycle.

(** The record of the current strategy once [record_outcome] has appended
    the outcome and updated the confidence. *)
Definition recorded (r : StrategyRecord) (o : string) : StrategyRecord :=
  set_confidence (append_outcome r o) (update_confidence (current_confidence r) o).

(** The same record once [evaluate_strategy_state] has run without
    profile signals. *)
Definition evaluated (r : StrategyRecord) (o : string) : StrategyRecord :=
  let r1 := recorded r o in
  if should_invalidate (set_failed r1 false)
  then set_failed (set_state r1 RECONSIDER) true
  else set_state r1 (next_state r1 false).1.

(** What a lifecycle state certifies about the outcomes of its record. *)
Definition earned (r : StrategyRecord) : Prop :=
  match strategy_state r with
  | EXPLORE => True
  | VALIDATE => (1 <= interview_count (outcomes r))%nat
  | EXECUTE => (2 <= interview_count (outcomes r))%nat
  | RECONSIDER => False
  end.

(** An archived attempt: flagged failed, in RECONSIDER, with the failure
    trigger holding after at least one recorded outcome. *)
Definition archived_failed (h : StrategyRecord) : Prop :=
  failed h = true /\ strategy_state h = RECONSIDER /\ failure_condition h /\
  outcomes h <> [].

(** The bookkeeping of a session between two steps. *)
Definition run_invariant (s : AgentSession) : Prop :=
  loop_iteration s = Z.of_nat (length (strategy_history s)) /\
  Forall archived_failed (strategy_history s) /\
  exists r, current_strategy s = Some r /\ failed r = false /\ earned r /\
            (outcomes r <> [] -> ~ failure_condition r).

(** Every outcome the session holds, oldest attempt first. *)
Definition all_outcomes (s : AgentSession) : list string :=
  (concat (outcomes <$> strategy_history s)
   ++ from_option outcomes [] (current_strategy s))%list.

End Lifecycle.
Export Lifecycle.

(** ** Session documents (agent_loop.py: to_dict, _reconstruct_session) *)

Module SessionDocument.

(** Sequencing of reads that may raise. *)
#[export] Instance Attempt_ret : MRet Attempt := fun _ x => Done x.
#[export] Instance Attempt_bind : MBind Attempt :=
  fun _ _ f m => match m with Done x => f x | Fails e => Fails e end.
#[export] Instance Attempt_fmap : FMap Attempt :=
  fun _ _ f m => match m with Done x => Done (f x) | Fails e => Fails e end.

(** A [StrategyRecord] as [_reconstruct_session] builds it from a parsed
    document: no field is validated, each holds the value found. *)
Record RawRecord := mkRawRecord {
  raw_strategy : json;
  raw_initial_confidence : json;
  raw_current_confidence : json;
  raw_outcomes : json;
  raw_failed : json;
  raw_strategy_state : json;
}.

(** An [AgentSession] built from a parsed document. *)
Record RawSession := mkRawSession {
  raw_stage1_evidence : json;
  raw_stage2_bottleneck : json;
  raw_stage3_strategy : json;
  raw_current_strategy : option RawRecord;
  raw_strategy_history : list RawRecord;
  raw_loop_iteration : json;
  raw_explanation_log : json;
}.

(** [StrategyRecord.to_dict] *)
Definition to_dict (r : RawRecord) : json :=
  JObj [ ("strategy", raw_strategy r);
         ("initial_confidence", raw_initial_confidence r);
         ("current_confidence", raw_current_confidence r);
         ("outcomes", raw_outcomes r);
         ("failed", raw_failed r);
         ("strategy_state", raw_strategy_state r) ].

(** [AgentSession.to_dict]; a dataclass instance is truthy, so the current
    strategy is serialised whenever there is one. *)
Definition session_to_dict (s : RawSession) : json :=
  JObj [ ("stage1_evidence", raw_stage1_evidence s);
         ("stage2_bottleneck", raw_stage2_bottleneck s);
         ("stage3_strategy", raw_stage3_strategy s);
         ("current_strategy", from_option to_dict JNull (raw_current_strategy s));
         ("strategy_history", JArr (to_dict <$> raw_strategy_history s));
         ("loop_iteration", raw_loop_iteration s);
         ("explanation_log", raw_explanation_log s) ].

(** [d.get(key, fallback)] *)
Definition get_or (d : json) (key : string) (fallback : json) : Attempt json :=
  found ← py_get d key; mret (default fallback found).

(** [StrategyRecord(strategy=d["strategy"], initial_confidence=
    d["initial_confidence"], current_confidence=d["current_confidence"],
    outcomes=d.get("outcomes", []), failed=d.get("failed", False),
    strategy_state=d.get("strategy_state", StrategyState.EXPLORE))] *)
Definition reconstruct_record (d : json) : Attempt RawRecord :=
  strategy ← py_item d "strategy";
  initial_confidence ← py_item d "initial_confidence";
  current_confidence ← py_item d "current_confidence";
  outcomes ← get_or d "outcomes" (JArr []);
  failed ← get_or d "failed" (JBool false);
  strategy_state ← get_or d "strategy_state" (JStr "explore");
  mret {| raw_strategy := strategy;
          raw_initial_confidence := initial_confidence;
          raw_current_confidence := current_confidence;
          raw_outcomes := outcomes;
          raw_failed := failed;
          raw_strategy_state := strategy_state |}.

(** The characters of a string, each a string of length one. *)
Fixpoint characters (s : string) : list string :=
  match s with
  | EmptyString => []
  | String c rest => String c EmptyString :: characters rest
  end.

(** [for item in value]: a list yields its items, a dict its keys, a
    string its characters; nothing else is iterable. *)
Definition py_iter (value : json) : Attempt (list json) :=
  match value with
  | JArr items => Done items
  | JObj fields => Done (JStr <$> fields.*1)
  | JStr s => Done (JStr <$> characters s)
  | JNull | JBool _ | JNum _ => Fails TypeError
  end.

(** The loop over [strategy_history]. *)
Fixpoint reconstruct_history (items : list json) : Attempt (list RawRecord) :=
  match items with
  | [] => Done []
  | hist :: rest =>
      record ← reconstruct_record hist;
      records ← reconstruct_history rest;
      mret (record :: records)
  end.

Definition _reconstruct_session (data : json) : Attempt RawSession :=
  stage1_evidence ← get_or data "stage1_evidence" (JObj []);
  stage2_bottleneck ← get_or data "stage2_bottleneck" (JObj []);
  stage3_strategy ← get_or data "stage3_strategy" (JObj []);
  loop_iteration ← get_or data "loop_iteration" (JNum 0);
  explanation_log ← get_or data "explanation_log" (JArr []);
  current ← get_or data "current_strategy" JNull;
  current_strategy ←
    (if truthy current then Some <$> reconstruct_record current else mret None);
  history ← get_or data "strategy_history" (JArr []);
  items ← py_iter history;
  strategy_history ← reconstruct_history items;
  mret {| raw_stage1_evidence := stage1_evidence;
          raw_stage2_bottleneck := stage2_bottleneck;
          raw_stage3_strategy := stage3_strategy;
          raw_current_strategy := current_strategy;
          raw_strategy_history := strategy_history;
          raw_loop_iteration := loop_iteration;
          raw_explanation_log := explanation_log |}.

(** A record of the loop as a record of a document. *)
Definition raw_record (r : StrategyRecord) : RawRecord :=
  {| raw_strategy := JStr (rec_strategy r);
     raw_initial_confidence := JNum (initial_confidence r);
     raw_current_confidence := JNum (current_confidence r);
     raw_outcomes := JArr (JStr <$> outcomes r);
     raw_failed := JBool (failed r);
     raw_strategy_state := JStr (state_value (strategy_state r)) |}.

End SessionDocument.
Export SessionDocument.

(** ** Session documents of the gating tests (test_roadmap_gating.py) *)

Module DocumentSamples.
(** [create_test_session] of test_roadmap_gating.py. *)
Definition create_test_session (strategy_state strategy_name : string) : json :=
  JObj [ ("stage1_evidence",
           JObj [("years_of_experience", JNum 5); ("skill_count", JNum 10)]);
         ("stage2_bottleneck", JObj [("primary_issue", JStr "weak_skills")]);
         ("stage3_strategy",
           JObj [("strategy", JStr strategy_name); ("action", JStr "Test action");
                 ("confidence", JNum 0.7)]);
         ("current_strategy",
           JObj [("strategy", JStr strategy_name);
                 ("initial_confidence", JNum 0.6);
                 ("current_confidence", JNum 0.7);
                 ("outcomes", JArr [JStr "interview"]);
                 ("failed", JBool false);
                 ("strategy_state", JStr strategy_state)]);
         ("strategy_history", JArr []);
         ("loop_iteration", JNum 1);
         ("explanation_log", JArr []) ].

(** A session written before the lifecycle state existed. *)
Definition legacy_record : list (string * json) :=
  [ ("strategy", JStr "SkillGapPatch");
    ("initial_confidence", JNum 0.55);
    ("current_confidence", JNum 0.45) ].

Definition legacy_session : list (string * json) :=
  [ ("current_strategy", JObj legacy_record) ].
End DocumentSamples.
Export DocumentSamples.

(** ** Roadmap invalidation (roadmap_generator.py) *)

Module RoadmapInvalidation.

(** Python's [==] on parsed values: a number and a bool compare by value
    ([True == 1]), lists item by item, dicts key by key. *)
Fixpoint py_eq (a b : json) : bool :=
  match a, b with
  | JNull, JNull => true
  | JBool x, JBool y => Bool.eqb x y
  | JBool x, JNum q | JNum q, JBool x => Qeq_bool q (if x then 1 else 0)
  | JNum p, JNum q => Qeq_bool p q
  | JStr s, JStr t => String.eqb s t
  | JArr xs, JArr ys =>
      (fix items (xs ys : list json) {struct xs} : bool :=
         match xs, ys with
         | [], [] => true
         | x :: xs', y :: ys' => py_eq x y && items xs' ys'
         | _, _ => false
         end) xs ys
  | JObj f, JObj g =>
      (length f =? length g)%nat &&
      (fix entries (f : list (string * json)) {struct f} : bool :=
         match f with
         | [] => true
         | (k, v) :: f' =>
             match assoc_get k g with
             | Some w => py_eq v w
             | None => false
             end && entries f'
         end) f
  | _, _ => false
  end.

(** [d[key] = value] on the entries of a dict. *)
Fixpoint assoc_set (key : string) (value : json) (fields : list (string * json))
    : list (string * json) :=
  match fields with
  | [] => [(key, value)]
  | (k, v) :: rest =>
      if String.eqb key k then (k, value) :: rest
      else (k, v) :: assoc_set key value rest
  end.

(** The text written to [invalidation_reason], with the values it
    interpolates. *)
Inductive InvalidationReason :=
| StrategyChanged (roadmap_strategy current_strategy_name : json)
| EnteredReconsider
| LeftExecute (current_state : json).

(** What the call returns: the roadmap dict, and the reason written to its
    [invalidation_reason] entry when the call invalidates it. *)
Record Checked := mkChecked {
  roadmap_after : json;
  written_reason : option InvalidationReason;
}.

(** [roadmap["invalidated"] = True; roadmap["invalidation_reason"] = ...;
    return roadmap] *)
Definition invalidate (roadmap : list (string * json)) (reason : InvalidationReason)
    : Attempt Checked :=
  Done {| roadmap_after := JObj (assoc_set "invalidated" (JBool true) roadmap);
          written_reason := Some reason |}.

Definition invalidate_roadmap_if_strategy_changed (roadmap current_session : json)
    : Attempt Checked :=
  invalidated ← py_get roadmap "invalidated";
  if truthy (default JNull invalidated) then
    mret {| roadmap_after := roadmap; written_reason := None |}
  else
    current_strategy ← get_or current_session "current_strategy" (JObj []);
    current_strategy_name ← get_or current_strategy "strategy" JNull;
    current_state ← get_or current_strategy "strategy_state" JNull;
    roadmap_strategy ← py_item roadmap "strategy";
    match roadmap with
    | JObj fields =>
        if negb (py_eq roadmap_strategy current_strategy_name) then
          invalidate fields (StrategyChanged roadmap_strategy current_strategy_name)
        else if is_str current_state "reconsider" then
          invalidate fields EnteredReconsider
        else if negb (is_str current_state "execute") then
          invalidate fields (LeftExecute current_state)
        else mret {| roadmap_after := roadmap; written_reason := None |}
    | _ => Fails AttributeError
    end.

End RoadmapInvalidation.
Export RoadmapInvalidation.

(** ** A roadmap dict *)

Module RoadmapSamples.
(** The entries of a roadmap dict that the check reads, as
    [Roadmap.to_dict] writes them. *)
Definition sample_roadmap_entries : list (string * json) :=
  [ ("strategy", JStr "ResumeOptimization");
    ("phase", JStr "execute");
    ("version", JNum 1);
    ("invalidated", JBool false);
    ("invalidation_reason", JNull) ].

Definition sample_roadmap : json := JObj sample_roadmap_entries.
End RoadmapSamples.
Export RoadmapSamples.

(** ** Skill depth and profile signals (career_snapshot.py) *)

Module CareerSnapshot.

(** Skill maturity classification. *)
Inductive SkillDepth := THEORETICAL | APPLIED | PRODUCTION.

#[global] Instance SkillDepth_eq_dec : EqDecision SkillDepth.
Proof. solve_decision. Defined.

Definition depth_value (d : SkillDepth) : string :=
  match d with
  | THEORETICAL => "theoretical"
  | APPLIED => "applied"
  | PRODUCTION => "production"
  end.

(** Where skill evidence was observed. *)
Inductive EvidenceSource := COURSE | CERTIFICATION | PROJECT | INTERNSHIP | JOB.

(** [EvidenceSource(source_str)]: the member with that value; [None]
    stands for the ValueError of an unknown value. *)
Definition evidence_source (source_str : string) : option EvidenceSource :=
  if String.eqb source_str "course" then Some COURSE
  else if String.eqb source_str "certification" then Some CERTIFICATION
  else if String.eqb source_str "project" then Some PROJECT
  else if String.eqb source_str "internship" then Some INTERNSHIP
  else if String.eqb source_str "job" then Some JOB
  else None.

Definition EVIDENCE_DEPTH_MAP (source : EvidenceSource) : SkillDepth :=
  match source with
  | COURSE | CERTIFICATION => THEORETICAL
  | PROJECT => APPLIED
  | INTERNSHIP | JOB => PRODUCTION
  end.

(** Depth precedence (higher index = higher precedence). *)
Definition DEPTH_PRECEDENCE : list SkillDepth := [THEORETICAL; APPLIED; PRODUCTION].

(** [DEPTH_PRECEDENCE.index(depth)] *)
Definition precedence_index (depth : SkillDepth) : nat :=
  default 0%nat (fst <$> list_find (fun d => d = depth) DEPTH_PRECEDENCE).

Definition determine_skill_depth (evidence_sources : list string) : string :=
  match evidence_sources with
  | [] => depth_value THEORETICAL
  | _ =>
      depth_value
        (foldl (fun max_depth source_str =>
                  match evidence_source source_str with
                  | Some source =>
                      let depth := EVIDENCE_DEPTH_MAP source in
                      if (precedence_index max_depth <? precedence_index depth)%nat
                      then depth else max_depth
                  | None => max_depth
                  end)
               THEORETICAL evidence_sources)
  end.

(** The counts of an [EnhancedSnapshot] that the signal extraction reads. *)
Record EnhancedSnapshot := mkSnapshot {
  total_skills : Z;
  theoretical_count : Z;
  applied_count : Z;
  production_count : Z;
  project_count : Z;
  internship_count : Z;
  job_count : Z;
  certification_count : Z;
  course_count : Z;
}.

(** Entries of [derived_from], with the values they interpolate. *)
Inductive Derivation :=
| SkillCount (n : Z)
| ProjectCount (n : Z)
| TheoreticalRatio (ratio : Binary64.float)
| NoProjects
| ExcessiveSkills
| NoInternships
| Certifications (n : Z)
| ManyCertifications
| NoJobs
| NoOutcomeData
| Interviews (n : nat)
| RejectionRatio (ratio : Binary64.float)
| ConsecutiveRejections (n : nat).

(** A derived career signal with confidence and explanation.  The
    confidence is a float: the extractors add their boosts without
    rounding. *)
Record ProfileSignal := mkSignal {
  name : string;
  confidence : Binary64.float;
  triggered : bool;
  derived_from : list Derivation;
  explanation : string;
}.

(** Signal thresholds. *)
Definition overlearning_skill_min : Z := 10.
Definition overlearning_project_max : Z := 2.
Definition overlearning_theoretical_ratio : Binary64.float := Binary64.decimal 6 10.
Definition exposure_internship_max : Z := 0.
Definition exposure_certification_min : Z := 2.
Definition positioning_interview_min : nat := 1.
Definition positioning_rejection_ratio : Binary64.float := Binary64.decimal 8 10.
Definition execution_interview_min : nat := 3.
Definition execution_rejection_consecutive : nat := 2.

(** [explanation if triggered else "Not detected"] *)
Definition explain (triggered : bool) (text : string) : string :=
  if triggered then text else "Not detected".

(** [min(confidence, 1.0)] *)
Definition capped (confidence : Binary64.float) : Binary64.float :=
  Binary64.py_min confidence (Binary64.decimal 1 1).

Definition extract_overlearning_trap (snapshot : EnhancedSnapshot) : ProfileSignal :=
  let skill_count := total_skills snapshot in
  let project_count := project_count snapshot in
  let theoretical_ratio :=
    if (0 <? total_skills snapshot)%Z
    then Binary64.decimal (theoretical_count snapshot) (Z.to_pos (total_skills snapshot))
    else Binary64.integer 0 in
  let '(derived_from, confidence, triggered) :=
    if (overlearning_skill_min <=? skill_count)%Z then
      let derived_from := [SkillCount skill_count] in
      if (project_count <=? overlearning_project_max)%Z then
        let derived_from := (derived_from ++ [ProjectCount project_count])%list in
        let confidence := Binary64.decimal 5 10 in
        let '(derived_from, confidence) :=
          if Binary64.lt overlearning_theoretical_ratio theoretical_ratio
          then ((derived_from ++ [TheoreticalRatio theoretical_ratio])%list,
                Binary64.add confidence (Binary64.decimal 2 10))
          else (derived_from, confidence) in
        let '(derived_from, confidence) :=
          if (project_count =? 0)%Z
          then ((derived_from ++ [NoProjects])%list,
                Binary64.add confidence (Binary64.decimal 2 10))
          else (derived_from, confidence) in
        let '(derived_from, confidence) :=
          if (20 <? skill_count)%Z
          then ((derived_from ++ [ExcessiveSkills])%list,
                Binary64.add confidence (Binary64.decimal 1 10))
          else (derived_from, confidence) in
        (derived_from, confidence, true)
      else (derived_from, Binary64.decimal 0 1, false)
    else ([], Binary64.decimal 0 1, false) in
  {| name := "overlearning_trap";
     confidence := capped confidence;
     triggered := triggered;
     derived_from := derived_from;
     explanation :=
       explain triggered
         "Candidate lists many skills but has few practical applications. May indicate credential collection without real-world validation." |}.

Definition extract_market_exposure_gap (snapshot : EnhancedSnapshot) : ProfileSignal :=
  let internship_count := internship_count snapshot in
  let job_count := job_count snapshot in
  let certification_count := certification_count snapshot in
  let '(derived_from, confidence, triggered) :=
    if (internship_count <=? exposure_internship_max)%Z then
      let derived_from := [NoInternships] in
      if (exposure_certification_min <=? certification_count)%Z then
        let derived_from := (derived_from ++ [Certifications certification_count])%list in
        let confidence := Binary64.decimal 6 10 in
        let '(derived_from, confidence) :=
          if (4 <? certification_count)%Z
          then ((derived_from ++ [ManyCertifications])%list,
                Binary64.add confidence (Binary64.decimal 2 10))
          else (derived_from, confidence) in
        let '(derived_from, confidence) :=
          if (job_count =? 0)%Z
          then ((derived_from ++ [NoJobs])%list,
                Binary64.add confidence (Binary64.decimal 2 10))
          else (derived_from, confidence) in
        (derived_from, confidence, true)
      else (derived_from, Binary64.decimal 0 1, false)
    else ([], Binary64.decimal 0 1, false) in
  {| name := "market_exposure_gap";
     confidence := capped confidence;
     triggered := triggered;
     derived_from := derived_from;
     explanation :=
       explain triggered
         "Candidate has training credentials but lacks market exposure through internships or employment." |}.

(** [outcomes.count(tag)] *)
Definition count (tag : string) (outcomes : list string) : nat :=
  length (filter (fun o => o = tag) outcomes).

(** The signal returned when there is no outcome history. *)
Definition no_outcome_data (signal_name : string) : ProfileSignal :=
  {| name := signal_name;
     confidence := Binary64.decimal 0 1;
     triggered := false;
     derived_from := [NoOutcomeData];
     explanation := "Cannot evaluate without outcome history" |}.

Definition extract_resume_positioning_issue
    (snapshot : EnhancedSnapshot) (outcomes : list string) : ProfileSignal :=
  match outcomes with
  | [] => no_outcome_data "resume_positioning_issue"
  | _ =>
      let interview_count := count "interview" outcomes in
      let rejection_count := count "rejected" outcomes in
      let '(derived_from, confidence, triggered) :=
        if (positioning_interview_min <=? interview_count)%nat then
          let derived_from := [Interviews interview_count] in
          let meaningful_outcomes := (interview_count + rejection_count)%nat in
          if (0 <? meaningful_outcomes)%nat then
            let rejection_ratio :=
              Binary64.decimal (Z.of_nat rejection_count)
                               (Pos.of_nat meaningful_outcomes) in
            if Binary64.le positioning_rejection_ratio rejection_ratio
            then ((derived_from ++ [RejectionRatio rejection_ratio])%list,
                  Binary64.add (Binary64.decimal 5 10)
                    (Binary64.mul rejection_ratio (Binary64.decimal 4 10)),
                  true)
            else (derived_from, Binary64.decimal 0 1, false)
          else (derived_from, Binary64.decimal 0 1, false)
        else ([], Binary64.decimal 0 1, false) in
      {| name := "resume_positioning_issue";
         confidence := capped confidence;
         triggered := triggered;
         derived_from := derived_from;
         explanation :=
           explain triggered
             "Resume attracts interviews but fails to convert. May indicate mismatch between resume positioning and actual capabilities." |}
  end.

(** The loop of [extract_execution_gap] over the outcomes: the longest
    streak of rejections after an interview, the current streak and
    whether an interview was seen. *)
Definition streak_step (state : nat * nat * bool) (outcome : string)
    : nat * nat * bool :=
  let '(max_consecutive_rejections, current_streak, had_interview) := state in
  if String.eqb outcome "interview" then
    (max_consecutive_rejections, 0%nat, true)
  else if String.eqb outcome "rejected" && had_interview then
    (Nat.max max_consecutive_rejections (current_streak + 1),
     (current_streak + 1)%nat, had_interview)
  else state.

Definition max_consecutive_rejections (outcomes : list string) : nat :=
  (foldl streak_step (0%nat, 0%nat, false) outcomes).1.1.

Definition extract_execution_gap
    (snapshot : EnhancedSnapshot) (outcomes : list string) : ProfileSignal :=
  match outcomes with
  | [] => no_outcome_data "execution_gap"
  | _ =>
      let interview_count := count "interview" outcomes in
      let max_consecutive := max_consecutive_rejections outcomes in
      let '(derived_from, confidence, triggered) :=
        if (execution_interview_min <=? interview_count)%nat then
          let derived_from := [Interviews interview_count] in
          if (execution_rejection_consecutive <=? max_consecutive)%nat then
            let extra_rejections :=
              (max_consecutive - execution_rejection_consecutive)%nat in
            ((derived_from ++ [ConsecutiveRejections max_consecutive])%list,
             Binary64.add (Binary64.decimal 6 10)
               (Binary64.py_min
                  (Binary64.mul (Binary64.of_int (Z.of_nat extra_rejections))
                                    (Binary64.decimal 1 10))
                  (Binary64.decimal 3 10)),
             true)
          else (derived_from, Binary64.decimal 0 1, false)
        else ([], Binary64.decimal 0 1, false) in
      {| name := "execution_gap";
         confidence := capped confidence;
         triggered := triggered;
         derived_from := derived_from;
         explanation :=
           explain triggered
             "Candidate gets interviews but shows pattern of repeated rejections. May indicate interview performance issues or role-fit problems." |}
  end.

(** Entries of [extraction_notes]. *)
Inductive ExtractionNote :=
| ExtractedSignals (n : nat)
| TriggeredSignals (n : nat)
| OutcomeHistory (n : nat)
| NoOutcomeHistory.

(** Collection of all extracted profile signals, in insertion order. *)
Record ProfileSignals := mkProfileSignals {
  signals : list (string * ProfileSignal);
  extraction_notes : list ExtractionNote;
}.

(** [outcomes = outcomes or []] makes [None] the empty list. *)
Definition extract_profile_signals
    (snapshot : EnhancedSnapshot) (outcomes : option (list string)) : ProfileSignals :=
  let outcomes := default [] outcomes in
  let signals :=
    [ ("overlearning_trap", extract_overlearning_trap snapshot);
      ("market_exposure_gap", extract_market_exposure_gap snapshot);
      ("resume_positioning_issue", extract_resume_positioning_issue snapshot outcomes);
      ("execution_gap", extract_execution_gap snapshot outcomes) ] in
  let triggered_count :=
    length (filter (fun s : string * ProfileSignal => triggered s.2 = true) signals) in
  {| signals := signals;
     extraction_notes :=
       [ ExtractedSignals (length signals);
         TriggeredSignals triggered_count;
         match outcomes with
         | [] => NoOutcomeHistory
         | _ => OutcomeHistory (length outcomes)
         end ] |}.

End CareerSnapshot.

(** *** Profile signals *)

(** ** A snapshot *)

Module SnapshotSamples.
(** A snapshot of a resume with twelve skills and one project. *)
Definition sample_snapshot : CareerSnapshot.EnhancedSnapshot :=
  {| CareerSnapshot.total_skills := 12;
     CareerSnapshot.theoretical_count := 9;
     CareerSnapshot.applied_count := 3;
     CareerSnapshot.production_count := 0;
     CareerSnapshot.project_count := 1;
     CareerSnapshot.internship_count := 0;
     CareerSnapshot.job_count := 0;
     CareerSnapshot.certification_count := 3;
     CareerSnapshot.course_count := 4 |}.
End SnapshotSamples.
Export SnapshotSamples.

(** ** A session that has run out of strategies *)

Module ExhaustedSamples.
(** An attempt that failed on three rejections. *)
Definition rejected_attempt (strategy : string) : StrategyRecord :=
  {| rec_strategy := strategy;
     initial_confidence := 0.55;
     current_confidence := 0.25;
     outcomes := ["rejected"; "rejected"; "rejected"];
     failed := true;
     strategy_state := RECONSIDER |}.

(** A session in which the first three strategies have failed and the
    fallback has put HoldPosition in place. *)
Definition exhausted_session : AgentSession :=
  {| stage1_evidence := blank_evidence;
     stage2_bottleneck := analyze_bottlenecks blank_evidence;
     stage3_strategy :=
       {| strategy := "HoldPosition";
          action := "Maintain current positioning and continue application process.";
          confidence := 0.70 |};
     current_strategy :=
       Some {| rec_strategy := "HoldPosition";
               initial_confidence := 0.70;
               current_confidence := 0.50;
               outcomes := ["rejected"; "rejected"];
               failed := false;
               strategy_state := EXPLORE |};
     strategy_history :=
       [ rejected_attempt "RoleShift"; rejected_attempt "ResumeOptimization";
         rejected_attempt "SkillGapPatch" ];
     loop_iteration := 3;
     explanation_log := [] |}.
End ExhaustedSamples.
Export ExhaustedSamples.

(** * Properties *)

(** ** Arithmetic of the confidence model *)

(** Linear arithmetic after division by the constant 100 is written as a
    product. *)
Ltac hundredths :=
  unfold Qdiv in *; change (/ 100) with (1 # 100) in *.

Lemma Qltb_lt (x y : Q) : Qltb x y = true <-> x < y.
Proof.
  unfold Qltb. rewrite negb_true_iff, <- not_true_iff_false, Qle_bool_iff.
  split; [apply Qnot_le_lt | apply Qlt_not_le].
Qed.

Lemma Qltb_ge (x y : Q) : Qltb x y = false <-> y <= x.
Proof.
  unfold Qltb. rewrite negb_false_iff, Qle_bool_iff. reflexivity.
Qed.

Lemma Qgeb_ge (x y : Q) : Qgeb x y = true <-> y <= x.
Proof. unfold Qgeb. apply Qle_bool_iff. Qed.

Lemma py_clamp_is_clamp (lo hi x : Q) :
  lo <= hi -> is_clamp lo hi x (py_max lo (py_min hi x)).
Proof.
  intros Hlh. unfold is_clamp, py_max, py_min.
  destruct (Qltb x hi) eqn:Hx.
  - apply Qltb_lt in Hx.
    destruct (Qltb lo x) eqn:Hl.
    + apply Qltb_lt in Hl. right; right. split; [lra | reflexivity].
    + apply Qltb_ge in Hl. left. split; [lra | reflexivity].
  - apply Qltb_ge in Hx.
    destruct (Qltb lo hi) eqn:Hl.
    + right; left. split; [lra | reflexivity].
    + apply Qltb_ge in Hl. right; left. split; [lra | lra].
Qed.

Lemma is_clamp_bounds (lo hi x y : Q) :
  lo <= hi -> is_clamp lo hi x y -> lo <= y <= hi.
Proof. intros Hlh [[? ?]|[[? ?]|[? ?]]]; lra. Qed.

Lemma round_half_even_cases (q : Q) :
  round_half_even q = Qfloor q \/ round_half_even q = (Qfloor q + 1)%Z.
Proof.
  unfold round_half_even.
  destruct (Qcompare _ _); [destruct (Z.even _) | |]; auto.
Qed.

Lemma round_half_even_near (q : Q) :
  Qabs (inject_Z (round_half_even q) - q) <= 1 # 2.
Proof.
  apply Qabs_Qle_condition.
  pose proof (Qfloor_le q) as Hle.
  pose proof (Qlt_floor q) as Hlt.
  rewrite inject_Z_plus in Hlt.
  unfold round_half_even.
  destruct (Qcompare_spec (q - inject_Z (Qfloor q)) (1 # 2)) as [He|Hl|Hg].
  - destruct (Z.even (Qfloor q)); rewrite ?inject_Z_plus;
      set (F := inject_Z (Qfloor q)) in *; change (inject_Z 1) with 1 in *; lra.
  - set (F := inject_Z (Qfloor q)) in *; change (inject_Z 1) with 1 in *; lra.
  - rewrite inject_Z_plus.
    set (F := inject_Z (Qfloor q)) in *; change (inject_Z 1) with 1 in *; lra.
Qed.

Lemma round_half_even_lower (a : Z) (q : Q) :
  inject_Z a <= q -> (a <= round_half_even q)%Z.
Proof.
  intros H. apply Qfloor_resp_le in H. rewrite Qfloor_Z in H.
  destruct (round_half_even_cases q) as [-> | ->]; lia.
Qed.

Lemma round_half_even_upper (b : Z) (q : Q) :
  q <= inject_Z b -> (round_half_even q <= b)%Z.
Proof.
  intros H. pose proof (Qfloor_resp_le _ _ H) as Hf. rewrite Qfloor_Z in Hf.
  destruct (Z.eq_dec (Qfloor q) b) as [Heq | Hne].
  - pose proof (Qfloor_le q) as Hle. rewrite Heq in Hle.
    unfold round_half_even. rewrite Heq.
    destruct (Qcompare_spec (q - inject_Z b) (1 # 2)) as [He|Hl|Hg];
      [exfalso; lra | lia | exfalso; lra].
  - destruct (round_half_even_cases q) as [-> | ->]; lia.
Qed.

Lemma round_half_even_Z (n : Z) : round_half_even (inject_Z n) = n.
Proof.
  apply Z.le_antisymm.
  - apply round_half_even_upper. lra.
  - apply round_half_even_lower. lra.
Qed.

Lemma round_half_even_comp (x y : Q) :
  x == y -> round_half_even x = round_half_even y.
Proof.
  intros H. unfold round_half_even. rewrite (Qfloor_comp _ _ H).
  assert (Hc : Qcompare (x - inject_Z (Qfloor y)) (1 # 2)
               = Qcompare (y - inject_Z (Qfloor y)) (1 # 2))
    by (apply Qcompare_comp; [rewrite H|]; reflexivity).
  rewrite Hc. reflexivity.
Qed.

Lemma py_round2_value (x : Q) :
  py_round2 x == inject_Z (round_half_even (x * 100)) / 100.
Proof. unfold py_round2. apply Qred_correct. Qed.

Lemma py_round2_two_decimals (x : Q) : two_decimals (py_round2 x).
Proof. exists (round_half_even (x * 100)). apply py_round2_value. Qed.

Lemma py_round2_rounds (x : Q) : rounds_to_2_decimals x (py_round2 x).
Proof.
  split; [apply py_round2_two_decimals |].
  rewrite py_round2_value.
  pose proof (round_half_even_near (x * 100)) as H.
  apply Qabs_Qle_condition in H. apply Qabs_Qle_condition.
  set (R := inject_Z (round_half_even (x * 100))) in *.
  hundredths. split; lra.
Qed.

Lemma py_round2_bounds (a b : Z) (x : Q) :
  inject_Z a / 100 <= x <= inject_Z b / 100 ->
  inject_Z a / 100 <= py_round2 x <= inject_Z b / 100.
Proof.
  intros [Ha Hb]. rewrite py_round2_value.
  assert (H1 : (a <= round_half_even (x * 100))%Z)
    by (apply round_half_even_lower; hundredths; lra).
  assert (H2 : (round_half_even (x * 100) <= b)%Z)
    by (apply round_half_even_upper; hundredths; lra).
  rewrite Zle_Qle in H1, H2.
  set (R := inject_Z (round_half_even (x * 100))) in *.
  set (A := inject_Z a) in *. set (B := inject_Z b) in *.
  hundredths. split; lra.
Qed.

(** Rounding leaves a value with two decimals unchanged. *)
Lemma py_round2_fixed (x : Q) : two_decimals x -> py_round2 x == x.
Proof.
  intros [n Hn]. rewrite py_round2_value.
  assert (Hx : x * 100 == inject_Z n) by (rewrite Hn; field).
  rewrite (round_half_even_comp _ _ Hx), round_half_even_Z, Hn. reflexivity.
Qed.

(** ** The scenarios of test_state_machine.py *)

Example scenario_success_path :
  summary (process_outcomes no_signals fresh_session ["interview"])
  = Some (Some ("ResumeOptimization", VALIDATE, 17 # 20), []) /\
  summary (process_outcomes no_signals fresh_session ["interview"; "interview"])
  = Some (Some ("ResumeOptimization", EXECUTE, 19 # 20), []).
Proof. split; vm_compute; reflexivity. Qed.

Example scenario_failure_recovery :
  summary (process_outcomes no_signals skill_gap_session ["rejected"; "rejected"])
  = Some (Some ("SkillGapPatch", EXPLORE, 7 # 20), []) /\
  summary (process_outcomes no_signals skill_gap_session
             ["rejected"; "rejected"; "rejected"])
  = Some (Some ("RoleShift", EXPLORE, 1 # 5),
          [("SkillGapPatch", RECONSIDER, 1 # 4, true)]).
Proof. split; vm_compute; reflexivity. Qed.

Example scenario_validation_interrupted :
  exists s,
    process_outcomes no_signals positioning_session ["interview"] = Returns s /\
    summary (Returns s) = Some (Some ("ResumeOptimization", VALIDATE, 83 # 100), []) /\
    summary (evaluate_strategy_state s positioning_issue_signals)
    = Some (Some ("ResumeOptimization", EXPLORE, 83 # 100), []).
Proof.
  eexists. split; [vm_compute; reflexivity |]. split; vm_compute; reflexivity.
Qed.

Example scenario_confidence_failure :
  summary (process_outcomes no_signals role_shift_session ["no_response"])
  = Some (Some ("RoleShift", EXPLORE, 37 # 100), []) /\
  summary (process_outcomes no_signals role_shift_session
             ["no_response"; "no_response"])
  = Some (Some ("ResumeOptimization", EXPLORE, 0.55),
          [("RoleShift", RECONSIDER, 29 # 100, true)]).
Proof. split; vm_compute; reflexivity. Qed.

(** ** Confidence update (C2) *)

Lemma update_confidence_unfold (c : Q) (o : string) :
  update_confidence c o
  = py_round2 (py_max 0.10 (py_min 0.95 (c + default 0.0 (CONFIDENCE_DELTA !! o)))).
Proof. reflexivity. Qed.

Lemma update_confidence_step (c d : Q) (o : string) :
  CONFIDENCE_DELTA !! o = Some d ->
  confidence_step c d (update_confidence c o).
Proof.
  intros Hd. rewrite update_confidence_unfold, Hd. simpl default.
  eexists. split; [apply py_clamp_is_clamp; lra | apply py_round2_rounds].
Qed.

Lemma update_confidence_invariant (c : Q) (o : string) :
  confidence_invariant (update_confidence c o).
Proof.
  rewrite update_confidence_unfold.
  set (x := c + _).
  pose proof (is_clamp_bounds 0.10 0.95 x _ ltac:(lra)
                (py_clamp_is_clamp 0.10 0.95 x ltac:(lra))) as Hy.
  split; [| apply py_round2_two_decimals].
  pose proof (py_round2_bounds 10 95 (py_max 0.10 (py_min 0.95 x))) as Hb.
  set (y := py_max 0.10 (py_min 0.95 x)) in *.
  set (r := py_round2 y) in *.
  hundredths. change (inject_Z 10) with 10 in Hb. change (inject_Z 95) with 95 in Hb.
  assert (10 * (1 # 100) <= r <= 95 * (1 # 100)) as Hr by (apply Hb; lra).
  lra.
Qed.

Lemma update_confidence_run_invariant (c : Q) (o : string) (os : list string) :
  confidence_invariant (foldl update_confidence (update_confidence c o) os).
Proof.
  revert c o. induction os as [| o' os IH]; intros c o; simpl.
  - apply update_confidence_invariant.
  - apply IH.
Qed.

(** *** The update on floats *)

Lemma float_bounds_value :
  10 <= Binary64.value (Binary64.decimal 10 100) * 100 /\
  Binary64.value (Binary64.decimal 95 100) * 100 <= 95.
Proof. split; vm_compute; intros [=]. Qed.

Lemma float_lt_inside (x : Binary64.float) :
  Binary64.lt (Binary64.decimal 10 100) x = true ->
  Binary64.lt x (Binary64.decimal 95 100) = true ->
  (exists s m e, x = S754_finite s m e) /\
  10 <= Binary64.value x * 100 <= 95.
Proof.
  intros Hlo Hhi.
  destruct x as [s | s | | s m e].
  - exfalso. vm_compute in Hlo. discriminate.
  - exfalso. destruct s; [vm_compute in Hlo | vm_compute in Hhi]; discriminate.
  - discriminate.
  - split; [eauto |].
    change (Binary64.lt (Binary64.decimal 10 100) (S754_finite s m e))
      with (Qltb (Binary64.value (Binary64.decimal 10 100))
                 (Binary64.value (S754_finite s m e))) in Hlo.
    change (Binary64.lt (S754_finite s m e) (Binary64.decimal 95 100))
      with (Qltb (Binary64.value (S754_finite s m e))
                 (Binary64.value (Binary64.decimal 95 100))) in Hhi.
    apply Qltb_lt in Hlo, Hhi.
    destruct float_bounds_value as [Hl Hh].
    set (v := Binary64.value (S754_finite s m e)) in *.
    set (l := Binary64.value (Binary64.decimal 10 100)) in *.
    set (h := Binary64.value (Binary64.decimal 95 100)) in *.
    clearbody v l h. split; lra.
Qed.

Lemma float_update_unfold (c : Binary64.float) (o : string) :
  Binary64.update_confidence c o
  = Binary64.py_round2
      (Binary64.py_max (Binary64.decimal 10 100)
         (Binary64.py_min (Binary64.decimal 95 100)
            (Binary64.add c (default (Binary64.decimal 0 10)
                               (Binary64.CONFIDENCE_DELTA !! o))))).
Proof. reflexivity. Qed.

Lemma float_clamp_round (sum : Binary64.float) :
  let lo := Binary64.decimal 10 100 in
  let hi := Binary64.decimal 95 100 in
  let new := Binary64.py_round2 (Binary64.py_max lo (Binary64.py_min hi sum)) in
  (Binary64.lt sum hi = false -> new = hi) /\
  (Binary64.lt sum hi = true -> Binary64.lt lo sum = false -> new = lo) /\
  (Binary64.lt lo sum = true -> Binary64.lt sum hi = true ->
   new = Binary64.decimal (round_half_even (Binary64.value sum * 100)) 100).
Proof.
  intros lo hi new. subst new. unfold Binary64.py_max, Binary64.py_min.
  split; [| split].
  - intros ->. subst lo hi. vm_compute. reflexivity.
  - intros -> ->. subst lo. vm_compute. reflexivity.
  - intros Hlo Hhi. rewrite Hhi, Hlo.
    destruct (float_lt_inside sum Hlo Hhi) as [(s & m & e & ->) [Hl _]].
    apply (round_half_even_lower 10) in Hl.
    unfold Binary64.py_round2. cbv zeta.
    destruct (Z.eqb_spec (round_half_even (Binary64.value (S754_finite s m e) * 100)) 0)
      as [H0 | _]; [lia | reflexivity].
Qed.

Lemma float_update_invariant (c : Binary64.float) (o : string) :
  float_confidence_invariant (Binary64.update_confidence c o).
Proof.
  rewrite float_update_unfold. set (sum := Binary64.add c _).
  destruct (float_clamp_round sum) as (Hhi & Hlo & Hin).
  destruct (Binary64.lt sum (Binary64.decimal 95 100)) eqn:H1.
  - destruct (Binary64.lt (Binary64.decimal 10 100) sum) eqn:H2.
    + rewrite (Hin eq_refl eq_refl).
      destruct (float_lt_inside sum H2 H1) as [_ [Hl Hh]].
      eexists. split; [| reflexivity]. split.
      * by apply round_half_even_lower.
      * by apply round_half_even_upper.
    + rewrite (Hlo eq_refl eq_refl). exists 10%Z. split; [lia | reflexivity].
  - rewrite (Hhi eq_refl). exists 95%Z. split; [lia | reflexivity].
Qed.

Lemma float_update_step (c : Binary64.float) (o : string) (n : Z) :
  delta_hundredths o = Some n ->
  float_confidence_step c (Binary64.decimal n 100) (Binary64.update_confidence c o).
Proof.
  intros Hd.
  assert (Hdelta : default (Binary64.decimal 0 10) (Binary64.CONFIDENCE_DELTA !! o)
                   = Binary64.decimal n 100).
  { unfold delta_hundredths in Hd.
    destruct (String.eqb_spec o "interview") as [-> | _];
      [by injection Hd as <- |].
    destruct (String.eqb_spec o "rejected") as [-> | _];
      [by injection Hd as <- |].
    destruct (String.eqb_spec o "no_response") as [-> | _];
      [by injection Hd as <- | discriminate]. }
  rewrite float_update_unfold, Hdelta. unfold float_confidence_step.
  generalize (Binary64.add c (Binary64.decimal n 100)). intros sum.
  destruct (float_clamp_round sum) as (Hhi & Hlo & Hin).
  split; [exact Hhi |]. split; [exact Hlo |].
  intros H2 H1. eexists. split; [exact (Hin H2 H1) |].
  pose proof (round_half_even_near (Binary64.value sum * 100)) as H.
  apply Qabs_Qle_condition in H. apply Qabs_Qle_condition.
  set (R := inject_Z (round_half_even (Binary64.value sum * 100))) in *.
  set (v := Binary64.value sum) in *. clearbody R v.
  hundredths. split; lra.
Qed.

Lemma float_update_run_invariant
    (c : Binary64.float) (o : string) (os : list string) :
  float_confidence_invariant
    (foldl Binary64.update_confidence (Binary64.update_confidence c o) os).
Proof.
  revert c o. induction os as [| o' os IH]; intros c o; simpl.
  - apply float_update_invariant.
  - apply IH.
Qed.


(** *** The decimal model of the lifecycle and the floats *)

Lemma grid_agrees_all :
  forallb (grid_agrees (Binary64.decimal 15 100) 0.15) (seqZ 0 101) = true /\
  forallb (grid_agrees (Binary64.decimal (-10) 100) (-0.10)) (seqZ 0 101) = true /\
  forallb (grid_agrees (Binary64.decimal (-8) 100) (-0.08)) (seqZ 0 101) = true /\
  forallb (grid_agrees (Binary64.decimal 0 10) 0.0) (seqZ 0 101) = true.
Proof. repeat split; vm_compute; reflexivity. Qed.

Lemma confidence_delta_cases (o : string) :
  (CONFIDENCE_DELTA !! o = Some 0.15 /\
   Binary64.CONFIDENCE_DELTA !! o = Some (Binary64.decimal 15 100)) \/
  (CONFIDENCE_DELTA !! o = Some (-0.10) /\
   Binary64.CONFIDENCE_DELTA !! o = Some (Binary64.decimal (-10) 100)) \/
  (CONFIDENCE_DELTA !! o = Some (-0.08) /\
   Binary64.CONFIDENCE_DELTA !! o = Some (Binary64.decimal (-8) 100)) \/
  (CONFIDENCE_DELTA !! o = None /\ Binary64.CONFIDENCE_DELTA !! o = None).
Proof.
  destruct (decide (o = "interview")) as [-> | H1]; [left; by split |].
  destruct (decide (o = "rejected")) as [-> | H2]; [right; left; by split |].
  destruct (decide (o = "no_response")) as [-> | H3];
    [right; right; left; by split |].
  right; right; right.
  unfold CONFIDENCE_DELTA, Binary64.CONFIDENCE_DELTA.
  split; (rewrite !lookup_insert_ne by done; by apply lookup_singleton_ne).
Qed.

Lemma Qltb_comp (x y a b : Q) : x == y -> a == b -> Qltb x a = Qltb y b.
Proof.
  intros Hxy Hab.
  destruct (Qltb x a) eqn:H1, (Qltb y b) eqn:H2; try reflexivity; exfalso.
  - apply Qltb_lt in H1. apply Qltb_ge in H2. lra.
  - apply Qltb_ge in H1. apply Qltb_lt in H2. lra.
Qed.

Lemma py_clamp_comp (lo hi x y : Q) :
  x == y -> py_max lo (py_min hi x) == py_max lo (py_min hi y).
Proof.
  intros H. unfold py_max, py_min.
  rewrite (Qltb_comp x y hi hi H ltac:(reflexivity)).
  destruct (Qltb y hi); [| reflexivity].
  rewrite (Qltb_comp lo lo x y ltac:(reflexivity) H).
  destruct (Qltb lo y); [exact H | reflexivity].
Qed.

Lemma update_confidence_comp (c c' : Q) (o : string) :
  c == c' -> update_confidence c o = update_confidence c' o.
Proof.
  intros H. rewrite !update_confidence_unfold. unfold py_round2.
  set (d := default 0.0 (CONFIDENCE_DELTA !! o)).
  assert (Hq : py_max 0.10 (py_min 0.95 (c + d)) * 100
               == py_max 0.10 (py_min 0.95 (c' + d)) * 100).
  { rewrite (py_clamp_comp 0.10 0.95 (c + d) (c' + d)); [reflexivity |].
    by rewrite H. }
  by rewrite (round_half_even_comp _ _ Hq).
Qed.

Lemma float_update_on_grid (f : Binary64.float) (q : Q) (o : string) :
  holds_decimal f q ->
  holds_decimal (Binary64.update_confidence f o) (update_confidence q o).
Proof.
  intros (k & Hk & -> & Hq).
  rewrite (update_confidence_comp q (inject_Z k / 100) o Hq).
  set (k' := round_half_even
               (py_max 0.10 (py_min 0.95
                  (inject_Z k / 100 + default 0.0 (CONFIDENCE_DELTA !! o))) * 100)).
  assert (Hv : update_confidence (inject_Z k / 100) o == inject_Z k' / 100)
    by (rewrite update_confidence_unfold; apply py_round2_value).
  exists k'. split; [| split; [| exact Hv]].
  - destruct (update_confidence_invariant (inject_Z k / 100) o) as [[Hl Hh] _].
    rewrite Hv in Hl, Hh.
    assert (inject_Z 10 <= inject_Z k' /\ inject_Z k' <= inject_Z 95) as [H1 H2].
    { set (K := inject_Z k') in *. clearbody K. hundredths.
      change (inject_Z 10) with 10. change (inject_Z 95) with 95. split; lra. }
    rewrite <- Zle_Qle in H1, H2. lia.
  - subst k'. rewrite float_update_unfold.
    assert (Hin : In k (seqZ 0 101))
      by (apply list_elem_of_In, elem_of_seqZ; lia).
    destruct grid_agrees_all as (Ha & Hb & Hc & Hd).
    rewrite forallb_forall in Ha, Hb, Hc, Hd.
    destruct (confidence_delta_cases o) as [[-> ->] | [[-> ->] | [[-> ->] | [-> ->]]]];
      cbn [default from_option id];
      [ specialize (Ha k Hin) as H | specialize (Hb k Hin) as H
      | specialize (Hc k Hin) as H | specialize (Hd k Hin) as H ];
      exact (bool_decide_eq_true_1 _ H).
Qed.

Lemma float_run_on_grid (f : Binary64.float) (q : Q) (os : list string) :
  holds_decimal f q ->
  holds_decimal (foldl Binary64.update_confidence f os) (foldl update_confidence q os).
Proof.
  revert f q. induction os as [| o os IH]; intros f q H; simpl; [exact H |].
  apply IH. by apply float_update_on_grid.
Qed.

(** C2.  The per-outcome update, for every float the function can be handed
    and every outcome tag, is the float sum of the old confidence and the
    fixed delta (interview +0.15, rejected -0.10, no_response -0.08),
    clamped to [0.10, 0.95] and rounded to two decimals; so after one
    update and after any further sequence of updates the confidence is one
    of the hundredths 0.10, ..., 0.95.  On a confidence that is a hundredth
    between 0 and 1 the float update gives the hundredth of the update in
    exact decimal arithmetic, which is [old + delta] clamped and rounded;
    the two stay together along every sequence of updates, and the record
    left by [record_outcome] holds that hundredth, in [0.10, 0.95]. *)
Theorem update_confidence_clamped_rounded :
  (forall (c : Binary64.float) (o : string) (n : Z),
      delta_hundredths o = Some n ->
      float_confidence_step c (Binary64.decimal n 100)
        (Binary64.update_confidence c o)) /\
  (forall (c : Binary64.float) (o : string),
      float_confidence_invariant (Binary64.update_confidence c o)) /\
  (forall (c : Binary64.float) (o : string) (os : list string),
      float_confidence_invariant
        (foldl Binary64.update_confidence (Binary64.update_confidence c o) os)) /\
  (forall (f : Binary64.float) (q : Q) (o : string),
      holds_decimal f q ->
      holds_decimal (Binary64.update_confidence f o) (update_confidence q o)) /\
  (forall (f : Binary64.float) (q d : Q) (o : string),
      holds_decimal f q ->
      CONFIDENCE_DELTA !! o = Some d ->
      confidence_step q d (update_confidence q o)) /\
  (forall (f : Binary64.float) (q : Q) (o : string) (os : list string),
      holds_decimal f q ->
      holds_decimal (foldl Binary64.update_confidence f (o :: os))
                    (foldl update_confidence q (o :: os)) /\
      confidence_invariant (foldl update_confidence q (o :: os))) /\
  (forall (s : AgentSession) (r : StrategyRecord) (o : string) (f : Binary64.float),
      current_strategy s = Some r ->
      valid_outcome o = true ->
      holds_decimal f (current_confidence r) ->
      exists s' r',
        record_outcome s o = Returns s' /\
        current_strategy s' = Some r' /\
        holds_decimal (Binary64.update_confidence f o) (current_confidence r') /\
        confidence_invariant (current_confidence r')).
Proof.
  split; [exact float_update_step |].
  split; [exact float_update_invariant |].
  split; [exact float_update_run_invariant |].
  split; [exact float_update_on_grid |].
  split; [intros f q d o _ Hd; by apply update_confidence_step |].
  split.
  { intros f q o os Hf. split; [by apply float_run_on_grid |].
    simpl. apply update_confidence_run_invariant. }
  intros s r o f Hc Hv Hf. unfold record_outcome. rewrite Hv, Hc. cbn [negb].
  destruct (should_invalidate _); simpl;
    (eexists; eexists; split; [reflexivity |]; split; [reflexivity |]; split;
     [by apply float_update_on_grid | apply update_confidence_invariant]).
Qed.

Lemma update_confidence_clamped_rounded_witness :
  float_confidence_step
    (Binary64.decimal 70 100) (Binary64.decimal 15 100)
    (Binary64.update_confidence (Binary64.decimal 70 100) "interview") /\
  holds_decimal
    (Binary64.update_confidence (Binary64.decimal 70 100) "interview")
    (update_confidence 0.70 "interview").
Proof.
  destruct update_confidence_clamped_rounded as (Hstep & _ & _ & Hgrid & _).
  split.
  - apply (Hstep (Binary64.decimal 70 100) "interview" 15%Z). reflexivity.
  - apply (Hgrid (Binary64.decimal 70 100) 0.70 "interview").
    exists 70%Z. split; [lia |]. split; reflexivity.
Defined.

(** Off the grid of hundredths the float sum decides: 0.375 - 0.08 and
    0.005 + 0.15 fall just below the ties 0.295 and 0.155, where decimal
    arithmetic sits on them; a NaN is replaced by the upper bound. *)
Example update_confidence_off_grid :
  Binary64.update_confidence (Binary64.decimal 375 1000) "no_response"
  = Binary64.decimal 29 100 /\
  update_confidence 0.375 "no_response" == 0.30 /\
  Binary64.update_confidence (Binary64.decimal 5 1000) "interview"
  = Binary64.decimal 15 100 /\
  update_confidence 0.005 "interview" == 0.16 /\
  Binary64.update_confidence S754_nan "rejected" = Binary64.decimal 95 100.
Proof. repeat split; vm_compute; reflexivity. Qed.

Example update_confidence_scenario_interviews :
  update_confidence 0.70 "interview" = 17 # 20 /\
  update_confidence (17 # 20) "interview" = 19 # 20.
Proof. split; reflexivity. Qed.

Example update_confidence_scenario_rejections :
  foldl update_confidence 0.55 ["rejected"; "rejected"; "rejected"] = 1 # 4.
Proof. reflexivity. Qed.

(** ** Dominant issue selection (C3) *)

Section FirstInOrder.

Context (P : string -> Prop) `{!forall x, Decision (P x)}.

Lemma head_filter_first (l : list string) (c : string) :
  head (filter P l) = Some c <-> first_in_order P l c.
Proof.
  induction l as [| x l IH].
  - split; [discriminate | intros (i & Hi & _); destruct i; discriminate].
  - destruct (decide (P x)) as [Hx | Hx].
    + rewrite filter_cons_True by done. simpl. split.
      * intros [= <-]. exists 0%nat. repeat split; [done |].
        intros j c' Hj. lia.
      * intros (i & Hi & Hc & Hmin). destruct i as [| i]; [by inversion Hi |].
        exfalso. apply (Hmin 0%nat x); [lia | reflexivity | exact Hx].
    + rewrite filter_cons_False by done. rewrite IH. split.
      * intros (i & Hi & Hc & Hmin). exists (S i). repeat split; [done | done |].
        intros [| j] c' Hj Hl.
        -- simpl in Hl. by inversion Hl; subst.
        -- apply (Hmin j); [lia | exact Hl].
      * intros (i & Hi & Hc & Hmin). destruct i as [| i].
        -- simpl in Hi. inversion Hi; subst. contradiction.
        -- exists i. repeat split; [done | done |].
           intros j c' Hj Hl. apply (Hmin (S j)); [lia | exact Hl].
Qed.

Lemma head_filter_none (l : list string) :
  head (filter P l) = None <-> forall c, c ∈ l -> ~ P c.
Proof.
  induction l as [| x l IH].
  - split; [intros _ c Hc; inversion Hc | reflexivity].
  - destruct (decide (P x)) as [Hx | Hx].
    + rewrite filter_cons_True by done. simpl. split; [discriminate |].
      intros Hno. exfalso. apply (Hno x); [left | exact Hx].
    + rewrite filter_cons_False by done. rewrite IH. split.
      * intros Hno c Hc. inversion Hc; subst; [exact Hx | by apply Hno].
      * intros Hno c Hc. apply Hno. by right.
Qed.

End FirstInOrder.

(** What [select_dominant_issue] returns as the dominant issue. *)
Lemma select_dominant_issue_fst
    (b : gmap string string) (sig : gmap string bool) (role : string) :
  (select_dominant_issue b sig role).1
  = match head (rated_in_order b "missing") with
    | Some c => Some c
    | None => head (rated_in_order b "weak")
    end.
Proof.
  unfold select_dominant_issue.
  destruct (rated_in_order b "missing"); [| reflexivity].
  destruct (rated_in_order b "weak"); reflexivity.
Qed.

Lemma analyze_bottlenecks_dominant (e : Evidence) :
  dominant_issue (analyze_bottlenecks e)
  = match head (rated_in_order (bottlenecks (analyze_bottlenecks e)) "missing") with
    | Some c => Some c
    | None => head (rated_in_order (bottlenecks (analyze_bottlenecks e)) "weak")
    end.
Proof.
  unfold analyze_bottlenecks.
  set (sig := default ∅ (section_signals e)).
  set (role := infer_role (normalized_skills e)).
  set (b := evaluate_bottlenecks _ _ _ _).
  pose proof (select_dominant_issue_fst b sig role) as Hfst.
  destruct (select_dominant_issue b sig role) as [d j]. exact Hfst.
Qed.

Lemma evaluate_positioning_severity m sig : is_severity (evaluate_positioning m sig).
Proof.
  unfold evaluate_positioning, is_severity.
  repeat match goal with |- context [if ?b then _ else _] => destruct b end; auto.
Qed.

Lemma evaluate_evidence_depth_severity m sig :
  is_severity (evaluate_evidence_depth m sig).
Proof.
  unfold evaluate_evidence_depth, is_severity.
  repeat match goal with |- context [if ?b then _ else _] => destruct b end; auto.
Qed.

Lemma evaluate_experience_strength_severity m sig :
  is_severity (evaluate_experience_strength m sig).
Proof.
  unfold evaluate_experience_strength, is_severity.
  repeat match goal with |- context [if ?b then _ else _] => destruct b end; auto.
Qed.

Lemma evaluate_skill_alignment_severity skills role :
  is_severity (evaluate_skill_alignment skills role).
Proof.
  unfold evaluate_skill_alignment, is_severity.
  destruct (find_role_key _ _); [| auto].
  destruct (assoc_get _ _) as [[primary ?] |]; [| auto].
  repeat match goal with |- context [if ?b then _ else _] => destruct b end; auto.
Qed.

Lemma evaluate_outcome_visibility_severity sig m :
  is_severity (evaluate_outcome_visibility sig m).
Proof.
  unfold evaluate_outcome_visibility, is_severity.
  repeat match goal with |- context [if ?b then _ else _] => destruct b end; auto.
Qed.

Lemma evaluate_bottlenecks_lookup skills m sig role (c : string) :
  evaluate_bottlenecks skills m sig role !! c =
    if String.eqb c "positioning" then Some (evaluate_positioning m sig)
    else if String.eqb c "evidence_depth" then Some (evaluate_evidence_depth m sig)
    else if String.eqb c "experience_strength"
         then Some (evaluate_experience_strength m sig)
    else if String.eqb c "skill_alignment"
         then Some (evaluate_skill_alignment skills role)
    else if String.eqb c "outcome_visibility"
         then Some (evaluate_outcome_visibility sig m)
    else None.
Proof.
  unfold evaluate_bottlenecks.
  repeat match goal with
         | |- context [String.eqb c ?k] =>
             destruct (String.eqb_spec c k) as [-> | ?];
             [by rewrite lookup_insert_eq | rewrite lookup_insert_ne by done]
         end.
  apply lookup_empty.
Qed.

Lemma analyze_bottlenecks_rated (e : Evidence) (c : string) :
  c ∈ BOTTLENECK_PRIORITY ->
  exists v, bottlenecks (analyze_bottlenecks e) !! c = Some v /\ is_severity v.
Proof.
  intros Hc.
  assert (Hb : bottlenecks (analyze_bottlenecks e)
               = evaluate_bottlenecks (normalized_skills e) (skill_evidence_map e)
                   (default ∅ (section_signals e)) (infer_role (normalized_skills e))).
  { unfold analyze_bottlenecks. destruct (select_dominant_issue _ _ _). reflexivity. }
  rewrite Hb, evaluate_bottlenecks_lookup.
  unfold BOTTLENECK_PRIORITY in Hc.
  repeat (apply elem_of_cons in Hc as [-> | Hc]);
    [| | | | | by apply elem_of_nil in Hc]; simpl; eexists; (split; [reflexivity |]).
  - apply evaluate_experience_strength_severity.
  - apply evaluate_evidence_depth_severity.
  - apply evaluate_outcome_visibility_severity.
  - apply evaluate_positioning_severity.
  - apply evaluate_skill_alignment_severity.
Qed.

Lemma rated_in_order_first (r : BottleneckReport) (severity c : string) :
  first_in_order (rated r severity) BOTTLENECK_PRIORITY c ->
  head (rated_in_order (bottlenecks r) severity) = Some c.
Proof.
  intros Hc.
  apply (proj2 (head_filter_first
                  (fun b => bottlenecks r !! b = Some severity) _ _)).
  exact Hc.
Qed.

Lemma rated_in_order_none (r : BottleneckReport) (severity : string) :
  (forall c, c ∈ BOTTLENECK_PRIORITY -> ~ rated r severity c) ->
  head (rated_in_order (bottlenecks r) severity) = None.
Proof.
  intros Hnone.
  apply (proj2 (head_filter_none
                  (fun b => bottlenecks r !! b = Some severity) _)).
  exact Hnone.
Qed.

(** C3.  In the report of the diagnoser every category of the priority order
    [experience_strength, evidence_depth, outcome_visibility, positioning,
    skill_alignment] is rated strong, weak or missing, and the dominant issue
    is the first category rated missing in that order; if none is missing,
    the first rated weak; if all five are strong, there is none. *)
Theorem analyze_bottlenecks_dominant_issue_priority :
  forall e : Evidence,
    let r := analyze_bottlenecks e in
    BOTTLENECK_PRIORITY
      = ["experience_strength"; "evidence_depth"; "outcome_visibility";
         "positioning"; "skill_alignment"] /\
    (forall c, c ∈ BOTTLENECK_PRIORITY ->
               rated r "strong" c \/ rated r "weak" c \/ rated r "missing" c) /\
    (forall c, first_in_order (rated r "missing") BOTTLENECK_PRIORITY c ->
               dominant_issue r = Some c) /\
    ((forall c, c ∈ BOTTLENECK_PRIORITY -> ~ rated r "missing" c) ->
     forall c, first_in_order (rated r "weak") BOTTLENECK_PRIORITY c ->
               dominant_issue r = Some c) /\
    ((forall c, c ∈ BOTTLENECK_PRIORITY -> rated r "strong" c) ->
     dominant_issue r = None).
Proof.
  intros e r. subst r. split; [reflexivity |]. split; [| split; [| split]].
  - intros c Hc.
    destruct (analyze_bottlenecks_rated e c Hc) as (v & Hv & [-> | [-> | ->]]);
      unfold rated; auto.
  - intros c Hc. rewrite analyze_bottlenecks_dominant.
    by rewrite (rated_in_order_first _ _ _ Hc).
  - intros Hnone c Hc. rewrite analyze_bottlenecks_dominant.
    by rewrite (rated_in_order_none _ _ Hnone), (rated_in_order_first _ _ _ Hc).
  - intros Hall. rewrite analyze_bottlenecks_dominant.
    rewrite !rated_in_order_none; [done | |];
      intros c Hc Hr; specialize (Hall c Hc); unfold rated in *; congruence.
Qed.

Lemma analyze_bottlenecks_dominant_issue_priority_witness :
  dominant_issue (analyze_bottlenecks sample_evidence) = Some "experience_strength".
Proof.
  apply (analyze_bottlenecks_dominant_issue_priority sample_evidence).
  - intros c Hc Hr. unfold rated in Hr.
    unfold BOTTLENECK_PRIORITY in Hc.
    repeat (apply elem_of_cons in Hc as [-> | Hc]);
      [| | | | | by apply elem_of_nil in Hc]; vm_compute in Hr; discriminate.
  - exists 0%nat. split; [reflexivity |]. split; [vm_compute; reflexivity |].
    intros j c' Hj. lia.
Defined.

(** ** Issue to strategy routing (C4) *)

Lemma analyze_bottlenecks_ratings (e : Evidence) :
  bottlenecks (analyze_bottlenecks e)
  = evaluate_bottlenecks (normalized_skills e) (skill_evidence_map e)
      (default ∅ (section_signals e)) (infer_role (normalized_skills e)).
Proof. unfold analyze_bottlenecks. by destruct (select_dominant_issue _ _ _). Qed.

Lemma evaluate_experience_strength_missing
    (m : gmap string (list string)) (sig : gmap string bool) :
  evaluate_experience_strength m sig = "missing" -> signal sig "has_internship" = false.
Proof.
  unfold evaluate_experience_strength.
  destruct (signal sig "has_internship"); [| done].
  destruct (signal sig "has_deployment"); simpl; discriminate.
Qed.

Lemma evaluate_evidence_depth_not_missing
    (m : gmap string (list string)) (sig : gmap string bool) :
  evaluate_evidence_depth m sig <> "missing" ->
  signal sig "has_projects" || signal sig "has_internship" = true.
Proof.
  unfold evaluate_evidence_depth.
  destruct (signal sig "has_projects"), (signal sig "has_internship"); simpl; done.
Qed.

(** What the diagnoser has found when it names experience_strength. *)
Lemma diagnosed_experience_strength (e : Evidence) :
  dominant_issue (analyze_bottlenecks e) = Some "experience_strength" ->
  let sig := default ∅ (section_signals e) in
  let b := bottlenecks (analyze_bottlenecks e) in
  (b !! "experience_strength" = Some "missing" /\
   signal sig "has_internship" = false) \/
  (b !! "experience_strength" = Some "weak" /\
   signal sig "has_projects" || signal sig "has_internship" = true).
Proof.
  intros Hd sig b. subst b. rewrite analyze_bottlenecks_dominant in Hd.
  destruct (head (rated_in_order _ "missing")) as [c |] eqn:Hm.
  - inversion Hd; subst c. apply head_Some_elem_of in Hm.
    unfold rated_in_order in Hm. apply list_elem_of_filter in Hm as [Hm _].
    left. split; [done |].
    rewrite analyze_bottlenecks_ratings, evaluate_bottlenecks_lookup in Hm.
    change (Some (evaluate_experience_strength (skill_evidence_map e) sig)
            = Some "missing") in Hm.
    inversion Hm as [Hmiss].
    by apply evaluate_experience_strength_missing in Hmiss.
  - pose proof Hd as Hw. apply head_Some_elem_of in Hw.
    unfold rated_in_order in Hw. apply list_elem_of_filter in Hw as [Hw _].
    right. split; [done |].
    apply (evaluate_evidence_depth_not_missing (skill_evidence_map e)).
    intros Hmiss.
    apply (proj1 (head_filter_none
                    (fun c => bottlenecks (analyze_bottlenecks e) !! c = Some "missing")
                    BOTTLENECK_PRIORITY)) with (c := "evidence_depth") in Hm.
    + apply Hm. rewrite analyze_bottlenecks_ratings, evaluate_bottlenecks_lookup.
      change (Some (evaluate_evidence_depth (skill_evidence_map e) sig)
              = Some "missing").
      by rewrite Hmiss.
    + unfold BOTTLENECK_PRIORITY. rewrite !elem_of_cons. auto.
Qed.

(** On a report the diagnoser produced from the same evidence, the
    condition the selector implements and the one the specification words
    coincide. *)
Lemma role_shift_conditions_agree (e : Evidence) :
  dominant_issue (analyze_bottlenecks e) = Some "experience_strength" ->
  role_shift_condition (bottlenecks (analyze_bottlenecks e)) (section_signals e)
  <-> role_shift_as_specified (bottlenecks (analyze_bottlenecks e)) (section_signals e).
Proof.
  intros Hd. unfold role_shift_condition, role_shift_as_specified.
  destruct (diagnosed_experience_strength e Hd) as [[-> Hi] | [-> Hor]]; simpl.
  - split; intros _; [right | by right]. split; [done | by left].
  - apply orb_true_iff in Hor. split.
    + intros [(m & Hsig & _ & Hi & Hp) | ?]; [| done].
      rewrite Hsig in Hor. simpl in Hor. rewrite Hi, Hp in Hor.
      destruct Hor; discriminate.
    + intros [[Hi Hp] | [? _]]; [| done].
      rewrite Hi, Hp in Hor. destruct Hor; discriminate.
Qed.


Lemma has_signals_true (sig : option (gmap string bool)) :
  has_signals sig = true <-> exists m, sig = Some m /\ m <> ∅.
Proof.
  unfold has_signals. destruct sig as [m |].
  - rewrite negb_true_iff, bool_decide_eq_false. split.
    + intros Hm. by exists m.
    + by intros (m' & [= <-] & Hm).
  - split; [discriminate | by intros (m & ? & _)].
Qed.

Lemma select_strategy_experience_strength
    (b : gmap string string) (sig : option (gmap string bool)) :
  (role_shift_condition b sig /\
   select_strategy (Some "experience_strength") b sig = "RoleShift") \/
  (~ role_shift_condition b sig /\
   select_strategy (Some "experience_strength") b sig = "ResumeOptimization").
Proof.
  unfold select_strategy. simpl.
  destruct (has_signals sig && negb (signal (default ∅ sig) "has_internship")
            && negb (signal (default ∅ sig) "has_projects")) eqn:Hs.
  - left. split; [| reflexivity].
    apply andb_prop in Hs as [Hs Hp]. apply andb_prop in Hs as [Hs Hi].
    apply has_signals_true in Hs as (m & -> & Hm). simpl in *.
    left. exists m. rewrite negb_true_iff in Hi, Hp. done.
  - destruct (String.eqb_spec (default "missing" (b !! "experience_strength")) "missing")
      as [Hm | Hm].
    + left. split; [by right | reflexivity].
    + right. split; [| reflexivity].
      intros [(m & -> & Hne & Hi & Hp) | Hsev]; [| done].
      simpl in Hs. rewrite Hi, Hp in Hs. simpl in Hs.
      rewrite !andb_true_r in Hs.
      apply negb_false_iff, bool_decide_eq_true in Hs. done.
Qed.

(** C4, as amended.  The selector routes evidence_depth, positioning and
    outcome_visibility to ResumeOptimization, skill_alignment to
    SkillGapPatch, no dominant issue to HoldPosition, and experience_strength
    to RoleShift exactly when the section signals are supplied and non-empty
    with neither the internship nor the projects flag set, or when the
    severity of experience_strength is missing; otherwise to
    ResumeOptimization.  On a report the diagnoser produced from the same
    evidence this is the condition of the specification: no internship and
    no project evidence, or severity missing with one of the two absent. *)
Theorem select_strategy_routing :
  (forall (b : gmap string string) (sig : option (gmap string bool)),
      select_strategy (Some "evidence_depth") b sig = "ResumeOptimization" /\
      select_strategy (Some "positioning") b sig = "ResumeOptimization" /\
      select_strategy (Some "outcome_visibility") b sig = "ResumeOptimization" /\
      select_strategy (Some "skill_alignment") b sig = "SkillGapPatch" /\
      select_strategy None b sig = "HoldPosition" /\
      (select_strategy (Some "experience_strength") b sig = "RoleShift"
       <-> role_shift_condition b sig) /\
      (select_strategy (Some "experience_strength") b sig = "ResumeOptimization"
       <-> ~ role_shift_condition b sig)) /\
  (forall e : Evidence,
      let r := analyze_bottlenecks e in
      dominant_issue r = Some "experience_strength" ->
      (select_strategy (dominant_issue r) (bottlenecks r) (section_signals e)
       = "RoleShift"
       <-> role_shift_as_specified (bottlenecks r) (section_signals e)) /\
      (select_strategy (dominant_issue r) (bottlenecks r) (section_signals e)
       = "ResumeOptimization"
       <-> ~ role_shift_as_specified (bottlenecks r) (section_signals e))).
Proof.
  assert (Hall : forall (b : gmap string string) (sig : option (gmap string bool)),
    (select_strategy (Some "experience_strength") b sig = "RoleShift"
     <-> role_shift_condition b sig) /\
    (select_strategy (Some "experience_strength") b sig = "ResumeOptimization"
     <-> ~ role_shift_condition b sig)).
  { intros b sig.
    destruct (select_strategy_experience_strength b sig) as [[Hc ->] | [Hc ->]];
      split; split; try done. }
  split.
  - intros b sig. repeat (split; [reflexivity |]). apply Hall.
  - intros e r Hd. subst r. rewrite Hd.
    rewrite <- (role_shift_conditions_agree e Hd). apply Hall.
Qed.

Lemma select_strategy_routing_witness :
  select_strategy (dominant_issue (analyze_bottlenecks sample_evidence))
    (bottlenecks (analyze_bottlenecks sample_evidence))
    (section_signals sample_evidence) = "ResumeOptimization"
  <-> ~ role_shift_as_specified (bottlenecks (analyze_bottlenecks sample_evidence))
        (section_signals sample_evidence).
Proof.
  apply (proj2 select_strategy_routing sample_evidence).
  vm_compute. reflexivity.
Defined.

(** C4 as stated fails: with both the internship and the projects flag set
    and experience_strength rated missing, the specified condition is false
    but the selector answers RoleShift. *)
Lemma select_strategy_routing_counterexample :
  let b : gmap string string := {[ "experience_strength" := "missing" ]} in
  let sig : option (gmap string bool) :=
    Some {[ "has_internship" := true; "has_projects" := true ]} in
  ~ (select_strategy (Some "experience_strength") b sig = "RoleShift"
     <-> role_shift_as_specified b sig).
Proof.
  intros b sig [Hto _].
  assert (Hsel : select_strategy (Some "experience_strength") b sig = "RoleShift")
    by (vm_compute; reflexivity).
  destruct (Hto Hsel) as [[Hi _] | [_ [Hi | Hp]]]; vm_compute in *; discriminate.
Qed.

(** The second divergence: without section signals the specified condition
    holds vacuously, yet a weak experience_strength goes to
    ResumeOptimization. *)
Example select_strategy_without_signals :
  let b : gmap string string := {[ "experience_strength" := "weak" ]} in
  role_shift_as_specified b None /\
  select_strategy (Some "experience_strength") b None = "ResumeOptimization".
Proof. split; [left; split; reflexivity | vm_compute; reflexivity]. Qed.

(** ** Confidence of the selected strategy (C5) *)

Lemma two_decimals_comp (x y : Q) : x == y -> two_decimals x -> two_decimals y.
Proof. intros Hxy [n Hn]. exists n. by rewrite <- Hxy. Qed.

Lemma two_decimals_hundredths (n : Z) : two_decimals (inject_Z n / 100).
Proof. by exists n. Qed.

Lemma two_decimals_plus (x y : Q) :
  two_decimals x -> two_decimals y -> two_decimals (x + y).
Proof.
  intros [n Hn] [m Hm]. exists (n + m)%Z.
  rewrite Hn, Hm, inject_Z_plus. field.
Qed.

Lemma two_decimals_minus (x y : Q) :
  two_decimals x -> two_decimals y -> two_decimals (x - y).
Proof.
  intros [n Hn] [m Hm]. exists (n - m)%Z.
  rewrite Hn, Hm. unfold Z.sub. rewrite inject_Z_plus, inject_Z_opp. field.
Qed.

Lemma two_decimals_penalty (n : nat) :
  two_decimals (inject_Z (Z.of_nat n) * 0.05).
Proof.
  exists (Z.of_nat n * 5)%Z. rewrite inject_Z_mult.
  change (inject_Z 5) with 5. field.
Qed.

Lemma is_clamp_two_decimals (lo hi x y : Q) :
  two_decimals lo -> two_decimals hi -> two_decimals x ->
  is_clamp lo hi x y -> two_decimals y.
Proof.
  intros Hlo Hhi Hx [[_ Hy] | [[_ Hy] | [_ Hy]]];
    eapply two_decimals_comp; try (symmetry; exact Hy); assumption.
Qed.

Lemma length_filter_fmap_ext {A B} (f : A -> B) (P : B -> Prop) (Q : A -> Prop)
    `{!forall y, Decision (P y)} `{!forall x, Decision (Q x)} (l : list A) :
  (forall x, x ∈ l -> (P (f x) <-> Q x)) ->
  length (filter P (f <$> l)) = length (filter Q l).
Proof.
  induction l as [| x l IH]; intros Hext; [reflexivity |].
  rewrite fmap_cons, !filter_cons.
  assert (Hx : P (f x) <-> Q x) by (apply Hext; left).
  assert (Hl : length (filter P (f <$> l)) = length (filter Q l))
    by (apply IH; intros y Hy; apply Hext; by right).
  destruct (decide (P (f x))), (decide (Q x)); simpl; rewrite ?Hl; tauto.
Qed.

Lemma CATEGORIES_NoDup : NoDup CATEGORIES.
Proof. apply (bool_decide_unpack _). vm_compute. exact I. Qed.

(** The entries of a well-formed rating are the five categories. *)
Lemma well_formed_ratings_entries (b : gmap string string) :
  well_formed_ratings b ->
  map_to_list b ≡ₚ (fun c => (c, default "" (b !! c))) <$> CATEGORIES.
Proof.
  intros [Hdom _]. apply NoDup_Permutation.
  - apply NoDup_map_to_list.
  - apply (NoDup_fmap_1 fst). rewrite <- list_fmap_compose.
    rewrite (list_fmap_ext _ id CATEGORIES) by done.
    rewrite list_fmap_id. apply CATEGORIES_NoDup.
  - intros [k v]. rewrite elem_of_map_to_list, list_elem_of_fmap. split.
    + intros Hk. exists k. rewrite Hk. split; [done |].
      apply Hdom. by exists v.
    + intros (c & [= -> ->] & Hc). apply Hdom in Hc as [v Hv]. by rewrite Hv.
Qed.

(** On a well-formed rating the selector counts the other categories that
    are not strong. *)
Lemma other_issues_count (b : gmap string string) (d : string) :
  well_formed_ratings b ->
  length (filter (fun kv : string * string => kv.1 <> d /\ weak_or_missing kv.2 = true)
                 (map_to_list b))
  = other_non_strong b d.
Proof.
  intros Hwf. rewrite (well_formed_ratings_entries b Hwf).
  unfold other_non_strong. apply length_filter_fmap_ext.
  intros c Hc. simpl.
  destruct Hwf as [Hdom Hsev]. apply Hdom in Hc as [v Hv].
  rewrite Hv. simpl.
  destruct (Hsev c v Hv) as [-> | [-> | ->]]; simpl; split; intros [? ?];
    split; try done.
Qed.

Lemma select_strategy_names
    (d : option string) (b : gmap string string) (sig : option (gmap string bool)) :
  select_strategy d b sig ∈ STRATEGY_PRIORITY.
Proof.
  unfold select_strategy, STRATEGY_PRIORITY.
  repeat match goal with
         | |- context [match ?x with _ => _ end] => destruct x
         end; set_solver.
Qed.

Lemma calculate_confidence_specified
    (strategy : string) (b : gmap string string) (d : string) :
  strategy ∈ STRATEGY_PRIORITY -> d ∈ CATEGORIES -> well_formed_ratings b ->
  specified_confidence strategy b d (calculate_confidence strategy b (Some d)).
Proof.
  intros Hs Hd Hwf.
  assert (Hno : no_issue (Some d) = false).
  { unfold CATEGORIES in Hd.
    repeat (apply elem_of_cons in Hd as [-> | Hd]); try reflexivity.
    by apply elem_of_nil in Hd. }
  destruct (proj1 (proj1 Hwf d) Hd) as [sev Hsev].
  pose proof (proj2 Hwf d sev Hsev) as Hcases.
  unfold calculate_confidence. rewrite Hno, Hsev, (other_issues_count b d Hwf).
  simpl default.
  set (n := inject_Z (Z.of_nat (other_non_strong b d))).
  assert (Hbase : exists base, base_confidence strategy = Some base /\
                               BASE_CONFIDENCE !! strategy = Some base /\
                               two_decimals base).
  { unfold STRATEGY_PRIORITY in Hs.
    repeat (apply elem_of_cons in Hs as [-> | Hs]);
      [| | | | by apply elem_of_nil in Hs];
      eexists; (split; [reflexivity | split; [reflexivity |]]).
    - by exists 70%Z.
    - by exists 55%Z.
    - by exists 45%Z.
    - by exists 85%Z. }
  destruct Hbase as (base & Hb1 & Hb2 & Hb3).
  assert (Hadj : exists adj, severity_adjustment sev = Some adj /\
                             CONFIDENCE_ADJUSTMENTS !! sev = Some adj /\
                             two_decimals adj).
  { destruct Hcases as [-> | [-> | ->]];
      eexists; (split; [reflexivity | split; [reflexivity |]]).
    - by exists 10%Z.
    - by exists 0%Z.
    - by exists (-10)%Z. }
  destruct Hadj as (adj & Ha1 & Ha2 & Ha3).
  rewrite Hb2, Ha2. simpl default.
  assert (Hraw : base + adj - n * 0.05 == base + adj - 0.05 * n) by ring.
  pose proof (py_clamp_is_clamp 0.20 0.95 (base + adj - n * 0.05) ltac:(lra)) as Hcl.
  set (y := py_max 0.20 (py_min 0.95 (base + adj - n * 0.05))) in *.
  assert (Hcl' : is_clamp 0.20 0.95 (base + adj - 0.05 * n) y).
  { destruct Hcl as [[? ?] | [[? ?] | [? ?]]];
      [left | right; left | right; right]; split; lra. }
  exists base, sev, adj, y. repeat split; try done.
  - apply py_round2_two_decimals.
  - apply py_round2_rounds.
Qed.

(** The report of the diagnoser rates exactly the five categories. *)
Lemma analyze_bottlenecks_well_formed (e : Evidence) :
  well_formed_ratings (bottlenecks (analyze_bottlenecks e)).
Proof.
  rewrite analyze_bottlenecks_ratings. split.
  - intros c. rewrite evaluate_bottlenecks_lookup. unfold CATEGORIES. split.
    + intros Hc. repeat (apply elem_of_cons in Hc as [-> | Hc]);
        [| | | | | by apply elem_of_nil in Hc]; simpl; eauto.
    + repeat match goal with
             | |- context [String.eqb c ?k] =>
                 destruct (String.eqb_spec c k) as [-> | ?]; [set_solver |]
             end.
      by intros [v Hv].
  - intros c v. rewrite evaluate_bottlenecks_lookup.
    repeat match goal with
           | |- context [String.eqb c ?k] =>
               destruct (String.eqb_spec c k) as [-> | ?]
           end; intros [= <-].
    + apply evaluate_positioning_severity.
    + apply evaluate_evidence_depth_severity.
    + apply evaluate_experience_strength_severity.
    + apply evaluate_skill_alignment_severity.
    + apply evaluate_outcome_visibility_severity.
Qed.

Lemma analyze_bottlenecks_dominant_category (e : Evidence) (d : string) :
  dominant_issue (analyze_bottlenecks e) = Some d -> d ∈ CATEGORIES.
Proof.
  rewrite analyze_bottlenecks_dominant. intros Hd.
  assert (Hin : d ∈ BOTTLENECK_PRIORITY).
  { destruct (head (rated_in_order _ "missing")) as [c |] eqn:Hm.
    - inversion Hd; subst c. apply head_Some_elem_of in Hm.
      unfold rated_in_order in Hm. by apply list_elem_of_filter in Hm as [_ ?].
    - apply head_Some_elem_of in Hd.
      unfold rated_in_order in Hd. by apply list_elem_of_filter in Hd as [_ ?]. }
  unfold BOTTLENECK_PRIORITY in Hin. unfold CATEGORIES.
  repeat (apply elem_of_cons in Hin as [-> | Hin]);
    [| | | | | by apply elem_of_nil in Hin];
    rewrite !elem_of_cons; auto 10.
Qed.

(** C5.  With a dominant issue, the confidence of the selector is the base
    of the chosen strategy (ResumeOptimization 0.70, SkillGapPatch 0.55,
    RoleShift 0.45, HoldPosition 0.85) plus the severity adjustment (strong
    +0.10, weak 0, missing -0.10) minus 0.05 for each other category that is
    not strong, clamped to [0.20, 0.95] and rounded to two decimals.  Without
    a dominant issue the strategy is HoldPosition and the confidence is
    min(0.90, 0.85 + 0.05).  The report with evidence_depth weak and the
    other categories strong gives ResumeOptimization with confidence 0.70. *)
Theorem select_strategy_and_action_confidence :
  (forall (r : BottleneckReport) (sig : option (gmap string bool)) (d : string),
      well_formed_ratings (bottlenecks r) ->
      dominant_issue r = Some d -> d ∈ CATEGORIES ->
      let decision := select_strategy_and_action r sig in
      specified_confidence (strategy decision) (bottlenecks r) d (confidence decision)) /\
  (forall (r : BottleneckReport) (sig : option (gmap string bool)),
      dominant_issue r = None ->
      let decision := select_strategy_and_action r sig in
      strategy decision = "HoldPosition" /\
      base_confidence (strategy decision) = Some 0.85 /\
      confidence decision == Qmin 0.90 (0.85 + 0.05)) /\
  (forall (e : Evidence) (d : string),
      let r := analyze_bottlenecks e in
      dominant_issue r = Some d ->
      let decision := select_strategy_and_action r (section_signals e) in
      specified_confidence (strategy decision) (bottlenecks r) d (confidence decision)) /\
  (forall sig : option (gmap string bool),
      let decision := select_strategy_and_action scenario_report sig in
      strategy decision = "ResumeOptimization" /\ confidence decision == 0.70).
Proof.
  assert (Hmain :
    forall (r : BottleneckReport) (sig : option (gmap string bool)) (d : string),
      well_formed_ratings (bottlenecks r) ->
      dominant_issue r = Some d -> d ∈ CATEGORIES ->
      specified_confidence (strategy (select_strategy_and_action r sig))
        (bottlenecks r) d (confidence (select_strategy_and_action r sig))).
  { intros r sig d Hwf Hd Hc.
    unfold select_strategy_and_action. simpl. rewrite Hd.
    apply calculate_confidence_specified; [apply select_strategy_names | done | done]. }
  split; [exact Hmain |]. split; [| split].
  - intros r sig Hd decision. subst decision.
    unfold select_strategy_and_action. simpl. rewrite Hd.
    split; [reflexivity |]. split; [reflexivity |]. vm_compute. reflexivity.
  - intros e d r Hd decision. subst r decision. apply Hmain; [| done |].
    + apply analyze_bottlenecks_well_formed.
    + apply (analyze_bottlenecks_dominant_category e d Hd).
  - intros sig. split; [reflexivity |]. vm_compute. reflexivity.
Qed.

Lemma scenario_report_well_formed : well_formed_ratings (bottlenecks scenario_report).
Proof.
  split.
  - intros c. simpl. unfold CATEGORIES. split.
    + intros Hc. repeat (apply elem_of_cons in Hc as [-> | Hc]);
        [| | | | | by apply elem_of_nil in Hc]; vm_compute; eauto.
    + intros [v Hv].
      repeat (apply lookup_insert_Some in Hv as [[<- <-] | [? Hv]]; [set_solver |]).
      apply lookup_singleton_Some in Hv as [<- <-]. set_solver.
  - intros c v. simpl. intros Hv.
    repeat (apply lookup_insert_Some in Hv as [[<- <-] | [? Hv]]; [auto |]).
    apply lookup_singleton_Some in Hv as [<- <-]. auto.
Qed.

Lemma select_strategy_and_action_confidence_witness :
  specified_confidence
    (strategy (select_strategy_and_action scenario_report None))
    (bottlenecks scenario_report) "evidence_depth"
    (confidence (select_strategy_and_action scenario_report None)).
Proof.
  apply (proj1 select_strategy_and_action_confidence scenario_report None
           "evidence_depth").
  - apply scenario_report_well_formed.
  - reflexivity.
  - unfold CATEGORIES. set_solver.
Defined.

(** ** Re-evaluation and fallback (C6) *)

Lemma failed_strategies_of_spec (history : list StrategyRecord) (name : string) :
  name ∈ failed_strategies_of history <-> ever_failed history name.
Proof.
  unfold failed_strategies_of, ever_failed.
  rewrite elem_of_list_to_set, list_elem_of_fmap. split.
  - intros (h & -> & Hh). apply list_elem_of_filter in Hh as [Hf Hin]. by exists h.
  - intros (h & Hin & Hf & <-). exists h. split; [done |].
    by apply list_elem_of_filter.
Qed.

Lemma first_not_failed_head (priority : list string) (F : gset string) :
  first_not_failed priority F
  = (fun n => {| strategy := n;
                 action := default "" (AgentLoop.FALLBACK_ACTIONS !! n);
                 confidence := default 0 (FALLBACK_CONFIDENCE !! n) |})
    <$> head (filter (fun n => n ∉ F) priority).
Proof.
  induction priority as [| n l IH]; [reflexivity |].
  simpl. rewrite filter_cons. destruct (decide (n ∉ F)) as [Hn | Hn].
  - by rewrite bool_decide_eq_true_2.
  - by rewrite bool_decide_eq_false_2.
Qed.

Lemma fallback_confidence_table (n : string) :
  n ∈ STRATEGY_PRIORITY ->
  exists c, fallback_confidence n = Some c /\ FALLBACK_CONFIDENCE !! n = Some c.
Proof.
  unfold STRATEGY_PRIORITY. intros Hn.
  repeat (apply elem_of_cons in Hn as [-> | Hn]);
    [| | | | by apply elem_of_nil in Hn]; eexists; split; reflexivity.
Qed.

Lemma select_fallback_first (r : BottleneckReport) (F : gset string)
    (sig : option (gmap string bool)) (n : string) :
  first_in_order (fun n => n ∉ F) STRATEGY_PRIORITY n ->
  exists c, fallback_confidence n = Some c /\
            _select_fallback_strategy r F sig
            = {| strategy := n;
                 action := default "" (AgentLoop.FALLBACK_ACTIONS !! n);
                 confidence := c |}.
Proof.
  intros Hn.
  assert (Hin : n ∈ STRATEGY_PRIORITY).
  { destruct Hn as (i & Hi & _). by eapply list_elem_of_lookup_2. }
  apply (proj2 (head_filter_first (fun n => n ∉ F) _ _)) in Hn.
  destruct (fallback_confidence_table n Hin) as (c & Hc1 & Hc2).
  exists c. split; [done |].
  unfold _select_fallback_strategy. rewrite first_not_failed_head, Hn. simpl.
  by rewrite Hc2.
Qed.

Lemma select_fallback_exhausted (r : BottleneckReport) (F : gset string)
    (sig : option (gmap string bool)) :
  (forall n, n ∈ STRATEGY_PRIORITY -> n ∈ F) ->
  _select_fallback_strategy r F sig
  = {| strategy := "HoldPosition"; action := EXHAUSTED_ACTION; confidence := 0.25 |}.
Proof.
  intros Hall.
  unfold _select_fallback_strategy. rewrite first_not_failed_head.
  rewrite (proj2 (head_filter_none (fun n => n ∉ F) STRATEGY_PRIORITY));
    [reflexivity |].
  intros n Hn Hnot. by apply Hnot, Hall.
Qed.

Lemma re_evaluate_strategy_failed (s : AgentSession) (r : StrategyRecord) :
  current_strategy s = Some r -> failed r = true ->
  let history := (strategy_history s ++ [r])%list in
  let F := failed_strategies_of history in
  let stage2 := analyze_bottlenecks (stage1_evidence s) in
  let sig := section_signals (stage1_evidence s) in
  let fresh := select_strategy_and_action stage2 sig in
  let chosen :=
    if bool_decide (strategy fresh ∈ F)
    then _select_fallback_strategy stage2 F sig else fresh in
  re_evaluate_strategy s
  = {| stage1_evidence := stage1_evidence s;
       stage2_bottleneck := stage2;
       stage3_strategy := chosen;
       current_strategy := Some (new_record (strategy chosen) (confidence chosen));
       strategy_history := history;
       loop_iteration := (loop_iteration s + 1)%Z;
       explanation_log :=
         (explanation_log s
          ++ [LogReEvaluated (rec_strategy r) (strategy chosen) (confidence chosen)])%list |}.
Proof.
  intros Hc Hf. unfold re_evaluate_strategy. rewrite Hc, Hf. reflexivity.
Qed.

(** C6.  Re-evaluating a session whose current strategy has failed appends
    that record to the history and selects a new strategy, which starts a
    new record.  The failed set is the set of strategy names marked failed
    in the history (the archived record included).  A freshly selected
    strategy outside the failed set is kept; one inside it is replaced by the
    first name of [ResumeOptimization, SkillGapPatch, RoleShift,
    HoldPosition] outside the failed set, with confidence 0.55, 0.45, 0.35,
    0.70 respectively; when all four names are in the failed set the result
    is HoldPosition with confidence 0.25 and the exhausted action. *)
Theorem re_evaluate_strategy_fallback :
  forall (s : AgentSession) (r : StrategyRecord),
    current_strategy s = Some r -> failed r = true ->
    let s' := re_evaluate_strategy s in
    let F := failed_strategies_of (strategy_history s') in
    let fresh :=
      select_strategy_and_action (analyze_bottlenecks (stage1_evidence s))
                                 (section_signals (stage1_evidence s)) in
    let chosen := stage3_strategy s' in
    STRATEGY_PRIORITY
      = ["ResumeOptimization"; "SkillGapPatch"; "RoleShift"; "HoldPosition"] /\
    strategy_history s' = (strategy_history s ++ [r])%list /\
    (forall n, n ∈ F <-> ever_failed (strategy_history s') n) /\
    rec_strategy r ∈ F /\
    current_strategy s' = Some (new_record (strategy chosen) (confidence chosen)) /\
    (strategy fresh ∉ F -> chosen = fresh) /\
    (strategy fresh ∈ F ->
     forall n, first_in_order (fun n => n ∉ F) STRATEGY_PRIORITY n ->
               exists c, fallback_confidence n = Some c /\
                         strategy chosen = n /\ confidence chosen = c /\
                         AgentLoop.FALLBACK_ACTIONS !! n = Some (action chosen)) /\
    ((forall n, n ∈ STRATEGY_PRIORITY -> n ∈ F) ->
     chosen = {| strategy := "HoldPosition";
                 action := "All strategies exhausted. Recommend manual review of career positioning.";
                 confidence := 0.25 |}).
Proof.
  intros s r Hc Hf s' F fresh chosen. subst s' F fresh chosen.
  rewrite (re_evaluate_strategy_failed s r Hc Hf). simpl.
  set (history := (strategy_history s ++ [r])%list).
  set (F := failed_strategies_of history).
  set (stage2 := analyze_bottlenecks (stage1_evidence s)).
  set (sig := section_signals (stage1_evidence s)).
  set (fresh := select_strategy_and_action stage2 sig).
  split; [reflexivity |]. split; [reflexivity |].
  split; [intros n; apply failed_strategies_of_spec |].
  split.
  { apply failed_strategies_of_spec. exists r. split; [| done].
    apply elem_of_app. right. by left. }
  split; [reflexivity |].
  split; [intros Hout; by rewrite bool_decide_eq_false_2 |].
  split.
  - intros Hin n Hn. rewrite bool_decide_eq_true_2 by done.
    destruct (select_fallback_first stage2 F sig n Hn) as (c & Hc1 & ->).
    exists c. simpl. repeat split; try done.
    assert (Hmem : n ∈ STRATEGY_PRIORITY).
    { destruct Hn as (i & Hi & _). by eapply list_elem_of_lookup_2. }
    unfold STRATEGY_PRIORITY in Hmem.
    repeat (apply elem_of_cons in Hmem as [-> | Hmem]);
      [| | | | by apply elem_of_nil in Hmem]; reflexivity.
  - intros Hall.
    assert (Hin : strategy fresh ∈ F).
    { apply Hall. apply select_strategy_names. }
    rewrite bool_decide_eq_true_2 by done.
    by apply select_fallback_exhausted.
Qed.

(** ** Recording an outcome: errors (C8) *)

Lemma valid_outcome_tag (o : string) : valid_outcome o = true <-> is_outcome_tag o.
Proof.
  unfold valid_outcome, is_outcome_tag.
  rewrite !orb_true_iff, !String.eqb_eq. tauto.
Qed.

Lemma record_outcome_invalid (s : AgentSession) (o : string) :
  ~ is_outcome_tag o -> exists msg, record_outcome s o = Raises msg s.
Proof.
  intros Hno. unfold record_outcome.
  destruct (valid_outcome o) eqn:Hv; [by apply valid_outcome_tag in Hv |].
  simpl. eauto.
Qed.

Lemma record_outcome_no_strategy (s : AgentSession) (o : string) :
  current_strategy s = None -> exists msg, record_outcome s o = Raises msg s.
Proof.
  intros Hc. unfold record_outcome. rewrite Hc.
  destruct (negb (valid_outcome o)); eauto.
Qed.

Lemma record_outcome_valid (s : AgentSession) (r : StrategyRecord) (o : string) :
  is_outcome_tag o -> current_strategy s = Some r ->
  exists s', record_outcome s o = Returns s'.
Proof.
  intros Hv Hc. apply valid_outcome_tag in Hv.
  unfold record_outcome. rewrite Hv, Hc. simpl.
  destruct (should_invalidate _); eauto.
Qed.

(** C8.  Recording an outcome whose tag is not interview, rejected or
    no_response, or recording one in a session without a current strategy,
    raises an error and leaves the session as it was: no outcome appended,
    no confidence change, no log entry.  The full step [process_outcome]
    fails the same way.  With one of the three tags and a current strategy
    [record_outcome] raises no error. *)
Theorem record_outcome_rejects_invalid_input :
  forall (extract : AgentSession -> bool) (s : AgentSession) (o : string),
    (~ is_outcome_tag o ->
     exists msg, record_outcome s o = Raises msg s /\
                 process_outcome extract s o = Raises msg s) /\
    (current_strategy s = None ->
     exists msg, record_outcome s o = Raises msg s /\
                 process_outcome extract s o = Raises msg s) /\
    (is_outcome_tag o -> current_strategy s <> None ->
     exists s', record_outcome s o = Returns s').
Proof.
  intros extract s o. split; [| split].
  - intros Hno. destruct (record_outcome_invalid s o Hno) as [msg Hr].
    exists msg. split; [done |]. unfold process_outcome. by rewrite Hr.
  - intros Hc. destruct (record_outcome_no_strategy s o Hc) as [msg Hr].
    exists msg. split; [done |]. unfold process_outcome. by rewrite Hr.
  - intros Hv Hc. destruct (current_strategy s) as [r |] eqn:Hcur; [| done].
    apply (record_outcome_valid s r o Hv Hcur).
Qed.

Lemma record_outcome_rejects_invalid_input_witness :
  exists msg,
    record_outcome fresh_session "hired" = Raises msg fresh_session /\
    process_outcome no_signals fresh_session "hired" = Raises msg fresh_session.
Proof.
  apply (proj1 (record_outcome_rejects_invalid_input no_signals fresh_session "hired")).
  intros [H | [H | H]]; discriminate H.
Defined.

(** ** The lifecycle step, operation by operation *)

Lemma failure_condition_next_state (r : StrategyRecord) (hp : bool) :
  failure_condition r -> (next_state r hp).1 = RECONSIDER.
Proof.
  unfold failure_condition, next_state, FAILURE_THRESHOLD, NEGATIVE_OUTCOME_LIMIT.
  intros [Hc | Hn].
  - apply Qltb_lt in Hc. by rewrite Hc.
  - destruct (Qltb _ _); [done |].
    apply Nat.leb_le in Hn. by rewrite Hn.
Qed.

Lemma no_failure_next_state (r : StrategyRecord) (hp : bool) :
  ~ failure_condition r ->
  Qltb (current_confidence r) FAILURE_THRESHOLD = false /\
  (NEGATIVE_OUTCOME_LIMIT <=? negative_count (outcomes r))%nat = false.
Proof.
  unfold failure_condition, FAILURE_THRESHOLD, NEGATIVE_OUTCOME_LIMIT. intros Hno. split.
  - apply not_true_iff_false. intros Hc. apply Qltb_lt in Hc. tauto.
  - apply not_true_iff_false. intros Hn. apply Nat.leb_le in Hn. tauto.
Qed.

Lemma should_invalidate_spec (r : StrategyRecord) :
  should_invalidate r = true <-> failed r = true \/ failure_condition r.
Proof.
  unfold should_invalidate, failure_condition, FAILURE_THRESHOLD, NEGATIVE_OUTCOME_LIMIT.
  destruct (failed r); [tauto |].
  destruct (Qltb _ _) eqn:Hc.
  - apply Qltb_lt in Hc. tauto.
  - apply Qltb_ge in Hc.
    destruct (Nat.leb_spec 3 (negative_count (outcomes r))).
    + tauto.
    + split; [discriminate |]. intros [? | [? | ?]]; [done | lra | lia].
Qed.

Lemma same_attempt_refl (r : StrategyRecord) : same_attempt r r.
Proof. repeat split. exists []. by rewrite app_nil_r. Qed.

Lemma same_attempt_trans (r1 r2 r3 : StrategyRecord) :
  same_attempt r1 r2 -> same_attempt r2 r3 -> same_attempt r1 r3.
Proof.
  intros (Hs1 & Hi1 & m1 & Ho1) (Hs2 & Hi2 & m2 & Ho2).
  repeat split; [congruence | congruence |].
  exists (m1 ++ m2)%list. by rewrite Ho2, Ho1, app_assoc.
Qed.

(** [record_outcome] updates the current record in place. *)
Lemma record_outcome_returns (s s' : AgentSession) (r : StrategyRecord) (o : string) :
  current_strategy s = Some r -> record_outcome s o = Returns s' ->
  exists r',
    current_strategy s' = Some r' /\
    rec_strategy r' = rec_strategy r /\
    initial_confidence r' = initial_confidence r /\
    current_confidence r' = update_confidence (current_confidence r) o /\
    outcomes r' = (outcomes r ++ [o])%list /\
    strategy_state r' = strategy_state r /\
    (failed r' = true <-> failed r = true \/ failure_condition r') /\
    strategy_history s' = strategy_history s /\
    stage1_evidence s' = stage1_evidence s /\
    is_outcome_tag o.
Proof.
  intros Hc. unfold record_outcome.
  destruct (valid_outcome o) eqn:Hv; [| discriminate]. simpl. rewrite Hc.
  apply valid_outcome_tag in Hv.
  set (r0 := set_confidence (append_outcome r o) _).
  destruct (should_invalidate r0) eqn:Hinv; intros [= <-]; simpl.
  - exists (set_failed r0 true). repeat split; try done.
    intros _. by apply should_invalidate_spec in Hinv.
  - exists r0. repeat split; try done.
    + intros Hf. by left.
    + intros Hor. apply (should_invalidate_spec r0) in Hor. congruence.
Qed.

(** The state evaluation updates the current record in place. *)
Lemma apply_transition_current
    (s : AgentSession) (r : StrategyRecord) (hp : bool) :
  current_strategy s = Some r ->
  exists r',
    current_strategy (apply_transition s hp) = Some r' /\
    rec_strategy r' = rec_strategy r /\
    initial_confidence r' = initial_confidence r /\
    current_confidence r' = current_confidence r /\
    outcomes r' = outcomes r /\
    strategy_state r' = (next_state r hp).1 /\
    (failed r = true -> failed r' = true) /\
    (strategy_state r' = RECONSIDER ->
     strategy_state r = RECONSIDER /\ failed r' = failed r \/ failed r' = true) /\
    strategy_history (apply_transition s hp) = strategy_history s /\
    stage1_evidence (apply_transition s hp) = stage1_evidence s.
Proof.
  intros Hc. unfold apply_transition. rewrite Hc.
  destruct (next_state r hp) as [st reason] eqn:Hn.
  simpl. destruct (decide (st = strategy_state r)) as [-> | Hne].
  - rewrite bool_decide_eq_false_2 by (intros H; by apply H).
    exists r. rewrite Hc. repeat split; try done. intros ?. by left.
  - rewrite bool_decide_eq_true_2 by done.
    destruct (decide (st = RECONSIDER)) as [-> | Hnr].
    + rewrite bool_decide_eq_true_2 by done. simpl.
      eexists. repeat split; try done. intros _. by right.
    + rewrite bool_decide_eq_false_2 by done. simpl.
      eexists. repeat split; try done.
Qed.

(** When [evaluate_strategy_state] returns, it returns the transition. *)
Lemma evaluate_strategy_state_returns
    (s s' : AgentSession) (ps : SignalsArgument) :
  evaluate_strategy_state s ps = Returns s' ->
  s' = apply_transition s (has_positioning_issue_of ps).
Proof.
  unfold evaluate_strategy_state.
  destruct (current_strategy s), ps; intros [=]; done.
Qed.

(** It returns whenever it is not handed the dataclass instance. *)
Lemma evaluate_strategy_state_total (s : AgentSession) (ps : SignalsArgument) :
  ps <> SignalsObject ->
  evaluate_strategy_state s ps
  = Returns (apply_transition s (has_positioning_issue_of ps)).
Proof.
  unfold evaluate_strategy_state.
  destruct (current_strategy s), ps; intros Hne; done.
Qed.

(** Without the failed flag [re_evaluate_strategy] does nothing. *)
Lemma re_evaluate_strategy_not_failed (s : AgentSession) (r : StrategyRecord) :
  current_strategy s = Some r -> failed r = false -> re_evaluate_strategy s = s.
Proof. intros Hc Hf. unfold re_evaluate_strategy. by rewrite Hc, Hf. Qed.

(** One full step that completes, split by what the state evaluation
    decided: the extraction left no signals. *)
Lemma process_outcome_returns
    (extract : AgentSession -> bool)
    (s : AgentSession) (o : string) (result : ProcessResult) :
  process_outcome extract s o = Returns result ->
  exists s1 s2,
    record_outcome s o = Returns s1 /\
    evaluate_strategy_state s1 (if extract s1 then SignalsObject else SignalsNone)
    = Returns s2 /\
    s2 = apply_transition s1 false /\
    res_strategy_state result = strategy_state <$> current_strategy (res_session result) /\
    match current_strategy s2 with
    | Some r2 =>
        if bool_decide (strategy_state r2 = RECONSIDER)
        then res_session result = re_evaluate_strategy s2
        else res_session result = s2
    | None => res_session result = s2
    end.
Proof.
  unfold process_outcome. destruct (record_outcome s o) as [s1 |]; [| discriminate].
  destruct (evaluate_strategy_state s1 _) as [s2 |] eqn:Hev; [| discriminate].
  intros Hres. exists s1, s2. split; [done |]. split; [done |].
  split.
  { apply evaluate_strategy_state_returns in Hev. by destruct (extract s1). }
  destruct (current_strategy s2) as [r2 |] eqn:Hc2.
  - destruct (bool_decide (strategy_state r2 = RECONSIDER));
      inversion Hres; subst; simpl; done.
  - inversion Hres; subst; simpl. done.
Qed.

Lemma next_state_execute (r : StrategyRecord) (hp : bool) :
  strategy_state r = EXECUTE ->
  (~ failure_condition r /\ next_state r hp = (EXECUTE, None)) \/
  (failure_condition r /\ (next_state r hp).1 = RECONSIDER).
Proof.
  intros Hst.
  destruct (Qlt_le_dec (current_confidence r) 0.30) as [Hc | Hc].
  { right. split; [by left | apply failure_condition_next_state; by left]. }
  destruct (le_lt_dec 3 (negative_count (outcomes r))) as [Hn | Hn].
  { right. split; [by right | apply failure_condition_next_state; by right]. }
  left. assert (Hno : ~ failure_condition r).
  { intros [? | ?]; [lra | lia]. }
  split; [done |].
  destruct (no_failure_next_state r hp Hno) as [H1 H2].
  unfold next_state. by rewrite H1, H2, Hst.
Qed.

(** One full step on a session with a current record: the record after
    recording ([r1]), after the state evaluation ([r2]), and what the step
    leaves in the session. *)
Lemma process_outcome_step
    (extract : AgentSession -> bool)
    (s : AgentSession) (r : StrategyRecord) (o : string) (result : ProcessResult) :
  current_strategy s = Some r ->
  process_outcome extract s o = Returns result ->
  let s' := res_session result in
  exists s1 s2 r1 r2,
    record_outcome s o = Returns s1 /\
    evaluate_strategy_state s1 (if extract s1 then SignalsObject else SignalsNone)
    = Returns s2 /\
    current_strategy s1 = Some r1 /\
    current_strategy s2 = Some r2 /\
    same_attempt r r1 /\ same_attempt r r2 /\
    strategy_state r1 = strategy_state r /\
    strategy_state r2 = (next_state r1 false).1 /\
    (failed r = true -> failed r2 = true) /\
    (strategy_state r2 = RECONSIDER -> strategy_state r <> RECONSIDER ->
     failed r2 = true) /\
    (failure_condition r2 <-> failure_condition r1) /\
    res_strategy_state result = strategy_state <$> current_strategy s' /\
    ((strategy_state r2 <> RECONSIDER /\
      current_strategy s' = Some r2 /\ strategy_history s' = strategy_history s) \/
     (strategy_state r2 = RECONSIDER /\ failed r2 = false /\
      current_strategy s' = Some r2 /\ strategy_history s' = strategy_history s) \/
     (strategy_state r2 = RECONSIDER /\ failed r2 = true /\
      strategy_history s' = (strategy_history s ++ [r2])%list /\
      exists r', current_strategy s' = Some r' /\ brand_new r')).
Proof.
  intros Hc Hres s'. subst s'.
  destruct (process_outcome_returns extract s o result Hres)
    as (s1 & s2 & Hrec & Hev & Hs2 & Hst & Hfin).
  destruct (record_outcome_returns s s1 r o Hc Hrec)
    as (r1 & Hc1 & Hn1 & Hi1 & Hcf1 & Ho1 & Hs1 & Hf1 & Hh1 & _ & _).
  destruct (apply_transition_current s1 r1 false Hc1)
    as (r2 & Hc2 & Hn2 & Hi2 & Hcf2 & Ho2 & Hst2 & Hf2 & Hr2 & Hh2 & _).
  rewrite <- Hs2 in Hc2, Hh2.
  exists s1, s2, r1, r2.
  assert (Ha1 : same_attempt r r1) by (repeat split; [done | done | by exists [o]]).
  assert (Ha2 : same_attempt r r2).
  { repeat split; [congruence | congruence |]. exists [o]. congruence. }
  repeat (split; [done |]).
  split. { intros Hf. apply Hf2, Hf1. by left. }
  split. { intros Hre Hnr. destruct (Hr2 Hre) as [[Hsame _] | Hf]; [congruence | done]. }
  split. { unfold failure_condition. by rewrite Hcf2, Ho2. }
  split; [done |].
  rewrite Hc2 in Hfin.
  destruct (decide (strategy_state r2 = RECONSIDER)) as [Hre | Hre].
  - rewrite bool_decide_eq_true_2 in Hfin by done.
    destruct (failed r2) eqn:Hf.
    + right; right. rewrite Hfin.
      rewrite (re_evaluate_strategy_failed _ r2 Hc2 Hf). simpl.
      split; [done |]. split; [done |].
      split; [by rewrite Hh2, Hh1 |].
      eexists. split; [reflexivity |]. by eexists _, _.
    + right; left. rewrite Hfin.
      rewrite (re_evaluate_strategy_not_failed _ r2 Hc2 Hf).
      split; [done |]. split; [done |]. split; [done | by rewrite Hh2, Hh1].
  - rewrite bool_decide_eq_false_2 in Hfin by done.
    left. rewrite Hfin. split; [done |]. split; [done | by rewrite Hh2, Hh1].
Qed.

Lemma process_outcome_current
    (extract : AgentSession -> bool)
    (s : AgentSession) (o : string) (result : ProcessResult) :
  process_outcome extract s o = Returns result ->
  exists r, current_strategy s = Some r.
Proof.
  intros Hres. destruct (current_strategy s) as [r |] eqn:Hc; [by exists r |].
  destruct (record_outcome_no_strategy s o Hc) as [msg Hr].
  unfold process_outcome in Hres. by rewrite Hr in Hres.
Qed.

(** A full step completes on a valid outcome when the extraction leaves no
    signals. *)
Lemma process_outcome_completes
    (extract : AgentSession -> bool)
    (s : AgentSession) (r : StrategyRecord) (o : string) :
  current_strategy s = Some r -> is_outcome_tag o ->
  (forall s1, record_outcome s o = Returns s1 -> extract s1 = false) ->
  exists result, process_outcome extract s o = Returns result.
Proof.
  intros Hc Hv Hex. destruct (record_outcome_valid s r o Hv Hc) as [s1 Hrec].
  unfold process_outcome. rewrite Hrec, (Hex s1 Hrec).
  rewrite evaluate_strategy_state_total by done.
  destruct (current_strategy (apply_transition s1 _)) as [c |];
    [destruct (bool_decide (strategy_state c = RECONSIDER)) |]; eauto.
Qed.

(** The history is append-only. *)
Lemma process_outcome_history
    (extract : AgentSession -> bool)
    (s : AgentSession) (o : string) (result : ProcessResult) :
  process_outcome extract s o = Returns result ->
  exists rest, strategy_history (res_session result) = (strategy_history s ++ rest)%list.
Proof.
  intros Hres. destruct (process_outcome_current extract s o result Hres) as [r Hc].
  destruct (process_outcome_step extract s r o result Hc Hres)
    as (s1 & s2 & r1 & r2 & _ & _ & _ & _ & _ & _ & _ & _ & _ & _ & _ & _ & Hcases).
  destruct Hcases as [(_ & _ & Hh) | [(_ & _ & _ & Hh) | (_ & _ & Hh & _)]].
  - exists []. by rewrite app_nil_r.
  - exists []. by rewrite app_nil_r.
  - by exists [r2].
Qed.

Lemma process_outcomes_history
    (extract : AgentSession -> bool) (os : list string) :
  forall s s', process_outcomes extract s os = Returns s' ->
               exists rest, strategy_history s' = (strategy_history s ++ rest)%list.
Proof.
  induction os as [| o os IH]; intros s s' Hrun; simpl in Hrun.
  - inversion Hrun; subst. exists []. by rewrite app_nil_r.
  - destruct (process_outcome extract s o) as [result |] eqn:Hres; [| discriminate].
    destruct (process_outcome_history extract s o result Hres) as [rest1 H1].
    destruct (IH _ _ Hrun) as [rest2 H2].
    exists (rest1 ++ rest2)%list. by rewrite H2, H1, app_assoc.
Qed.

(** ** The EXECUTE state (C1) *)

Lemma apply_transition_execute (s : AgentSession) (r : StrategyRecord) (hp : bool) :
  current_strategy s = Some r -> strategy_state r = EXECUTE ->
  (~ failure_condition r -> apply_transition s hp = s) /\
  (failure_condition r ->
   current_strategy (apply_transition s hp)
   = Some (set_failed (set_state r RECONSIDER) true) /\
   strategy_history (apply_transition s hp) = strategy_history s).
Proof.
  intros Hc Hst. unfold apply_transition. rewrite Hc. split.
  - intros Hno.
    destruct (next_state_execute r hp Hst) as [[_ ->] | [Hf _]]; [| done].
    rewrite Hst. by rewrite bool_decide_eq_false_2 by (intros H; by apply H).
  - intros Hf.
    destruct (next_state_execute r hp Hst) as [[Hno _] | [_ Hn]]; [done |].
    destruct (next_state r hp) as [st reason].
    simpl in Hn. subst st. rewrite Hst. simpl. done.
Qed.

Lemma execute_step
    (extract : AgentSession -> bool)
    (s : AgentSession) (r : StrategyRecord) (o : string) (result : ProcessResult) :
  current_strategy s = Some r -> strategy_state r = EXECUTE ->
  process_outcome extract s o = Returns result ->
  let s' := res_session result in
  (exists r', current_strategy s' = Some r' /\ same_attempt r r' /\
              strategy_state r' = EXECUTE /\ ~ failure_condition r' /\
              strategy_history s' = strategy_history s) \/
  (exists archived r',
      strategy_history s' = (strategy_history s ++ [archived])%list /\
      same_attempt r archived /\ strategy_state archived = RECONSIDER /\
      failed archived = true /\ failure_condition archived /\
      current_strategy s' = Some r' /\ brand_new r').
Proof.
  intros Hc Hst Hres s'. subst s'.
  destruct (process_outcome_step extract s r o result Hc Hres)
    as (s1 & s2 & r1 & r2 & _ & _ & _ & _ & _ & Ha2 & Hs1 & Hs2 & _ & Hfl & Hfc & _ & Hcases).
  rewrite Hst in Hs1.
  destruct (next_state_execute r1 false Hs1)
    as [[Hno Hn] | [Hf Hn]]; rewrite Hn in Hs2; simpl in Hs2.
  - left. destruct Hcases as [(_ & Hc' & Hh) | [(Hre & _) | (Hre & _)]];
      [| congruence | congruence].
    exists r2. repeat split; try done; [apply Ha2 | apply Ha2 | apply Ha2 | tauto].
  - right. assert (Hfailed : failed r2 = true) by (apply Hfl; [done | by rewrite Hst]).
    destruct Hcases as [(Hre & _) | [(_ & Hff & _) | (_ & _ & Hh & r' & Hc' & Hnew)]];
      [done | congruence |].
    exists r2, r'. repeat split; try done; [apply Ha2 | apply Ha2 | apply Ha2 | tauto].
Qed.

Lemma execute_run
    (extract : AgentSession -> bool) (os : list string) :
  forall (s : AgentSession) (r : StrategyRecord) (s' : AgentSession),
    current_strategy s = Some r -> strategy_state r = EXECUTE ->
    process_outcomes extract s os = Returns s' ->
    (exists r', current_strategy s' = Some r' /\ same_attempt r r' /\
                strategy_state r' = EXECUTE /\
                strategy_history s' = strategy_history s) \/
    (exists archived rest,
        strategy_history s' = (strategy_history s ++ archived :: rest)%list /\
        same_attempt r archived /\ strategy_state archived = RECONSIDER /\
        failed archived = true).
Proof.
  induction os as [| o os IH]; intros s r s' Hc Hst Hrun; simpl in Hrun.
  - inversion Hrun; subst. left. exists r. repeat split; try done.
    exists []. by rewrite app_nil_r.
  - destruct (process_outcome extract s o) as [result |] eqn:Hres; [| discriminate].
    destruct (execute_step extract s r o result Hc Hst Hres)
      as [(r1 & Hc1 & Ha1 & Hs1 & _ & Hh1) | (arch & r1 & Hh1 & Ha & Hs & Hf & _)].
    + destruct (IH _ r1 s' Hc1 Hs1 Hrun)
        as [(r' & Hc' & Ha' & Hs' & Hh') | (arch & rest & Hh' & Ha' & Hs' & Hf')].
      * left. exists r'. repeat split; try done;
          [apply (same_attempt_trans r r1 r' Ha1 Ha') ..| congruence].
      * right. exists arch, rest. rewrite Hh', Hh1. repeat split; try done;
          apply (same_attempt_trans r r1 arch Ha1 Ha').
    + destruct (process_outcomes_history extract os _ _ Hrun) as [rest Hh'].
      right. exists arch, rest. rewrite Hh', Hh1, <- app_assoc. simpl.
      repeat split; try done; apply Ha.
Qed.

(** C1, as amended.  A record in EXECUTE never moves to EXPLORE or VALIDATE:
    the state evaluation leaves the session untouched unless the failure
    trigger holds (confidence below 0.30, or three negative outcomes), and
    then it moves the record to RECONSIDER and sets its failed flag.
    Recording an outcome keeps the record and its state.  So after one full
    step, and after any sequence of steps, the current strategy is still that
    record in EXECUTE, or that record has been archived in RECONSIDER and a
    brand-new record has replaced it. *)
Theorem execute_left_only_through_reconsider :
  forall (extract : AgentSession -> bool) (s : AgentSession) (r : StrategyRecord),
    current_strategy s = Some r -> strategy_state r = EXECUTE ->
    (forall ps,
        ps <> SignalsObject ->
        exists s',
          evaluate_strategy_state s ps = Returns s' /\
          (~ failure_condition r -> s' = s) /\
          (failure_condition r ->
           current_strategy s' = Some (set_failed (set_state r RECONSIDER) true) /\
           strategy_history s' = strategy_history s)) /\
    (forall o s',
        record_outcome s o = Returns s' ->
        exists r', current_strategy s' = Some r' /\ same_attempt r r' /\
                   strategy_state r' = EXECUTE /\
                   strategy_history s' = strategy_history s) /\
    (forall o result,
        process_outcome extract s o = Returns result ->
        let s' := res_session result in
        (exists r', current_strategy s' = Some r' /\ same_attempt r r' /\
                    strategy_state r' = EXECUTE /\ ~ failure_condition r' /\
                    strategy_history s' = strategy_history s) \/
        (exists archived r',
            strategy_history s' = (strategy_history s ++ [archived])%list /\
            same_attempt r archived /\ strategy_state archived = RECONSIDER /\
            failed archived = true /\ failure_condition archived /\
            current_strategy s' = Some r' /\ brand_new r')) /\
    (forall os s',
        process_outcomes extract s os = Returns s' ->
        (exists r', current_strategy s' = Some r' /\ same_attempt r r' /\
                    strategy_state r' = EXECUTE /\
                    strategy_history s' = strategy_history s) \/
        (exists archived rest,
            strategy_history s' = (strategy_history s ++ archived :: rest)%list /\
            same_attempt r archived /\ strategy_state archived = RECONSIDER /\
            failed archived = true)).
Proof.
  intros extract s r Hc Hst. split; [| split; [| split]].
  - intros ps Hps. eexists. split; [by apply evaluate_strategy_state_total |].
    by apply apply_transition_execute.
  - intros o s' Hrec.
    destruct (record_outcome_returns s s' r o Hc Hrec)
      as (r' & Hc' & Hn & Hi & _ & Ho & Hs & _ & Hh & _).
    exists r'. repeat split; try done; [by exists [o] | congruence].
  - intros o result Hres. by apply (execute_step extract s r o result).
  - intros os s' Hrun. by apply (execute_run extract os s r s').
Qed.

Lemma execute_left_only_through_reconsider_witness :
  exists s',
    evaluate_strategy_state (with_current execute_record) SignalsNone = Returns s' /\
    (~ failure_condition execute_record -> s' = with_current execute_record) /\
    (failure_condition execute_record ->
     current_strategy s'
     = Some (set_failed (set_state execute_record RECONSIDER) true) /\
     strategy_history s' = strategy_history (with_current execute_record)).
Proof.
  apply (proj1 (execute_left_only_through_reconsider no_signals
                  (with_current execute_record) execute_record eq_refl eq_refl)
           SignalsNone).
  discriminate.
Defined.

(** C1 as stated fails.  From the initial confidence 0.70, two interviews
    put the record in EXECUTE; two rejections later it is still there; when
    the third rejection is recorded, the state evaluation moves that record
    from EXECUTE to RECONSIDER. *)
Lemma execute_state_changed_counterexample :
  exists (s s1 s2 : AgentSession) (r1 : StrategyRecord),
    process_outcomes no_signals fresh_session
      ["interview"; "interview"; "rejected"; "rejected"] = Returns s /\
    record_outcome s "rejected" = Returns s1 /\
    current_strategy s1 = Some r1 /\
    strategy_state r1 = EXECUTE /\
    evaluate_strategy_state s1 SignalsNone = Returns s2 /\
    strategy_state <$> current_strategy s2 = Some RECONSIDER.
Proof.
  eexists _, _, _, _.
  split; [vm_compute; reflexivity |].
  split; [vm_compute; reflexivity |].
  split; [vm_compute; reflexivity |].
  split; [vm_compute; reflexivity |].
  split; vm_compute; reflexivity.
Qed.

(** ** RECONSIDER is resolved within the step (C9) *)

Lemma brand_new_fields (r : StrategyRecord) :
  brand_new r ->
  strategy_state r = EXPLORE /\ failed r = false /\ outcomes r = [].
Proof. by intros (name & c & ->). Qed.

(** C9, as amended.  A freshly initialized session has no record in
    RECONSIDER.  For a session whose current record, if in RECONSIDER,
    carries the failed flag, a full step that completes never leaves the
    current record in RECONSIDER, and the session it leaves has the same
    property.  Whenever the state evaluation of the step reports RECONSIDER,
    the step appends that record to the history and installs a brand-new
    record in EXPLORE with the failed flag unset. *)
Theorem process_outcome_resolves_reconsider :
  (forall (e : Evidence) (b : BottleneckReport) (d : StrategyDecision),
      reconsider_is_failed (initialize_session e b d)) /\
  (forall (extract : AgentSession -> bool)
          (s : AgentSession) (r : StrategyRecord) (o : string) (result : ProcessResult),
      current_strategy s = Some r ->
      reconsider_is_failed s ->
      process_outcome extract s o = Returns result ->
      let s' := res_session result in
      (exists r', current_strategy s' = Some r' /\
                  strategy_state r' <> RECONSIDER /\
                  res_strategy_state result = Some (strategy_state r')) /\
      reconsider_is_failed s' /\
      (forall s1 s2 r2,
          record_outcome s o = Returns s1 ->
          evaluate_strategy_state s1 (if extract s1 then SignalsObject else SignalsNone)
          = Returns s2 ->
          current_strategy s2 = Some r2 ->
          strategy_state r2 = RECONSIDER ->
          strategy_history s' = (strategy_history s ++ [r2])%list /\
          same_attempt r r2 /\ failed r2 = true /\
          exists r', current_strategy s' = Some r' /\ brand_new r' /\
                     strategy_state r' = EXPLORE /\ failed r' = false)).
Proof.
  split; [intros e b d r; simpl; intros [= <-]; discriminate |].
  intros extract s r o result Hc Hinv Hres s'. subst s'.
  destruct (process_outcome_step extract s r o result Hc Hres)
    as (s1 & s2 & r1 & r2 & Hrec & Hev & Hc1 & Hc2 & _ & Ha2 & _ & _ & Hff & Hfl
        & _ & Hst & Hcases).
  assert (Hflag : strategy_state r2 = RECONSIDER -> failed r2 = true).
  { intros Hre. destruct (decide (strategy_state r = RECONSIDER)) as [Hr | Hr].
    - apply Hff. by apply Hinv.
    - by apply Hfl. }
  assert (Hcur : exists r', current_strategy (res_session result) = Some r' /\
                            strategy_state r' <> RECONSIDER).
  { destruct Hcases as [(Hne & Hc' & _) | [(Hre & Hf & _) | (_ & _ & _ & r' & Hc' & Hnew)]].
    - by exists r2.
    - rewrite (Hflag Hre) in Hf. discriminate.
    - exists r'. split; [done |].
      destruct (brand_new_fields r' Hnew) as (-> & _). discriminate. }
  destruct Hcur as (r' & Hc' & Hne).
  split; [| split].
  - exists r'. rewrite Hst, Hc'. done.
  - intros r0 Hc0 Hre. congruence.
  - intros s1' s2' r2' Hrec' Hev' Hc2' Hre.
    rewrite Hrec in Hrec'. inversion Hrec'; subst s1'.
    rewrite Hev in Hev'. inversion Hev'; subst s2'.
    rewrite Hc2 in Hc2'. inversion Hc2'; subst r2'.
    destruct Hcases as [(Hno & _) | [(_ & Hf & _) | (_ & Hf & Hh & r'' & Hc'' & Hnew)]].
    + done.
    + rewrite (Hflag Hre) in Hf. discriminate.
    + split; [done |]. split; [done |]. split; [done |].
      exists r''. destruct (brand_new_fields r'' Hnew) as (? & ? & _). done.
Qed.

Lemma process_outcome_resolves_reconsider_witness :
  exists result,
    process_outcome no_signals (with_current failed_record) "rejected"
    = Returns result /\
    exists r', current_strategy (res_session result) = Some r' /\
               strategy_state r' <> RECONSIDER /\
               res_strategy_state result = Some (strategy_state r').
Proof.
  eexists. split; [vm_compute; reflexivity |].
  refine (proj1 (proj2 process_outcome_resolves_reconsider no_signals
                   (with_current failed_record) failed_record "rejected" _
                   eq_refl _ _)).
  - intros r [= <-] _. reflexivity.
  - vm_compute. reflexivity.
Defined.

(** C9 as stated fails on a session document whose record is in RECONSIDER
    without the failed flag: the step completes and leaves that record, in
    RECONSIDER, as the current strategy. *)
Lemma process_outcome_leaves_reconsider_counterexample :
  exists result r',
    process_outcome no_signals (with_current unflagged_reconsider_record) "interview"
    = Returns result /\
    current_strategy (res_session result) = Some r' /\
    strategy_state r' = RECONSIDER /\
    strategy_history (res_session result) = [].
Proof.
  eexists _, _.
  split; [vm_compute; reflexivity |].
  split; [vm_compute; reflexivity |].
  split; vm_compute; reflexivity.
Qed.

(** ** The failed flag (C10) *)

(** C10.  Once the failed flag of the current record is set, the legacy
    check answers true, recording an outcome and evaluating the state keep
    the record in place with the flag set, and neither touches the history;
    re-evaluation archives the record as it is and installs a newly created
    record, the only unfailed record a full step can leave. *)
Theorem failed_flag_is_monotone :
  forall (extract : AgentSession -> bool) (s : AgentSession) (r : StrategyRecord),
    current_strategy s = Some r -> failed r = true ->
    should_invalidate r = true /\
    (forall o s',
        record_outcome s o = Returns s' ->
        exists r', current_strategy s' = Some r' /\ same_attempt r r' /\
                   failed r' = true /\ strategy_history s' = strategy_history s) /\
    (forall ps s',
        evaluate_strategy_state s ps = Returns s' ->
        exists r', current_strategy s' = Some r' /\ same_attempt r r' /\
                   failed r' = true /\ strategy_history s' = strategy_history s) /\
    (let s' := re_evaluate_strategy s in
     strategy_history s' = (strategy_history s ++ [r])%list /\
     exists r', current_strategy s' = Some r' /\ brand_new r' /\ failed r' = false) /\
    (forall o result,
        process_outcome extract s o = Returns result ->
        let s' := res_session result in
        (exists r', current_strategy s' = Some r' /\ same_attempt r r' /\
                    failed r' = true /\ strategy_history s' = strategy_history s) \/
        (exists archived r',
            strategy_history s' = (strategy_history s ++ [archived])%list /\
            same_attempt r archived /\ failed archived = true /\
            current_strategy s' = Some r' /\ brand_new r' /\ failed r' = false)).
Proof.
  intros extract s r Hc Hf. split; [| split; [| split; [| split]]].
  - apply should_invalidate_spec. by left.
  - intros o s' Hrec.
    destruct (record_outcome_returns s s' r o Hc Hrec)
      as (r' & Hc' & Hn & Hi & _ & Ho & _ & Hfl & Hh & _).
    exists r'. repeat split; try done; [by exists [o] | apply Hfl; by left].
  - intros ps s' Hev. apply evaluate_strategy_state_returns in Hev. subst s'.
    destruct (apply_transition_current s r (has_positioning_issue_of ps) Hc)
      as (r' & Hc' & Hn & Hi & _ & Ho & _ & Hfl & _ & Hh & _).
    exists r'. repeat split; try done; [| by apply Hfl].
    exists []. by rewrite app_nil_r.
  - intros s'. subst s'. rewrite (re_evaluate_strategy_failed s r Hc Hf). simpl.
    split; [done |]. eexists. split; [reflexivity |]. split; [| done].
    by eexists _, _.
  - intros o result Hres s'. subst s'.
    destruct (process_outcome_step extract s r o result Hc Hres)
      as (s1 & s2 & r1 & r2 & _ & _ & _ & _ & _ & Ha2 & _ & _ & Hff & _ & _ & _ & Hcases).
    specialize (Hff Hf).
    destruct Hcases as [(_ & Hc' & Hh) | [(_ & Hno & _) | (_ & _ & Hh & r' & Hc' & Hnew)]].
    + left. by exists r2.
    + congruence.
    + right. exists r2, r'. destruct (brand_new_fields r' Hnew) as (_ & ? & _). done.
Qed.

Lemma failed_flag_is_monotone_witness :
  should_invalidate failed_record = true.
Proof.
  apply (failed_flag_is_monotone no_signals (with_current failed_record)
           failed_record eq_refl eq_refl).
Defined.

(** ** The roadmap gate (C7) *)

Lemma is_str_true (j : json) (text : string) : is_str j text = true <-> j = JStr text.
Proof.
  destruct j; simpl; try (split; [discriminate | intros [=]]).
  rewrite String.eqb_eq. split; [by intros -> | by intros [= ->]].
Qed.

Lemma truthy_object (fields : list (string * json)) (key : string) (v : json) :
  assoc_get key fields = Some v -> truthy (JObj fields) = true.
Proof. by destruct fields. Qed.

Lemma check_roadmap_eligibility_eligible (doc : json) :
  (exists e, check_roadmap_eligibility doc = Done e /\ eligible e = true)
  <-> document_in_execute doc.
Proof.
  unfold document_in_execute. split.
  - intros (e & Hcheck & Hel). unfold check_roadmap_eligibility in Hcheck.
    destruct (truthy doc); simpl in Hcheck;
      [| inversion Hcheck; subst; discriminate].
    destruct doc as [| | | | | fields]; simpl in Hcheck; try discriminate.
    destruct (assoc_get "current_strategy" fields) as [cs |] eqn:Hcs;
      simpl in Hcheck; [| inversion Hcheck; subst; discriminate].
    destruct (truthy cs); simpl in Hcheck;
      [| inversion Hcheck; subst; discriminate].
    destruct cs as [| | | | | record]; simpl in Hcheck; try discriminate.
    exists fields, record. split; [done |]. split; [done |].
    destruct (assoc_get "strategy_state" record) as [st |] eqn:Hst; simpl in Hcheck.
    + destruct (is_str st "execute") eqn:He.
      * apply is_str_true in He. by subst.
      * repeat match type of Hcheck with
               | context [if ?b then _ else _] => destruct b
               end; inversion Hcheck; subst; discriminate.
    + inversion Hcheck; subst; discriminate.
  - intros (fields & record & -> & Hcs & Hst).
    unfold check_roadmap_eligibility.
    rewrite (truthy_object _ _ _ Hcs). cbn [negb py_get]. rewrite Hcs.
    change (default JNull (Some (JObj record))) with (JObj record).
    rewrite (truthy_object _ _ _ Hst). cbn [negb py_get].
    rewrite Hst.
    destruct (assoc_get "strategy" record), (assoc_get "current_confidence" record);
      simpl; eauto.
Qed.

Lemma check_roadmap_eligibility_record
    (fields : list (string * json)) (r : StrategyRecord) :
  assoc_get "current_strategy" fields = Some (record_to_dict r) ->
  exists e,
    check_roadmap_eligibility (JObj fields) = Done e /\
    eligible e = bool_decide (strategy_state r = EXECUTE) /\
    reason e = gate_reason r /\
    current_state e = Some (JStr (state_value (strategy_state r))).
Proof.
  intros Hcs. unfold check_roadmap_eligibility.
  rewrite (truthy_object _ _ _ Hcs). cbn [negb py_get]. rewrite Hcs.
  unfold gate_reason. destruct r as [name ic cc os f' st]. simpl.
  destruct st; simpl; eexists; repeat split.
Qed.

Lemma check_roadmap_eligibility_absent (fields : list (string * json)) :
  fields <> [] ->
  assoc_get "current_strategy" fields = None \/
  assoc_get "current_strategy" fields = Some JNull ->
  check_roadmap_eligibility (JObj fields)
  = Done {| eligible := false; reason := NoActiveStrategyFound;
            current_state := None; recommendation := None |}.
Proof.
  intros Hne Hcs. unfold check_roadmap_eligibility.
  assert (Ht : truthy (JObj fields) = true) by (by destruct fields).
  rewrite Ht. cbn [negb py_get].
  by destruct Hcs as [-> | ->].
Qed.

Lemma generate_roadmap_gated
    (doc : json) (snapshot profile : option json) (template : string) :
  generate_roadmap doc snapshot profile = Done (Generated template) ->
  exists e, check_roadmap_eligibility doc = Done e /\ eligible e = true.
Proof.
  unfold generate_roadmap.
  destruct (check_roadmap_eligibility doc) as [e |]; [| discriminate].
  destruct (eligible e) eqn:He; simpl; [eauto | discriminate].
Qed.

Lemma truthy_false_object (cs : json) :
  truthy cs = true -> (forall record, cs <> JObj record) ->
  py_get cs "strategy_state" = Fails AttributeError.
Proof.
  intros Ht Hno. destruct cs as [| | | | | record]; try reflexivity.
  by destruct (Hno record).
Qed.

(** The gate on a dict that holds a non-empty strategy record. *)
Lemma check_roadmap_eligibility_by_state
    (fields record : list (string * json)) :
  assoc_get "current_strategy" fields = Some (JObj record) ->
  record <> [] ->
  exists e,
    check_roadmap_eligibility (JObj fields) = Done e /\
    current_state e = Some (state_read record) /\
    (eligible e = true <-> state_read record = JStr "execute") /\
    (state_read record = JStr "execute" ->
     reason e = InExecuteState (name_read record) (confidence_read record)) /\
    (state_read record = JStr "explore" ->
     reason e = InExploreState (name_read record)) /\
    (state_read record = JStr "validate" ->
     reason e = InValidateState (name_read record)) /\
    (state_read record = JStr "reconsider" ->
     reason e = InReconsiderState (name_read record)) /\
    (state_read record <> JStr "execute" -> state_read record <> JStr "explore" ->
     state_read record <> JStr "validate" -> state_read record <> JStr "reconsider" ->
     reason e = UnknownStrategyState (state_read record)).
Proof.
  intros Hcs Hne. unfold check_roadmap_eligibility.
  rewrite (truthy_object _ _ _ Hcs). cbn [negb py_get]. rewrite Hcs.
  change (default JNull (Some (JObj record))) with (JObj record).
  assert (Ht : truthy (JObj record) = true) by (by destruct record).
  rewrite Ht. cbn [negb py_get].
  fold (state_read record) (name_read record) (confidence_read record).
  destruct (is_str (state_read record) "execute") eqn:H1.
  { apply is_str_true in H1. rewrite H1. eexists. split; [reflexivity |].
    cbn [current_state eligible reason]. repeat split; try done; intros; congruence. }
  destruct (is_str (state_read record) "explore") eqn:H2.
  { apply is_str_true in H2. rewrite H2. eexists. split; [reflexivity |].
    cbn [current_state eligible reason]. repeat split; try done; intros; congruence. }
  destruct (is_str (state_read record) "validate") eqn:H3.
  { apply is_str_true in H3. rewrite H3. eexists. split; [reflexivity |].
    cbn [current_state eligible reason]. repeat split; try done; intros; congruence. }
  destruct (is_str (state_read record) "reconsider") eqn:H4.
  { apply is_str_true in H4. rewrite H4. eexists. split; [reflexivity |].
    cbn [current_state eligible reason]. repeat split; try done; intros; congruence. }
  eexists. split; [reflexivity |]. cbn [current_state eligible reason].
  repeat split; try done;
    intros Heq; apply (proj2 (is_str_true _ _)) in Heq; congruence.
Qed.

Lemma check_roadmap_eligibility_no_session (doc : json) :
  truthy doc = false ->
  check_roadmap_eligibility doc
  = Done {| eligible := false; reason := NoSessionProvided;
            current_state := None; recommendation := None |}.
Proof. intros Ht. unfold check_roadmap_eligibility. by rewrite Ht. Qed.

Lemma check_roadmap_eligibility_no_strategy (fields : list (string * json)) :
  fields <> [] ->
  (assoc_get "current_strategy" fields = None \/
   exists cs, assoc_get "current_strategy" fields = Some cs /\ truthy cs = false) ->
  check_roadmap_eligibility (JObj fields)
  = Done {| eligible := false; reason := NoActiveStrategyFound;
            current_state := None; recommendation := None |}.
Proof.
  intros Hne Hcs. unfold check_roadmap_eligibility.
  assert (Ht : truthy (JObj fields) = true) by (by destruct fields).
  rewrite Ht. cbn [negb py_get].
  destruct Hcs as [-> | (cs & -> & Hf)]; [reflexivity |].
  cbn [default from_option id]. by rewrite Hf.
Qed.

Lemma check_roadmap_eligibility_raises :
  (forall doc, truthy doc = true -> (forall fields, doc <> JObj fields) ->
               check_roadmap_eligibility doc = Fails AttributeError) /\
  (forall fields cs,
      assoc_get "current_strategy" fields = Some cs ->
      truthy cs = true -> (forall record, cs <> JObj record) ->
      check_roadmap_eligibility (JObj fields) = Fails AttributeError).
Proof.
  split.
  - intros doc Ht Hno. unfold check_roadmap_eligibility. rewrite Ht. cbn [negb].
    destruct doc as [| | | | | fields]; try reflexivity. by destruct (Hno fields).
  - intros fields cs Hcs Ht Hno. unfold check_roadmap_eligibility.
    rewrite (truthy_object _ _ _ Hcs). cbn [negb py_get]. rewrite Hcs.
    cbn [default from_option id]. rewrite Ht. cbn [negb].
    by rewrite (truthy_false_object cs Ht Hno).
Qed.

Lemma check_roadmap_eligibility_returns (doc : json) :
  session_document doc -> exists e, check_roadmap_eligibility doc = Done e.
Proof.
  intros (fields & -> & Hcs).
  destruct fields as [| kv rest] eqn:Hf.
  { eexists. by apply check_roadmap_eligibility_no_session. }
  rewrite <- Hf in *.
  assert (Hne : fields <> []) by (by rewrite Hf).
  destruct Hcs as [Hcs | [Hcs | [record Hcs]]].
  - eexists. apply check_roadmap_eligibility_no_strategy; auto.
  - eexists. apply check_roadmap_eligibility_no_strategy; [done |].
    right. by exists JNull.
  - destruct record as [| kv' rest'] eqn:Hr.
    + eexists. apply check_roadmap_eligibility_no_strategy; [done |].
      right. by exists (JObj []).
    + rewrite <- Hr in *.
      destruct (check_roadmap_eligibility_by_state fields record Hcs) as (e & He & _);
        [by rewrite Hr |]. eauto.
Qed.

(** The call leaves the caller's dict as it found it and evaluates to what
    the gate answers. *)
Lemma check_roadmap_eligibility_reads_only (doc : json) :
  OnSession.check_roadmap_eligibility doc = (check_roadmap_eligibility doc, doc).
Proof.
  unfold OnSession.check_roadmap_eligibility, check_roadmap_eligibility,
    OnSession.bind, OnSession.is_falsy, OnSession.get, OnSession.eval, OnSession.pure.
  destruct (negb (truthy doc)); [reflexivity |].
  destruct (py_get doc "current_strategy") as [found | err]; [| reflexivity].
  destruct (negb (truthy (default JNull found))); [reflexivity |].
  destruct (py_get (default JNull found) "strategy_state") as [st | err];
    [| reflexivity].
  destruct (py_get (default JNull found) "strategy") as [name | err];
    [| reflexivity].
  destruct (py_get (default JNull found) "current_confidence") as [conf | err];
    [| reflexivity].
  repeat match goal with
         | |- context [if ?b then _ else _] => destruct b
         end; reflexivity.
Qed.

(** C7.  The gate answers eligible exactly for a session document whose
    current strategy is a record in state EXECUTE.  On a dict that holds a
    strategy record the answer follows the state read from the record
    ("explore" when the key is absent): eligible in EXECUTE, ineligible in
    EXPLORE, VALIDATE and RECONSIDER, each with its own reason, and
    ineligible with the reason of an unknown state otherwise.  A dict
    without a current strategy (absent, null or empty) gets the reason of
    the absent strategy, and a null or empty document the reason of the
    absent session.  Every session document gets an answer; only a
    document or a current strategy that is not a dict makes the call raise
    AttributeError.  The call leaves the caller's session as it found it.
    A roadmap is generated only after the gate answered eligible. *)
Theorem check_roadmap_eligibility_only_in_execute :
  (forall doc : json,
      (exists e, check_roadmap_eligibility doc = Done e /\ eligible e = true)
      <-> document_in_execute doc) /\
  (forall fields record : list (string * json),
      assoc_get "current_strategy" fields = Some (JObj record) ->
      record <> [] ->
      exists e,
        check_roadmap_eligibility (JObj fields) = Done e /\
        current_state e = Some (state_read record) /\
        (eligible e = true <-> state_read record = JStr "execute") /\
        (state_read record = JStr "execute" ->
         reason e = InExecuteState (name_read record) (confidence_read record)) /\
        (state_read record = JStr "explore" ->
         reason e = InExploreState (name_read record)) /\
        (state_read record = JStr "validate" ->
         reason e = InValidateState (name_read record)) /\
        (state_read record = JStr "reconsider" ->
         reason e = InReconsiderState (name_read record)) /\
        (state_read record <> JStr "execute" ->
         state_read record <> JStr "explore" ->
         state_read record <> JStr "validate" ->
         state_read record <> JStr "reconsider" ->
         reason e = UnknownStrategyState (state_read record))) /\
  (forall (fields : list (string * json)) (r : StrategyRecord),
      assoc_get "current_strategy" fields = Some (record_to_dict r) ->
      exists e,
        check_roadmap_eligibility (JObj fields) = Done e /\
        (eligible e = true <-> strategy_state r = EXECUTE) /\
        reason e = gate_reason r /\
        current_state e = Some (JStr (state_value (strategy_state r)))) /\
  (forall fields : list (string * json),
      fields <> [] ->
      (assoc_get "current_strategy" fields = None \/
       exists cs, assoc_get "current_strategy" fields = Some cs /\
                  truthy cs = false) ->
      check_roadmap_eligibility (JObj fields)
      = Done {| eligible := false; reason := NoActiveStrategyFound;
                current_state := None; recommendation := None |}) /\
  (forall doc : json,
      truthy doc = false ->
      check_roadmap_eligibility doc
      = Done {| eligible := false; reason := NoSessionProvided;
                current_state := None; recommendation := None |}) /\
  (forall doc : json,
      session_document doc -> exists e, check_roadmap_eligibility doc = Done e) /\
  ((forall doc : json,
       truthy doc = true -> (forall fields, doc <> JObj fields) ->
       check_roadmap_eligibility doc = Fails AttributeError) /\
   (forall (fields : list (string * json)) (cs : json),
       assoc_get "current_strategy" fields = Some cs ->
       truthy cs = true -> (forall record, cs <> JObj record) ->
       check_roadmap_eligibility (JObj fields) = Fails AttributeError)) /\
  (forall r1 r2 : StrategyRecord,
      strategy_state r1 <> strategy_state r2 -> gate_reason r1 <> gate_reason r2) /\
  (forall r : StrategyRecord,
      gate_reason r <> NoActiveStrategyFound /\ gate_reason r <> NoSessionProvided) /\
  (forall doc : json,
      OnSession.check_roadmap_eligibility doc = (check_roadmap_eligibility doc, doc)) /\
  (forall (doc : json) (snapshot profile : option json) (template : string),
      generate_roadmap doc snapshot profile = Done (Generated template) ->
      exists e, check_roadmap_eligibility doc = Done e /\ eligible e = true).
Proof.
  split; [apply check_roadmap_eligibility_eligible |].
  split; [apply check_roadmap_eligibility_by_state |].
  split.
  { intros fields r Hcs.
    destruct (check_roadmap_eligibility_record fields r Hcs) as (e & Hc & He & Hr & Hs).
    exists e. split; [done |]. split; [| done].
    rewrite He. apply bool_decide_eq_true. }
  split; [apply check_roadmap_eligibility_no_strategy |].
  split; [apply check_roadmap_eligibility_no_session |].
  split; [apply check_roadmap_eligibility_returns |].
  split; [apply check_roadmap_eligibility_raises |].
  split.
  { intros r1 r2 Hne. unfold gate_reason.
    destruct (strategy_state r1), (strategy_state r2); congruence. }
  split.
  { intros r. unfold gate_reason. destruct (strategy_state r); split; discriminate. }
  split; [apply check_roadmap_eligibility_reads_only |].
  apply generate_roadmap_gated.
Qed.

Lemma check_roadmap_eligibility_only_in_execute_witness :
  (exists e,
      check_roadmap_eligibility
        (JObj [("current_strategy", record_to_dict execute_record);
               ("strategy_history", JArr []);
               ("loop_iteration", JNum 0)]) = Done e /\
      (eligible e = true <-> strategy_state execute_record = EXECUTE) /\
      reason e = gate_reason execute_record /\
      current_state e = Some (JStr (state_value (strategy_state execute_record)))) /\
  (exists e,
      check_roadmap_eligibility
        (JObj [("current_strategy", JObj [("strategy", JStr "RoleShift")])]) = Done e /\
      eligible e = false /\
      reason e = InExploreState (JStr "RoleShift")).
Proof.
  destruct check_roadmap_eligibility_only_in_execute as (_ & Hstate & Hrecord & _).
  split.
  - apply Hrecord. reflexivity.
  - destruct (Hstate [("current_strategy", JObj [("strategy", JStr "RoleShift")])]
                [("strategy", JStr "RoleShift")] eq_refl ltac:(discriminate))
      as (e & He & _ & Hel & _ & Hexplore & _).
    exists e. split; [exact He |]. split; [| exact (Hexplore eq_refl)].
    destruct (eligible e); [| reflexivity].
    pose proof (proj1 Hel eq_refl) as Habs. discriminate Habs.
Defined.

(** ** Witness of the fallback theorem *)

Lemma re_evaluate_strategy_fallback_witness :
  strategy_history (re_evaluate_strategy (with_current failed_record))
  = [failed_record] /\
  stage3_strategy (re_evaluate_strategy (with_current failed_record))
  = {| strategy := "ResumeOptimization";
       action := "Restructure the resume to highlight evidence of applied skills.";
       confidence := 0.55 |}.
Proof.
  pose proof (re_evaluate_strategy_fallback (with_current failed_record)
                failed_record eq_refl eq_refl) as H.
  cbv zeta in H. destruct H as (_ & Hh & _). split; [exact Hh |].
  vm_compute. reflexivity.
Defined.

(** * Properties of the rest of the engine *)

Lemma BASE_CONFIDENCE_values (strategy : string) :
  let base := default 0.50 (BASE_CONFIDENCE !! strategy) in
  0.45 <= base <= 0.85 /\ two_decimals base.
Proof.
  simpl. destruct (BASE_CONFIDENCE !! strategy) as [v |] eqn:Hv; simpl.
  - unfold BASE_CONFIDENCE in Hv.
    repeat (apply lookup_insert_Some in Hv as [[_ <-] | [_ Hv]]);
      [| | | apply lookup_singleton_Some in Hv as [_ <-]].
    + split; [lra | by exists 70%Z].
    + split; [lra | by exists 55%Z].
    + split; [lra | by exists 45%Z].
    + split; [lra | by exists 85%Z].
  - split; [lra | by exists 50%Z].
Qed.

Lemma clamp_round_range (x : Q) :
  0.20 <= py_round2 (py_max 0.20 (py_min 0.95 x)) <= 0.95.
Proof.
  pose proof (is_clamp_bounds 0.20 0.95 x _ ltac:(lra)
                (py_clamp_is_clamp 0.20 0.95 x ltac:(lra))) as Hy.
  pose proof (py_round2_bounds 20 95 (py_max 0.20 (py_min 0.95 x))) as Hb.
  set (y := py_max 0.20 (py_min 0.95 x)) in *.
  set (r := py_round2 y) in *.
  hundredths. change (inject_Z 20) with 20 in Hb. change (inject_Z 95) with 95 in Hb.
  assert (20 * (1 # 100) <= r <= 95 * (1 # 100)) as Hr by (apply Hb; lra).
  lra.
Qed.

Lemma hold_confidence_range (strategy : string) :
  let c := py_min 0.90 (default 0.50 (BASE_CONFIDENCE !! strategy) + 0.05) in
  0.50 <= c <= 0.90 /\ two_decimals c.
Proof.
  destruct (BASE_CONFIDENCE_values strategy) as [Hrange Htwo].
  cbv zeta. unfold py_min.
  destruct (Qltb _ _) eqn:Hlt.
  - apply Qltb_lt in Hlt. split; [lra |].
    apply two_decimals_plus; [done | by exists 5%Z].
  - split; [lra | by exists 90%Z].
Qed.

Lemma calculate_confidence_invariant
    (strategy : string) (b : gmap string string) (d : option string) :
  confidence_invariant (calculate_confidence strategy b d).
Proof.
  destruct (hold_confidence_range strategy) as [Hhold Htwo]. cbv zeta in Hhold, Htwo.
  unfold calculate_confidence, confidence_invariant.
  destruct d as [d |]; [destruct (no_issue (Some d)) |]; try (split; [lra | done]).
  split; [| apply py_round2_two_decimals].
  match goal with
  | |- _ <= py_round2 (py_max 0.20 (py_min 0.95 ?x)) <= _ =>
      pose proof (clamp_round_range x)
  end.
  lra.
Qed.



Lemma nonempty_Some (a : option string) (s : string) :
  nonempty a = Some s -> s <> "".
Proof.
  destruct a as [t |]; simpl; [| done].
  destruct (String.eqb_spec t "") as [-> | Hne]; [done |].
  by intros [= <-].
Qed.

Lemma get_action_nonempty
    (strategy : string) (d : option string) (b : gmap string string) :
  get_action strategy d b <> "".
Proof.
  unfold get_action. destruct d as [d |]; [| by vm_compute].
  destruct (nonempty (ACTION_TEMPLATES strategy (Some d) !! default "weak" (b !! d)))
    as [a |] eqn:Ha; [by apply nonempty_Some in Ha |].
  destruct (nonempty (ACTION_TEMPLATES strategy (Some d) !! "weak"))
    as [a |] eqn:Hw; [by apply nonempty_Some in Hw |].
  destruct (StrategySelector.FALLBACK_ACTIONS !! strategy) as [v |] eqn:Hv; [| done].
  unfold StrategySelector.FALLBACK_ACTIONS in Hv. simpl.
  repeat (apply lookup_insert_Some in Hv as [[_ <-] | [_ Hv]]);
    [| | | apply lookup_singleton_Some in Hv as [_ <-]]; done.
Qed.

(** X2.  The selector commits to one of the four names of [STRATEGIES] and to a
    non-empty action, whatever report and signals it is given. *)
Theorem select_strategy_and_action_well_formed :
  forall (r : BottleneckReport) (sig : option (gmap string bool)),
    let decision := select_strategy_and_action r sig in
    strategy decision ∈ STRATEGIES /\
    action decision <> "" /\
    (dominant_issue r = None <-> strategy decision = "HoldPosition").
Proof.
  intros r sig. simpl. split; [| split].
  - pose proof (select_strategy_names (dominant_issue r) (bottlenecks r) sig) as H.
    unfold STRATEGY_PRIORITY in H. unfold STRATEGIES.
    repeat (apply elem_of_cons in H as [-> | H]); [| | | | by apply elem_of_nil in H];
      set_solver.
  - apply get_action_nonempty.
  - unfold select_strategy. destruct (dominant_issue r) as [d |]; [| done].
    split; [done |].
    repeat match goal with
           | |- context [if ?c then _ else _] => destruct c
           end; done.
Qed.

Lemma analyze_bottlenecks_no_issue (e : Evidence) (c : string) :
  dominant_issue (analyze_bottlenecks e) = None -> c ∈ BOTTLENECK_PRIORITY ->
  bottlenecks (analyze_bottlenecks e) !! c = Some "strong".
Proof.
  rewrite analyze_bottlenecks_dominant. intros Hd Hc.
  destruct (head (rated_in_order _ "missing")) as [x |] eqn:Hm; [discriminate |].
  unfold rated_in_order in Hm, Hd.
  pose proof (proj1 (head_filter_none _ _) Hm c Hc) as Hnm.
  pose proof (proj1 (head_filter_none _ _) Hd c Hc) as Hnw.
  destruct (analyze_bottlenecks_rated e c Hc) as (v & Hv & [-> | [-> | ->]]);
    [exact Hv | by destruct Hnw | by destruct Hnm].
Qed.

(** X3.  The pipeline answers HoldPosition only for a resume on which every
    category is strong: projects, internship, metrics and deployment are
    all signalled, at least two skills are evidenced in projects and the
    evidence map is not empty; the confidence is then 0.90. *)
Theorem hold_position_requires_every_signal :
  forall (e : Evidence) (sig' : option (gmap string bool)),
    let sig := default ∅ (section_signals e) in
    let decision := select_strategy_and_action (analyze_bottlenecks e) sig' in
    strategy decision = "HoldPosition" ->
    signal sig "has_projects" = true /\ signal sig "has_internship" = true /\
    signal sig "has_metrics" = true /\ signal sig "has_deployment" = true /\
    (2 <= count_evidence "project" (skill_evidence_map e))%nat /\
    skill_evidence_map e <> ∅ /\
    confidence decision == 0.90.
Proof.
  intros e sig' sig decision Hs.
  assert (Hd : dominant_issue (analyze_bottlenecks e) = None).
  { revert Hs. unfold decision, select_strategy_and_action, select_strategy. simpl.
    destruct (dominant_issue (analyze_bottlenecks e)) as [d |]; [| done].
    repeat match goal with
           | |- context [if ?c then _ else _] => destruct c
           end; done. }
  assert (Hall : forall c, c ∈ BOTTLENECK_PRIORITY ->
                           bottlenecks (analyze_bottlenecks e) !! c = Some "strong")
    by (intros c; by apply analyze_bottlenecks_no_issue).
  rewrite analyze_bottlenecks_ratings in Hall. fold sig in Hall.
  pose proof (Hall "evidence_depth" ltac:(set_solver)) as Hdepth.
  pose proof (Hall "experience_strength" ltac:(set_solver)) as Hexp.
  pose proof (Hall "outcome_visibility" ltac:(set_solver)) as Hout.
  pose proof (Hall "positioning" ltac:(set_solver)) as Hpos.
  rewrite evaluate_bottlenecks_lookup in Hdepth, Hexp, Hout, Hpos.
  simpl in Hdepth, Hexp, Hout, Hpos.
  injection Hdepth as Hdepth. injection Hexp as Hexp.
  injection Hout as Hout. injection Hpos as Hpos.
  unfold evaluate_evidence_depth in Hdepth.
  unfold evaluate_experience_strength in Hexp.
  unfold evaluate_outcome_visibility in Hout.
  unfold evaluate_positioning in Hpos.
  destruct (signal sig "has_projects"), (signal sig "has_internship"),
    (signal sig "has_metrics"); simpl in Hdepth; try discriminate.
  destruct (signal sig "has_deployment"); simpl in Hexp.
  2:{ destruct (_ <? _)%nat; simpl in Hexp; discriminate. }
  destruct (2 <=? count_evidence "project" (skill_evidence_map e))%nat eqn:Hp;
    [| simpl in Hout; discriminate].
  apply Nat.leb_le in Hp.
  split; [done |]. split; [done |]. split; [done |]. split; [done |].
  split; [exact Hp |]. split.
  - intros Hempty. rewrite Hempty in Hpos. done.
  - unfold decision, select_strategy_and_action. simpl. rewrite Hd. done.
Qed.

Lemma hold_position_requires_every_signal_witness :
  signal (default ∅ (section_signals strong_evidence)) "has_deployment" = true.
Proof.
  refine (proj1 (proj2 (proj2 (proj2
    (hold_position_requires_every_signal strong_evidence None _)))))
  .
  vm_compute. reflexivity.
Defined.

Lemma evaluate_experience_strength_no_internship
    (m : gmap string (list string)) (sig : gmap string bool) :
  evaluate_experience_strength m sig = "missing"
  <-> signal sig "has_internship" = false /\ count_evidence "internship" m = 0%nat.
Proof.
  unfold evaluate_experience_strength.
  destruct (signal sig "has_internship"); simpl.
  - destruct (signal sig "has_deployment"); simpl; split; try done; intros [[=] _].
  - destruct (count_evidence "internship" m) as [| n]; simpl; [done |].
    destruct (signal sig "has_deployment"); simpl; (split; [done | intros [_ [=]]]).
Qed.

Lemma clamp_round_upper (hi : Z) (x : Q) :
  (20 <= hi <= 95)%Z -> x <= inject_Z hi / 100 ->
  0.20 <= py_round2 (py_max 0.20 (py_min 0.95 x)) <= inject_Z hi / 100.
Proof.
  intros Hhi Hx.
  pose proof (py_clamp_is_clamp 0.20 0.95 x ltac:(lra)) as Hcl.
  pose proof (py_round2_bounds 20 hi (py_max 0.20 (py_min 0.95 x))) as Hb.
  set (y := py_max 0.20 (py_min 0.95 x)) in *.
  set (r := py_round2 y) in *.
  assert (H20 : inject_Z 20 <= inject_Z hi) by (rewrite <- Zle_Qle; lia).
  assert (H95 : inject_Z hi <= inject_Z 95) by (rewrite <- Zle_Qle; lia).
  set (H := inject_Z hi) in *.
  change (inject_Z 20) with (20 # 1) in *. change (inject_Z 95) with (95 # 1) in *.
  hundredths.
  assert (Hy : 20 * (1 # 100) <= y <= H * (1 # 100)).
  { destruct Hcl as [[? ?] | [[? ?] | [? ?]]]; split; lra. }
  specialize (Hb Hy). lra.
Qed.

(** X4.  Without an internship signal and without a skill evidenced in an
    internship, the pipeline diagnoses experience_strength as the dominant
    issue and answers RoleShift, whatever else the resume shows, with a
    confidence of at most 0.30. *)
Theorem no_internship_routes_to_role_shift :
  forall (e : Evidence) (sig' : option (gmap string bool)),
    signal (default ∅ (section_signals e)) "has_internship" = false ->
    count_evidence "internship" (skill_evidence_map e) = 0%nat ->
    let r := analyze_bottlenecks e in
    let decision := select_strategy_and_action r sig' in
    dominant_issue r = Some "experience_strength" /\
    strategy decision = "RoleShift" /\
    action decision
    = "Pivot target role to one that values project-based evidence over formal work experience." /\
    0.20 <= confidence decision <= 0.30.
Proof.
  intros e sig' Hint Hcount r decision.
  assert (Hsev : bottlenecks r !! "experience_strength" = Some "missing").
  { unfold r. rewrite analyze_bottlenecks_ratings, evaluate_bottlenecks_lookup. simpl.
    f_equal. by apply evaluate_experience_strength_no_internship. }
  assert (Hdom : dominant_issue r = Some "experience_strength").
  { unfold r. rewrite analyze_bottlenecks_dominant. fold r.
    unfold rated_in_order, BOTTLENECK_PRIORITY.
    rewrite filter_cons_True by exact Hsev. reflexivity. }
  assert (Hstrategy : strategy decision = "RoleShift").
  { unfold decision, select_strategy_and_action, select_strategy. simpl.
    rewrite Hdom, Hsev. simpl.
    by destruct (has_signals sig' && _ && _). }
  split; [exact Hdom |]. split; [exact Hstrategy |]. split.
  - unfold decision, select_strategy_and_action in *. simpl in *.
    rewrite Hstrategy, Hdom. unfold get_action. rewrite Hsev. reflexivity.
  - unfold decision, select_strategy_and_action in *. simpl in *.
    rewrite Hstrategy, Hdom. unfold calculate_confidence.
    change (no_issue (Some "experience_strength")) with false. cbv iota.
    rewrite Hsev.
    rewrite (other_issues_count _ _ (analyze_bottlenecks_well_formed e)).
    fold r.
    assert (Hn : (1 <= other_non_strong (bottlenecks r) "experience_strength")%nat).
    { assert (Hin : "evidence_depth"
                    ∈ filter (fun c => c <> "experience_strength"
                                       /\ bottlenecks r !! c <> Some "strong") CATEGORIES).
      { apply list_elem_of_filter. split; [| unfold CATEGORIES; set_solver].
        split; [done |].
        unfold r. rewrite analyze_bottlenecks_ratings, evaluate_bottlenecks_lookup. simpl.
        unfold evaluate_evidence_depth. rewrite Hint.
        by destruct (signal _ "has_projects"). }
      unfold other_non_strong. destruct (filter _ CATEGORIES); [| simpl; lia].
      by apply elem_of_nil in Hin. }
    apply Nat2Z.inj_le in Hn. rewrite Zle_Qle in Hn.
    set (n := inject_Z (Z.of_nat (other_non_strong (bottlenecks r) "experience_strength")))
      in *.
    change (default 0.50 (BASE_CONFIDENCE !! "RoleShift")) with 0.45.
    change (default 0.0 (CONFIDENCE_ADJUSTMENTS !! default "weak" (Some "missing")))
      with (-0.10).
    apply (clamp_round_upper 30); [lia |].
    change (inject_Z (Z.of_nat 1)) with 1 in Hn.
    change (inject_Z 30 / 100) with 0.30. lra.
Qed.

Lemma no_internship_routes_to_role_shift_witness :
  strategy (select_strategy_and_action (analyze_bottlenecks blank_evidence) None)
  = "RoleShift".
Proof.
  refine (proj1 (proj2 (no_internship_routes_to_role_shift blank_evidence None _ _)));
    vm_compute; reflexivity.
Defined.

(** ** Role inference *)

Lemma first_max_elem (best : string * nat) (l : list (string * nat)) :
  first_max best l ∈ best :: l.
Proof.
  revert best. induction l as [| y l IH]; intros best; simpl; [by left |].
  specialize (IH (if (best.2 <? y.2)%nat then y else best)).
  destruct (best.2 <? y.2)%nat; apply elem_of_cons in IH as [-> | IH].
  - right. by left.
  - right. by right.
  - by left.
  - right. by right.
Qed.

Lemma first_max_first (l : list (string * nat)) :
  forall (best : string * nat) (i : nat) (x : string * nat),
    (best :: l) !! i = Some x ->
    (forall j y, (best :: l) !! j = Some y ->
                 (y.2 <= x.2)%nat /\ ((j < i)%nat -> (y.2 < x.2)%nat)) ->
    first_max best l = x.
Proof.
  induction l as [| y l IH]; intros best i x Hi Hmax.
  - destruct i as [| i]; simpl in *; [by inversion Hi | done].
  - simpl. destruct i as [| i].
    + simpl in Hi. inversion Hi; subst x.
      destruct (Hmax 1%nat y eq_refl) as [Hle _].
      assert (Hlt : (best.2 <? y.2)%nat = false) by (apply Nat.ltb_ge; lia).
      rewrite Hlt. apply (IH best 0%nat); [done |].
      intros [| j] z Hz.
      * inversion Hz; subst. split; lia.
      * destruct (Hmax (S (S j)) z Hz). split; lia.
    + destruct (Hmax 0%nat best eq_refl) as [_ Hb]. specialize (Hb ltac:(lia)).
      destruct i as [| i].
      * simpl in Hi. inversion Hi; subst x.
        assert (Hlt : (best.2 <? y.2)%nat = true) by (apply Nat.ltb_lt; lia).
        rewrite Hlt. apply (IH y 0%nat); [done |].
        intros [| j] z Hz.
        -- inversion Hz; subst. split; lia.
        -- destruct (Hmax (S (S j)) z Hz). split; lia.
      * destruct (Hmax 1%nat y eq_refl) as [_ Hy]. specialize (Hy ltac:(lia)).
        apply (IH _ (S i)); [exact Hi |].
        intros [| j] z Hz.
        -- simpl in Hz. inversion Hz; subst z.
           destruct (best.2 <? y.2)%nat; split; lia.
        -- destruct (Hmax (S (S j)) z Hz) as [? Hlt]. split; [done |].
           intros ?. apply Hlt. lia.
Qed.

Lemma role_scores_keys (S : gset string) :
  (role_scores S).*1 = ROLE_SKILL_MAP.*1.
Proof. reflexivity. Qed.

(** X5.  [infer_role] answers the display name of the role whose weighted score
    (three per primary skill, one per secondary skill) is maximal, the
    earliest role of [ROLE_SKILL_MAP] on a tie, and "Software Engineer"
    when every score is zero; the answer is always one of the display
    names of [ROLE_DISPLAY_NAMES]. *)
Theorem infer_role_first_best :
  forall skills : list string,
    let scores := role_scores (skills_lower_of skills) in
    (exists key, assoc_get key ROLE_DISPLAY_NAMES = Some (infer_role skills)) /\
    ((forall role n, (role, n) ∈ scores -> n = 0%nat) ->
     infer_role skills = "Software Engineer") /\
    (forall i role n,
        scores !! i = Some (role, n) -> (0 < n)%nat ->
        (forall j role' n', scores !! j = Some (role', n') ->
                            (n' <= n)%nat /\ ((j < i)%nat -> (n' < n)%nat)) ->
        assoc_get role ROLE_DISPLAY_NAMES = Some (infer_role skills)).
Proof.
  intros skills scores.
  assert (Hkeys : forall role n, (role, n) ∈ scores ->
                    exists display, assoc_get role ROLE_DISPLAY_NAMES = Some display).
  { intros role n Hin.
    assert (Hr : role ∈ ROLE_SKILL_MAP.*1).
    { rewrite <- (role_scores_keys (skills_lower_of skills)).
      apply list_elem_of_fmap. by exists (role, n). }
    unfold ROLE_SKILL_MAP in Hr. simpl in Hr.
    repeat (apply elem_of_cons in Hr as [-> | Hr]);
      [| | | | | | | | by apply elem_of_nil in Hr]; by eexists. }
  assert (Hne : exists x r, scores = x :: r) by (by eexists _, _).
  destruct Hne as (x & r & Hxr).
  assert (Hunfold : infer_role skills
                    = if (snd (first_max x r) =? 0)%nat then "Software Engineer"
                      else default (fst (first_max x r))
                             (assoc_get (fst (first_max x r)) ROLE_DISPLAY_NAMES)).
  { unfold infer_role. fold scores. rewrite Hxr. reflexivity. }
  split; [| split].
  - rewrite Hunfold. destruct (_ =? 0)%nat; [by exists "software_engineer" |].
    pose proof (first_max_elem x r) as Hin. rewrite <- Hxr in Hin.
    destruct (first_max x r) as [role n]. cbn [fst snd].
    destruct (Hkeys role n Hin) as [display Hd]. exists role. by rewrite Hd.
  - intros Hzero. rewrite Hunfold.
    pose proof (first_max_elem x r) as Hin. rewrite <- Hxr in Hin.
    destruct (first_max x r) as [role n]. cbn [fst snd].
    by rewrite (Hzero role n Hin).
  - intros i role n Hi Hpos Hmax. rewrite Hunfold.
    rewrite Hxr in Hi.
    assert (Hbest : first_max x r = (role, n)).
    { apply (first_max_first r x i); [exact Hi |].
      intros j [role' n'] Hj. rewrite <- Hxr in Hj. simpl. by apply (Hmax j role'). }
    rewrite Hbest. cbn [fst snd].
    destruct (Nat.eqb_spec n 0) as [-> | _]; [lia |].
    assert (Hin : (role, n) ∈ scores).
    { rewrite Hxr. by apply (list_elem_of_lookup_2 _ i). }
    destruct (Hkeys role n Hin) as [display Hd]. by rewrite Hd.
Qed.

Lemma infer_role_first_best_witness :
  assoc_get "data_analyst" ROLE_DISPLAY_NAMES = Some (infer_role ["Python"]).
Proof.
  refine (proj2 (proj2 (infer_role_first_best ["Python"])) 0%nat "data_analyst" 3%nat _ _ _).
  - vm_compute. reflexivity.
  - lia.
  - intros j role' n' Hj.
    do 8 (destruct j as [| j]; [vm_compute in Hj; inversion Hj; subst; split; lia |]).
    vm_compute in Hj. discriminate.
Defined.

(** ** The diagnosis reads the skills as a set of lowercased names *)

Lemma skills_lower_of_ext (skills skills' : list string) :
  (forall s, s ∈ lower <$> skills <-> s ∈ lower <$> skills') ->
  skills_lower_of skills = skills_lower_of skills'.
Proof.
  intros H. unfold skills_lower_of. apply set_eq. intros s.
  rewrite !elem_of_list_to_set. apply H.
Qed.

Lemma analyze_bottlenecks_skills_lower
    (skills skills' : list string) (m : gmap string (list string))
    (sig : option (gmap string bool)) :
  skills_lower_of skills = skills_lower_of skills' ->
  analyze_bottlenecks
    {| normalized_skills := skills; skill_evidence_map := m; section_signals := sig |}
  = analyze_bottlenecks
      {| normalized_skills := skills'; skill_evidence_map := m; section_signals := sig |}.
Proof.
  intros H.
  assert (Hrole : infer_role skills = infer_role skills')
    by (unfold infer_role; by rewrite H).
  assert (Halign : forall role, evaluate_skill_alignment skills role
                                = evaluate_skill_alignment skills' role)
    by (intros role; unfold evaluate_skill_alignment; by rewrite H).
  unfold analyze_bottlenecks, evaluate_bottlenecks.
  cbn [normalized_skills skill_evidence_map section_signals].
  by rewrite Hrole, Halign.
Qed.

(** X6.  The report of stage 2 depends on the skill list only through the set of
    lowercased names: reordering the skills or repeating one leaves the
    whole report unchanged, and so does any change of the list that keeps
    the lowercased names, such as another letter case. *)
Theorem analyze_bottlenecks_ignores_order_and_case :
  forall (skills : list string) (m : gmap string (list string))
         (sig : option (gmap string bool)),
    let report l :=
      analyze_bottlenecks
        {| normalized_skills := l; skill_evidence_map := m; section_signals := sig |} in
    (forall skills', skills' ≡ₚ skills -> report skills' = report skills) /\
    (forall s, s ∈ skills -> report (s :: skills) = report skills) /\
    (forall skills',
        (forall s, s ∈ lower <$> skills' <-> s ∈ lower <$> skills) ->
        report skills' = report skills).
Proof.
  intros skills m sig report.
  assert (Hext : forall skills',
             (forall s, s ∈ lower <$> skills' <-> s ∈ lower <$> skills) ->
             report skills' = report skills).
  { intros skills' H. apply analyze_bottlenecks_skills_lower.
    by apply skills_lower_of_ext. }
  split; [| split].
  - intros skills' Hp. apply Hext. intros s. by rewrite Hp.
  - intros s Hs. apply Hext. intros t. rewrite fmap_cons, elem_of_cons.
    split; [intros [-> | H]; [by apply list_elem_of_fmap_2 | done] | by right].
  - exact Hext.
Qed.

Lemma analyze_bottlenecks_ignores_order_and_case_witness :
  analyze_bottlenecks
    {| normalized_skills := ["sql"; "PYTHON"; "React"];
       skill_evidence_map := skill_evidence_map sample_evidence;
       section_signals := section_signals sample_evidence |}
  = analyze_bottlenecks sample_evidence.
Proof.
  refine (proj2 (proj2 (analyze_bottlenecks_ignores_order_and_case
                          ["Python"; "SQL"; "React"] _ _))
            ["sql"; "PYTHON"; "React"] _).
  intros s. change (lower <$> ["sql"; "PYTHON"; "React"]) with ["sql"; "python"; "react"].
  change (lower <$> ["Python"; "SQL"; "React"]) with ["python"; "sql"; "react"].
  rewrite !elem_of_cons. tauto.
Defined.

Lemma justification_text_nonempty (dominant severity present missing role : string) :
  dominant ∈ BOTTLENECK_PRIORITY -> severity = "missing" \/ severity = "weak" ->
  justification_text dominant severity present missing role <> "" /\
  justification_text dominant severity present missing role
  <> "All bottleneck categories are strong.".
Proof.
  intros Hd Hs. unfold BOTTLENECK_PRIORITY in Hd.
  repeat (apply elem_of_cons in Hd as [-> | Hd]); [| | | | | by apply elem_of_nil in Hd];
    destruct Hs as [-> | ->]; split; vm_compute; discriminate.
Qed.

(** X7.  Every report of stage 2 carries a justification: the empty default
    of the template lookup is never reached, and the text says that all
    categories are strong exactly when there is no dominant issue. *)
Theorem justification_is_never_empty :
  forall e : Evidence,
    let r := analyze_bottlenecks e in
    justification r <> "" /\
    (dominant_issue r = None <->
     justification r = "All bottleneck categories are strong.").
Proof.
  intros e r.
  set (role := infer_role (normalized_skills e)).
  set (sig := default ∅ (section_signals e)).
  set (b := evaluate_bottlenecks (normalized_skills e) (skill_evidence_map e) sig role).
  assert (Hr : (dominant_issue r, justification r) = select_dominant_issue b sig role).
  { unfold r, analyze_bottlenecks. fold role sig b.
    by destruct (select_dominant_issue b sig role). }
  unfold select_dominant_issue in Hr.
  destruct (rated_in_order b "missing") as [| d rest] eqn:Hm.
  - destruct (rated_in_order b "weak") as [| d rest] eqn:Hw.
    + injection Hr as -> ->. done.
    + injection Hr as -> ->.
      assert (Hd : d ∈ BOTTLENECK_PRIORITY).
      { assert (Hin : d ∈ rated_in_order b "weak") by (rewrite Hw; by left).
        unfold rated_in_order in Hin. by apply list_elem_of_filter in Hin as [_ ?]. }
      destruct (justification_text_nonempty d "weak"
                  (join_or ((if signal sig "has_projects" then ["projects"] else [])
                            ++ (if signal sig "has_internship" then ["internship"] else []))
                           "neither")
                  (join_or ((if signal sig "has_projects" then [] else ["projects"])
                            ++ (if signal sig "has_internship" then [] else ["internship"]))
                           "none")
                  role Hd ltac:(by right)) as [Hne Hall].
      split; [exact Hne |]. split; [discriminate | by intros ?].
  - injection Hr as -> ->.
    assert (Hd : d ∈ BOTTLENECK_PRIORITY).
    { assert (Hin : d ∈ rated_in_order b "missing") by (rewrite Hm; by left).
      unfold rated_in_order in Hin. by apply list_elem_of_filter in Hin as [_ ?]. }
    match goal with
    | |- justification_text d "missing" ?p ?m ?r <> _ /\ _ =>
        destruct (justification_text_nonempty d "missing" p m r Hd ltac:(by left))
          as [Hne Hall]
    end.
    split; [exact Hne |]. split; [discriminate | by intros ?].
Qed.

Lemma nested_get_object (fields : list (string * json)) (outer inner : string) :
  (forall v, assoc_get outer fields = Some v -> exists entries, v = JObj entries) ->
  exists value, nested_get (JObj fields) outer inner = Done value.
Proof.
  intros Hobj. unfold nested_get. cbn [py_get].
  destruct (assoc_get outer fields) as [v |] eqn:Hv.
  - destruct (Hobj v eq_refl) as [entries ->]. cbn. by eexists.
  - cbn. by eexists.
Qed.

Lemma fill_template_record
    (template : string) (fields : list (string * json)) (r : StrategyRecord) :
  assoc_get "current_strategy" fields = Some (record_to_dict r) ->
  (forall v, assoc_get "stage2_bottleneck" fields = Some v -> exists entries, v = JObj entries) ->
  fill_template template (JObj fields) = Generated template.
Proof.
  intros Hcur Hstage2. unfold fill_template. cbn [py_item]. rewrite Hcur.
  destruct (nested_get_object fields "stage2_bottleneck" "bottlenecks" Hstage2)
    as [value Hvalue].
  rewrite Hvalue. by destruct (String.eqb template "ResumeOptimization").
Qed.

(** X8.  Every strategy the engine can select has a roadmap: on a session
    document whose current record is in EXECUTE and whose stage entries,
    when present, are dicts, [generate_roadmap] returns the roadmap of the
    record's strategy when it is one of the four strategies, and the
    "no template" answer otherwise. *)
Theorem every_strategy_has_a_roadmap :
  forall (fields : list (string * json)) (r : StrategyRecord),
    assoc_get "current_strategy" fields = Some (record_to_dict r) ->
    strategy_state r = EXECUTE ->
    (forall v, assoc_get "stage1_evidence" fields = Some v ->
               exists entries, v = JObj entries) ->
    (forall v, assoc_get "stage2_bottleneck" fields = Some v ->
               exists entries, v = JObj entries) ->
    (rec_strategy r ∈ STRATEGY_PRIORITY ->
     generate_roadmap (JObj fields) None None = Done (Generated (rec_strategy r))) /\
    (rec_strategy r ∉ STRATEGY_PRIORITY ->
     generate_roadmap (JObj fields) None None
     = Done (NoTemplate (JStr (rec_strategy r)))).
Proof.
  intros fields r Hcur Hstate Hstage1 Hstage2.
  destruct (check_roadmap_eligibility_record fields r Hcur) as (el & Hel & Helig & _).
  rewrite Hstate in Helig.
  assert (Hgen : generate_roadmap (JObj fields) None None
                 = if String.eqb (rec_strategy r) "ResumeOptimization"
                   then Done (Generated "ResumeOptimization")
                   else if String.eqb (rec_strategy r) "SkillGapPatch"
                   then Done (Generated "SkillGapPatch")
                   else if String.eqb (rec_strategy r) "RoleShift"
                   then Done (Generated "RoleShift")
                   else if String.eqb (rec_strategy r) "HoldPosition"
                   then Done (Generated "HoldPosition")
                   else Done (NoTemplate (JStr (rec_strategy r)))).
  { unfold generate_roadmap. rewrite Hel, Helig. cbn [negb py_item].
    rewrite Hcur. unfold or_from_evidence.
    destruct (nested_get_object fields "stage1_evidence" "enhanced_snapshot" Hstage1)
      as [v1 ->].
    destruct (nested_get_object fields "stage1_evidence" "profile_signals" Hstage1)
      as [v2 ->].
    cbn [record_to_dict assoc_get String.eqb Ascii.eqb Bool.eqb is_str].
    rewrite !(fill_template_record _ fields r Hcur Hstage2). reflexivity. }
  rewrite Hgen. split.
  - intros Hin. unfold STRATEGY_PRIORITY in Hin.
    repeat (apply elem_of_cons in Hin as [-> | Hin]); [| | | | by apply elem_of_nil in Hin];
      reflexivity.
  - intros Hnot. unfold STRATEGY_PRIORITY in Hnot.
    repeat match goal with
           | |- context [String.eqb (rec_strategy r) ?k] =>
               destruct (String.eqb_spec (rec_strategy r) k) as [Heq | ?]
           end; try reflexivity; exfalso; apply Hnot; rewrite Heq;
      rewrite !elem_of_cons; auto 10.
Qed.

Lemma every_strategy_has_a_roadmap_witness :
  generate_roadmap
    (JObj [("current_strategy", record_to_dict execute_record);
           ("stage2_bottleneck", JObj [])]) None None
  = Done (Generated "ResumeOptimization").
Proof.
  refine (proj1 (every_strategy_has_a_roadmap
                   [("current_strategy", record_to_dict execute_record);
                    ("stage2_bottleneck", JObj [])] execute_record
                   eq_refl eq_refl _ _) _).
  - intros v [=].
  - intros v [= <-]. by eexists.
  - unfold STRATEGY_PRIORITY. by left.
Defined.

Lemma failure_condition_dec (r : StrategyRecord) :
  should_invalidate (set_failed r false) = true <-> failure_condition r.
Proof.
  rewrite should_invalidate_spec. simpl. unfold failure_condition. simpl.
  split; [intros [? | ?]; done | by right].
Qed.

Lemma set_failed_same (r : StrategyRecord) : set_failed r (failed r) = r.
Proof. by destruct r. Qed.

Lemma set_state_same (r : StrategyRecord) : set_state r (strategy_state r) = r.
Proof. by destruct r. Qed.

Lemma record_outcome_unfold (s s1 : AgentSession) (r : StrategyRecord) (o : string) :
  current_strategy s = Some r -> record_outcome s o = Returns s1 ->
  is_outcome_tag o /\
  current_strategy s1
  = Some (set_failed (recorded r o) (should_invalidate (recorded r o))) /\
  strategy_history s1 = strategy_history s /\
  loop_iteration s1 = loop_iteration s /\
  stage1_evidence s1 = stage1_evidence s /\
  stage2_bottleneck s1 = stage2_bottleneck s /\
  stage3_strategy s1 = stage3_strategy s.
Proof.
  intros Hc. unfold record_outcome. rewrite Hc.
  destruct (valid_outcome o) eqn:Hv; simpl; [| discriminate].
  apply valid_outcome_tag in Hv. fold (recorded r o).
  destruct (should_invalidate (recorded r o)) eqn:Hinv; intros [= <-]; simpl;
    repeat split; try done.
  f_equal. unfold should_invalidate in Hinv.
  destruct (failed (recorded r o)) eqn:Hf; [done |].
  rewrite <- Hf. by rewrite set_failed_same.
Qed.

Lemma apply_transition_unfold (s : AgentSession) (r : StrategyRecord) :
  current_strategy s = Some r ->
  let st := (next_state r false).1 in
  current_strategy (apply_transition s false)
  = Some (if bool_decide (st = RECONSIDER) && bool_decide (st <> strategy_state r)
          then set_failed (set_state r st) true else set_state r st) /\
  strategy_history (apply_transition s false) = strategy_history s /\
  loop_iteration (apply_transition s false) = loop_iteration s /\
  stage1_evidence (apply_transition s false) = stage1_evidence s /\
  stage2_bottleneck (apply_transition s false) = stage2_bottleneck s /\
  stage3_strategy (apply_transition s false) = stage3_strategy s.
Proof.
  intros Hc. unfold apply_transition. rewrite Hc.
  destruct (next_state r false) as [st reason]. simpl.
  destruct (decide (st = strategy_state r)) as [-> | Hne].
  - rewrite (bool_decide_eq_false_2 (strategy_state r <> strategy_state r)) by tauto.
    rewrite andb_false_r, set_state_same. done.
  - rewrite (bool_decide_eq_true_2 (st <> strategy_state r)) by done.
    rewrite andb_true_r.
    destruct (bool_decide (st = RECONSIDER)); simpl; done.
Qed.

Lemma next_state_failing (r : StrategyRecord) (hp : bool) :
  should_invalidate (set_failed r false) = true -> (next_state r hp).1 = RECONSIDER.
Proof. intros H. apply failure_condition_next_state. by apply failure_condition_dec. Qed.

Lemma next_state_not_failing (r : StrategyRecord) :
  should_invalidate (set_failed r false) = false ->
  (next_state r false).1 = RECONSIDER -> strategy_state r = RECONSIDER.
Proof.
  intros H.
  assert (Hno : ~ failure_condition r).
  { intros Hf. apply failure_condition_dec in Hf. congruence. }
  destruct (no_failure_next_state r false Hno) as [Hq Hn].
  unfold next_state. rewrite Hq, Hn.
  destruct (strategy_state r); simpl; try done.
  - by destruct (_ && _).
  - destruct (_ && _); [done |]. simpl. done.
Qed.

Lemma next_state_ignores_failed (r : StrategyRecord) (b hp : bool) :
  next_state (set_failed r b) hp = next_state r hp.
Proof. reflexivity. Qed.

(** One full step, written out: the record after recording and
    evaluation, and what the step does with it. *)
Lemma process_outcome_unfold
    (extract : AgentSession -> bool)
    (s : AgentSession) (r : StrategyRecord) (o : string) (result : ProcessResult) :
  current_strategy s = Some r ->
  process_outcome extract s o = Returns result ->
  exists s2,
    is_outcome_tag o /\
    current_strategy s2 = Some (evaluated r o) /\
    strategy_history s2 = strategy_history s /\
    loop_iteration s2 = loop_iteration s /\
    stage1_evidence s2 = stage1_evidence s /\
    stage2_bottleneck s2 = stage2_bottleneck s /\
    stage3_strategy s2 = stage3_strategy s /\
    res_session result
    = (if bool_decide (strategy_state (evaluated r o) = RECONSIDER)
       then re_evaluate_strategy s2 else s2) /\
    strategy_changed result
    = (if bool_decide (strategy_state (evaluated r o) = RECONSIDER)
       then match current_strategy (re_evaluate_strategy s2) with
            | Some c => negb (String.eqb (rec_strategy c) (rec_strategy r))
            | None => false
            end
       else false) /\
    res_current_strategy result = stage3_strategy (res_session result) /\
    explanation result = generate_short_explanation (res_session result) /\
    res_strategy_state result = strategy_state <$> current_strategy (res_session result).
Proof.
  intros Hc Hp. unfold process_outcome in Hp.
  destruct (record_outcome s o) as [s1 | ? ?] eqn:Hrec; [| discriminate].
  destruct (record_outcome_unfold s s1 r o Hc Hrec)
    as (Htag & Hc1 & Hh1 & Hi1 & He1 & Hb1 & Hd1).
  set (r1 := set_failed (recorded r o) (should_invalidate (recorded r o))) in *.
  unfold evaluate_strategy_state in Hp. rewrite Hc1 in Hp.
  destruct (extract s1); [discriminate |]. simpl in Hp.
  destruct (apply_transition_unfold s1 r1 Hc1) as (Hc2 & Hh2 & Hi2 & He2 & Hb2 & Hd2).
  assert (Hr2 : (if bool_decide ((next_state r1 false).1 = RECONSIDER)
                    && bool_decide ((next_state r1 false).1 <> strategy_state r1)
                 then set_failed (set_state r1 (next_state r1 false).1) true
                 else set_state r1 (next_state r1 false).1) = evaluated r o).
  { unfold evaluated, r1. rewrite next_state_ignores_failed.
    destruct (should_invalidate (set_failed (recorded r o) false)) eqn:Hfail.
    - rewrite (next_state_failing _ _ Hfail).
      assert (Hinv : should_invalidate (recorded r o) = true).
      { apply should_invalidate_spec. right. by apply failure_condition_dec. }
      rewrite Hinv. rewrite bool_decide_eq_true_2 by done. simpl.
      destruct (decide (RECONSIDER = strategy_state (recorded r o))) as [Heq | Hne].
      + rewrite bool_decide_eq_false_2 by tauto.
        destruct (recorded r o); simpl in *; by subst.
      + rewrite bool_decide_eq_true_2 by done. by destruct (recorded r o).
    - assert (Hinv : should_invalidate (recorded r o) = failed (recorded r o)).
      { unfold should_invalidate in *. simpl in Hfail.
        destruct (failed (recorded r o)); [done | exact Hfail]. }
      rewrite Hinv, set_failed_same.
      destruct (decide ((next_state (recorded r o) false).1 = RECONSIDER)) as [Heq | Hne].
      + pose proof (next_state_not_failing _ Hfail Heq) as Hst.
        rewrite Heq, Hst. rewrite (bool_decide_eq_false_2 (_ <> _)) by tauto.
        by rewrite andb_false_r.
      + by rewrite (bool_decide_eq_false_2 _ Hne). }
  rewrite Hr2 in Hc2.
  exists (apply_transition s1 false).
  rewrite Hc2 in Hp.
  assert (Hname : rec_strategy (evaluated r o) = rec_strategy r).
  { unfold evaluated. cbv zeta.
    destruct (should_invalidate (set_failed (recorded r o) false)); reflexivity. }
  rewrite Hname in Hp.
  split; [done |]. split; [done |].
  split; [congruence |]. split; [congruence |]. split; [congruence |].
  split; [congruence |]. split; [congruence |].
  destruct (bool_decide (strategy_state (evaluated r o) = RECONSIDER));
    injection Hp as <-; simpl; done.
Qed.

Lemma re_evaluate_strategy_fields (s : AgentSession) (r : StrategyRecord) :
  current_strategy s = Some r -> failed r = true ->
  let s' := re_evaluate_strategy s in
  strategy_history s' = (strategy_history s ++ [r])%list /\
  loop_iteration s' = (loop_iteration s + 1)%Z /\
  current_strategy s'
  = Some (new_record (strategy (stage3_strategy s')) (confidence (stage3_strategy s'))) /\
  stage1_evidence s' = stage1_evidence s.
Proof.
  intros Hc Hf. pose proof (re_evaluate_strategy_failed s r Hc Hf) as H.
  cbv zeta in *. rewrite H. done.
Qed.

Lemma interview_count_app (l : list string) (o : string) :
  (interview_count l <= interview_count (l ++ [o]))%nat.
Proof.
  unfold interview_count. rewrite filter_app, length_app. lia.
Qed.

Lemma next_state_forward (r : StrategyRecord) :
  ~ failure_condition r ->
  let st := (next_state r false).1 in
  match strategy_state r with
  | EXPLORE =>
      st = EXPLORE \/
      (st = VALIDATE /\ (1 <= interview_count (outcomes r))%nat /\
       0.55 <= current_confidence r)
  | VALIDATE =>
      st = VALIDATE \/
      (st = EXECUTE /\ (2 <= interview_count (outcomes r))%nat /\
       0.65 <= current_confidence r)
  | EXECUTE => st = EXECUTE
  | RECONSIDER => st = RECONSIDER
  end.
Proof.
  intros Hno. destruct (no_failure_next_state r false Hno) as [Hq Hn].
  unfold next_state. rewrite Hq, Hn.
  destruct (strategy_state r); cbn [fst]; try reflexivity.
  - destruct (Nat.leb_spec 1 (interview_count (outcomes r))) as [H1 | H1];
      cbn [andb]; [| by left].
    destruct (Qgeb (current_confidence r) 0.55) eqn:Hg; cbn [fst]; [| by left].
    right. apply Qgeb_ge in Hg. done.
  - destruct (Nat.leb_spec 2 (interview_count (outcomes r))) as [H2 | H2];
      cbn [andb negb]; [| by left].
    destruct (Qgeb (current_confidence r) 0.65) eqn:Hg; cbn [andb fst]; [| by left].
    right. apply Qgeb_ge in Hg. done.
Qed.

Lemma initialize_session_run_invariant
    (e : Evidence) (b : BottleneckReport) (d : StrategyDecision) :
  run_invariant (initialize_session e b d).
Proof.
  split; [reflexivity |]. split; [constructor |].
  eexists. split; [reflexivity |]. simpl. repeat split; done.
Qed.

Lemma process_outcome_run_invariant
    (extract : AgentSession -> bool)
    (s : AgentSession) (o : string) (result : ProcessResult) :
  run_invariant s ->
  process_outcome extract s o = Returns result ->
  run_invariant (res_session result) /\
  all_outcomes (res_session result) = (all_outcomes s ++ [o])%list.
Proof.
  intros (Hit & Hhist & r & Hc & Hf & Hearned & _) Hp.
  destruct (process_outcome_unfold extract s r o result Hc Hp)
    as (s2 & _ & Hc2 & Hh2 & Hi2 & _ & _ & _ & Hres & _).
  assert (Hstate : strategy_state r <> RECONSIDER).
  { intros Hst. unfold earned in Hearned. by rewrite Hst in Hearned. }
  unfold evaluated in *. cbv zeta in *.
  destruct (should_invalidate (set_failed (recorded r o) false)) eqn:Hfail.
  - (* the attempt fails and is archived *)
    cbn [strategy_state set_state set_failed] in Hres.
    rewrite bool_decide_eq_true_2 in Hres by done.
    destruct (re_evaluate_strategy_fields s2 _ Hc2 eq_refl) as (Hh & Hi & Hcur & _).
    rewrite <- Hres in Hh, Hi, Hcur.
    unfold run_invariant, all_outcomes.
    rewrite Hh, Hi, Hcur, Hh2, Hi2, Hit, length_app.
    split; [split; [simpl; lia | split] |].
    + apply Forall_app. split; [done |]. constructor; [| constructor].
      split; [done |]. split; [done |].
      split; [by apply failure_condition_dec in Hfail |].
      simpl. by destruct (outcomes r).
    + eexists. split; [reflexivity |]. simpl. repeat split; done.
    + rewrite Hc, fmap_app, concat_app. simpl.
      rewrite !app_nil_r. by rewrite app_assoc.
  - (* the attempt goes on *)
    assert (Hno : ~ failure_condition (recorded r o)).
    { intros H. apply failure_condition_dec in H. congruence. }
    assert (Hst : (next_state (recorded r o) false).1 <> RECONSIDER).
    { intros H. by apply (next_state_not_failing _ Hfail) in H. }
    cbn [strategy_state set_state set_failed] in Hres.
    rewrite bool_decide_eq_false_2 in Hres by done.
    rewrite Hres. unfold run_invariant, all_outcomes.
    rewrite Hh2, Hi2, Hc2, Hc. simpl.
    split; [| by rewrite app_assoc].
    split; [done |]. split; [done |].
    eexists. split; [reflexivity |]. simpl.
    split; [done |]. split; [| by intros _].
    pose proof (next_state_forward _ Hno) as Hfw. cbv zeta in Hfw.
    pose proof (interview_count_app (outcomes r) o) as Hmono.
    change (strategy_state (recorded r o)) with (strategy_state r) in Hfw.
    change (outcomes (recorded r o)) with (outcomes r ++ [o])%list in Hfw.
    unfold earned in *. cbn [strategy_state set_state outcomes].
    change (outcomes (recorded r o)) with (outcomes r ++ [o])%list.
    destruct (strategy_state r).
    + destruct Hfw as [-> | (-> & ? & _)]; done.
    + destruct Hfw as [-> | (-> & ? & _)]; [lia | done].
    + rewrite Hfw. lia.
    + done.
Qed.

Lemma process_outcomes_run_invariant
    (extract : AgentSession -> bool) (os : list string) :
  forall s s',
    run_invariant s -> process_outcomes extract s os = Returns s' ->
    run_invariant s' /\ all_outcomes s' = (all_outcomes s ++ os)%list.
Proof.
  induction os as [| o os IH]; intros s s' Hinv Hrun; simpl in Hrun.
  - injection Hrun as <-. by rewrite app_nil_r.
  - destruct (process_outcome extract s o) as [result | ? ?] eqn:Hp; [| discriminate].
    destruct (process_outcome_run_invariant extract s o result Hinv Hp) as [Hinv' Hall].
    destruct (IH _ _ Hinv' Hrun) as [Hinv'' Hall'].
    split; [done |]. rewrite Hall', Hall. by rewrite <- app_assoc.
Qed.

(** ** Runs from a freshly initialized session *)

(** What the run invariant gives for the active record. *)
Lemma states_run
    (extract : AgentSession -> bool) (e : Evidence) (b : BottleneckReport)
    (d : StrategyDecision) (os : list string) (s : AgentSession) :
  process_outcomes extract (initialize_session e b d) os = Returns s ->
  exists r,
    current_strategy s = Some r /\
    (strategy_state r = EXECUTE ->
     (2 <= interview_count (outcomes r))%nat /\
     0.30 <= current_confidence r /\
     (negative_count (outcomes r) < 3)%nat) /\
    (concat (outcomes <$> strategy_history s) ++ outcomes r)%list = os.
Proof.
  intros Hrun.
  destruct (process_outcomes_run_invariant extract os _ _
              (initialize_session_run_invariant e b d) Hrun)
    as [(_ & _ & r & Hc & Hf & Hearned & Hno) Hall].
  exists r. split; [done |]. unfold all_outcomes in Hall. rewrite Hc in Hall.
  split; [| exact Hall].
  unfold earned in Hearned.
  intros H. rewrite H in Hearned. split; [done |].
  assert (Hne : outcomes r <> []).
  { intros Hnil. rewrite Hnil in Hearned.
    change (interview_count []) with 0%nat in Hearned. lia. }
  specialize (Hno Hne).
  destruct (no_failure_next_state r false Hno) as [Hq Hn].
  apply Qltb_ge in Hq. apply Nat.leb_gt in Hn.
  split; [exact Hq | exact Hn].
Qed.

(** X9.  A strategy is in VALIDATE only with at least one recorded interview
    and in EXECUTE only with at least two, a confidence of at least 0.30
    and fewer than three negative outcomes; between two steps the active
    record is neither flagged failed nor in RECONSIDER. *)
Theorem states_are_earned_by_interviews :
  forall (extract : AgentSession -> bool) (e : Evidence) (b : BottleneckReport)
         (d : StrategyDecision) (os : list string) (s : AgentSession),
    process_outcomes extract (initialize_session e b d) os = Returns s ->
    exists r,
      current_strategy s = Some r /\ failed r = false /\
      strategy_state r <> RECONSIDER /\
      (strategy_state r = VALIDATE -> (1 <= interview_count (outcomes r))%nat) /\
      (strategy_state r = EXECUTE ->
       (2 <= interview_count (outcomes r))%nat /\
       0.30 <= current_confidence r /\
       (negative_count (outcomes r) < 3)%nat).
Proof.
  intros extract e b d os s Hrun.
  destruct (process_outcomes_run_invariant extract os _ _
              (initialize_session_run_invariant e b d) Hrun)
    as [(_ & _ & r & Hc & Hf & Hearned & Hno) _].
  exists r. split; [done |]. split; [done |].
  unfold earned in Hearned.
  split; [intros H; by rewrite H in Hearned |].
  split; [intros H; by rewrite H in Hearned |].
  intros H. rewrite H in Hearned. split; [done |].
  assert (Hne : outcomes r <> []).
  { intros Hnil. rewrite Hnil in Hearned.
    change (interview_count []) with 0%nat in Hearned. lia. }
  specialize (Hno Hne).
  destruct (no_failure_next_state r false Hno) as [Hq Hn].
  apply Qltb_ge in Hq. apply Nat.leb_gt in Hn.
  split; [exact Hq | exact Hn].
Qed.

Lemma states_are_earned_by_interviews_witness :
  exists s r,
    process_outcomes no_signals fresh_session ["interview"; "interview"] = Returns s /\
    current_strategy s = Some r /\
    strategy_state r = EXECUTE /\
    (2 <= interview_count (outcomes r))%nat.
Proof.
  eexists.
  destruct (states_are_earned_by_interviews no_signals blank_evidence depth_report
              depth_decision ["interview"; "interview"] _
              ltac:(vm_compute; reflexivity))
    as (r & Hc & _ & _ & _ & Hexec).
  exists r. split; [vm_compute; reflexivity |]. split; [exact Hc |].
  assert (Hstate : strategy_state r = EXECUTE)
    by (vm_compute in Hc; by injection Hc as <-).
  split; [exact Hstate | by apply Hexec].
Defined.

(** X10.  [loop_iteration] counts the archived attempts, and every archived
    attempt is flagged failed, in RECONSIDER, with the failure trigger
    holding on its final confidence and outcomes. *)
Theorem history_holds_the_failed_attempts :
  forall (extract : AgentSession -> bool) (e : Evidence) (b : BottleneckReport)
         (d : StrategyDecision) (os : list string) (s : AgentSession),
    process_outcomes extract (initialize_session e b d) os = Returns s ->
    loop_iteration s = Z.of_nat (length (strategy_history s)) /\
    (length (strategy_history s) <= length os)%nat /\
    forall h, h ∈ strategy_history s ->
              failed h = true /\ strategy_state h = RECONSIDER /\
              failure_condition h /\ outcomes h <> [].
Proof.
  intros extract e b d os s Hrun.
  destruct (process_outcomes_run_invariant extract os _ _
              (initialize_session_run_invariant e b d) Hrun)
    as [(Hit & Hhist & _) Hall].
  split; [done |]. split.
  - assert (Hlen : (length (strategy_history s)
                    <= length (concat (outcomes <$> strategy_history s)))%nat).
    { clear Hall Hit. induction Hhist as [| h l (_ & _ & _ & Hne) _ IH]; [done |].
      change (concat (outcomes <$> h :: l))
        with (outcomes h ++ concat (outcomes <$> l))%list.
      rewrite length_app. destruct (outcomes h); [done |]. simpl. lia. }
    apply (f_equal length) in Hall. unfold all_outcomes in Hall.
    rewrite length_app in Hall. simpl in Hall. lia.
  - intros h Hh. rewrite Forall_forall in Hhist. exact (Hhist h Hh).
Qed.

Lemma history_holds_the_failed_attempts_witness :
  exists s,
    process_outcomes no_signals skill_gap_session ["rejected"; "rejected"; "rejected"]
    = Returns s /\
    loop_iteration s = Z.of_nat (length (strategy_history s)) /\
    (length (strategy_history s) <= 3)%nat.
Proof.
  eexists.
  destruct (history_holds_the_failed_attempts no_signals blank_evidence _ _
              ["rejected"; "rejected"; "rejected"] _
              (ltac:(vm_compute; reflexivity)
                : process_outcomes no_signals skill_gap_session
                    ["rejected"; "rejected"; "rejected"] = _))
    as (Hit & Hlen & _).
  split; [vm_compute; reflexivity |]. split; [exact Hit | exact Hlen].
Defined.

(** X11.  No outcome is lost or duplicated: the outcomes of the archived
    attempts, oldest first, followed by those of the active record are the
    outcomes that were processed, in order. *)
Theorem outcomes_are_conserved :
  forall (extract : AgentSession -> bool) (e : Evidence) (b : BottleneckReport)
         (d : StrategyDecision) (os : list string) (s : AgentSession),
    process_outcomes extract (initialize_session e b d) os = Returns s ->
    exists r,
      current_strategy s = Some r /\
      (concat (outcomes <$> strategy_history s) ++ outcomes r)%list = os /\
      Forall is_outcome_tag os.
Proof.
  intros extract e b d os s Hrun.
  destruct (process_outcomes_run_invariant extract os _ _
              (initialize_session_run_invariant e b d) Hrun)
    as [(_ & _ & r & Hc & _) Hall].
  exists r. split; [done |]. unfold all_outcomes in Hall. rewrite Hc in Hall.
  split; [exact Hall |].
  clear Hall Hc r. revert Hrun. generalize (initialize_session e b d).
  induction os as [| o os IH]; intros s0 Hrun; [constructor |].
  simpl in Hrun.
  destruct (process_outcome extract s0 o) as [result | ? ?] eqn:Hp; [| discriminate].
  constructor; [| by apply (IH (res_session result))].
  destruct (process_outcome_current extract s0 o result Hp) as [r Hc].
  by destruct (process_outcome_unfold extract s0 r o result Hc Hp) as (_ & Htag & _).
Qed.

Lemma outcomes_are_conserved_witness :
  exists s r,
    process_outcomes no_signals role_shift_session
      ["no_response"; "no_response"; "interview"] = Returns s /\
    current_strategy s = Some r /\
    (concat (outcomes <$> strategy_history s) ++ outcomes r)%list
    = ["no_response"; "no_response"; "interview"].
Proof.
  eexists.
  destruct (outcomes_are_conserved no_signals blank_evidence _ _
              ["no_response"; "no_response"; "interview"] _
              (ltac:(vm_compute; reflexivity)
                : process_outcomes no_signals role_shift_session
                    ["no_response"; "no_response"; "interview"] = _))
    as (r & Hc & Hall & _).
  exists r. split; [vm_compute; reflexivity |]. split; [exact Hc | exact Hall].
Defined.

(** X12.  The roadmap gate composed with the loop: for a session run from
    initialization, the gate opens (and a roadmap is generated) only for a
    strategy with at least two recorded interviews, a confidence of at
    least 0.30 and fewer than three negative outcomes. *)
Theorem roadmap_needs_two_interviews :
  forall (extract : AgentSession -> bool) (e : Evidence) (b : BottleneckReport)
         (d : StrategyDecision) (os : list string) (s : AgentSession)
         (r : StrategyRecord) (fields : list (string * json)),
    process_outcomes extract (initialize_session e b d) os = Returns s ->
    current_strategy s = Some r ->
    assoc_get "current_strategy" fields = Some (record_to_dict r) ->
    ((exists el, check_roadmap_eligibility (JObj fields) = Done el /\ eligible el = true) \/
     (exists snapshot profile template,
         generate_roadmap (JObj fields) snapshot profile = Done (Generated template))) ->
    (2 <= interview_count (outcomes r))%nat /\
    (2 <= length os)%nat /\
    0.30 <= current_confidence r /\
    (negative_count (outcomes r) < 3)%nat.
Proof.
  intros extract e b d os s r fields Hrun Hc Hdoc Hopen.
  assert (Hel : exists el, check_roadmap_eligibility (JObj fields) = Done el /\
                           eligible el = true).
  { destruct Hopen as [H | (snapshot & profile & template & H)]; [exact H |].
    by apply generate_roadmap_gated in H. }
  destruct Hel as (el & Hel & Helig).
  destruct (check_roadmap_eligibility_record fields r Hdoc) as (el' & Hel' & Hb & _).
  rewrite Hel in Hel'. injection Hel' as <-.
  rewrite Helig in Hb. symmetry in Hb. apply bool_decide_eq_true in Hb.
  destruct (states_run extract e b d os s Hrun) as (r' & Hc' & Hexec & Hall).
  rewrite Hc in Hc'. injection Hc' as <-.
  destruct (Hexec Hb) as (Hi & Hq & Hn).
  split; [done |]. split; [| done].
  apply (f_equal length) in Hall. rewrite length_app in Hall.
  assert (interview_count (outcomes r) <= length (outcomes r))%nat
    by apply length_filter.
  lia.
Qed.

Lemma roadmap_needs_two_interviews_witness :
  exists s r,
    process_outcomes no_signals fresh_session ["interview"; "interview"] = Returns s /\
    current_strategy s = Some r /\
    (2 <= interview_count (outcomes r))%nat.
Proof.
  eexists. eexists. split; [vm_compute; reflexivity |]. split; [reflexivity |].
  refine (proj1 (roadmap_needs_two_interviews no_signals blank_evidence depth_report
                   depth_decision ["interview"; "interview"] _ _
                   [("current_strategy", record_to_dict _)]
                   ltac:(vm_compute; reflexivity) eq_refl eq_refl _)).
  left. eexists. split; [vm_compute; reflexivity | reflexivity].
Defined.

(** ** Single steps on an arbitrary session *)

Lemma update_confidence_interview_floor (c : Q) :
  0.15 <= c -> 0.30 <= update_confidence c "interview".
Proof.
  intros Hc. rewrite update_confidence_unfold.
  change (default 0.0 (CONFIDENCE_DELTA !! "interview")) with 0.15.
  pose proof (py_clamp_is_clamp 0.10 0.95 (c + 0.15) ltac:(lra)) as Hcl.
  pose proof (py_round2_bounds 30 95 (py_max 0.10 (py_min 0.95 (c + 0.15)))) as Hb.
  set (y := py_max 0.10 (py_min 0.95 (c + 0.15))) in *.
  set (r := py_round2 y) in *.
  change (inject_Z 30) with (30 # 1) in *. change (inject_Z 95) with (95 # 1) in *.
  hundredths.
  assert (Hy : 30 * (1 # 100) <= y <= 95 * (1 # 100)).
  { destruct Hcl as [[? ?] | [[? ?] | [? ?]]]; split; lra. }
  specialize (Hb Hy). lra.
Qed.

Lemma negative_count_interview (l : list string) :
  negative_count (l ++ ["interview"]) = negative_count l.
Proof.
  unfold negative_count. rewrite filter_app, length_app.
  rewrite filter_cons_False by (intros [? | ?]; discriminate).
  simpl. lia.
Qed.

(** X13.  "Interviews never directly trigger strategy switching": on a record
    that is not in RECONSIDER, with a two-decimal confidence between 0.15
    and 1 and fewer than three negative outcomes, processing an interview
    keeps the strategy, the decision of stage 3, the history and the
    failed flag, and never ends in RECONSIDER. *)
Theorem interview_never_switches_strategy :
  forall (extract : AgentSession -> bool) (s : AgentSession) (r : StrategyRecord)
         (result : ProcessResult) (k : Z),
    current_strategy s = Some r ->
    strategy_state r <> RECONSIDER ->
    (15 <= k <= 100)%Z ->
    current_confidence r == inject_Z k / 100 ->
    (negative_count (outcomes r) < 3)%nat ->
    process_outcome extract s "interview" = Returns result ->
    let s' := res_session result in
    strategy_changed result = false /\
    strategy_history s' = strategy_history s /\
    loop_iteration s' = loop_iteration s /\
    stage3_strategy s' = stage3_strategy s /\
    exists r',
      current_strategy s' = Some r' /\
      rec_strategy r' = rec_strategy r /\
      outcomes r' = (outcomes r ++ ["interview"])%list /\
      current_confidence r' = update_confidence (current_confidence r) "interview" /\
      failed r' = failed r /\
      strategy_state r' <> RECONSIDER.
Proof.
  intros extract s r result k Hc Hstate Hk Hgrid Hneg Hp s'.
  assert (Hconf : 0.15 <= current_confidence r).
  { rewrite Hgrid. assert (H15 : inject_Z 15 <= inject_Z k) by (rewrite <- Zle_Qle; lia).
    set (K := inject_Z k) in *. clearbody K. change (inject_Z 15) with 15 in H15.
    hundredths. lra. }
  destruct (process_outcome_unfold extract s r "interview" result Hc Hp)
    as (s2 & _ & Hc2 & Hh2 & Hi2 & _ & _ & Hd2 & Hres & Hchanged & _).
  assert (Hno : ~ failure_condition (recorded r "interview")).
  { unfold failure_condition, recorded. simpl.
    rewrite negative_count_interview.
    pose proof (update_confidence_interview_floor _ Hconf).
    intros [? | ?]; [lra | lia]. }
  assert (Hfail : should_invalidate (set_failed (recorded r "interview") false) = false).
  { apply not_true_is_false. intros H. by apply failure_condition_dec in H. }
  assert (Hst : (next_state (recorded r "interview") false).1 <> RECONSIDER).
  { intros H. by apply (next_state_not_failing _ Hfail) in H. }
  unfold evaluated in *. cbv zeta in *. rewrite Hfail in *.
  cbn [strategy_state set_state] in Hres, Hchanged.
  rewrite bool_decide_eq_false_2 in Hres, Hchanged by done.
  unfold s'. rewrite Hres, Hh2, Hi2, Hd2, Hc2.
  split; [done |]. split; [done |]. split; [done |]. split; [done |].
  eexists. split; [reflexivity |]. done.
Qed.

Lemma interview_never_switches_strategy_witness :
  exists result,
    process_outcome no_signals fresh_session "interview" = Returns result /\
    strategy_changed result = false.
Proof.
  eexists. split; [vm_compute; reflexivity |].
  refine (proj1 (interview_never_switches_strategy no_signals fresh_session _ _ 70%Z
                   eq_refl _ _ _ _ eq_refl)).
  - discriminate.
  - lia.
  - reflexivity.
  - vm_compute. lia.
Defined.

Lemma first_not_failed_spec (priority : list string) (F : gset string) :
  match first_not_failed priority F with
  | Some d =>
      (strategy d ∈ priority) /\ (strategy d ∉ F) /\
      action d = default "" (AgentLoop.FALLBACK_ACTIONS !! strategy d) /\
      confidence d = default 0 (FALLBACK_CONFIDENCE !! strategy d)
  | None => forall n, n ∈ priority -> n ∈ F
  end.
Proof.
  induction priority as [| n priority IH]; simpl.
  - intros n Hn. by apply elem_of_nil in Hn.
  - destruct (decide (n ∉ F)) as [Hn | Hn].
    + rewrite bool_decide_eq_true_2 by done. simpl.
      split; [by left |]. done.
    + rewrite bool_decide_eq_false_2 by done.
      destruct (first_not_failed priority F) as [d |].
      * destruct IH as (? & ? & ? & ?). split; [by right |]. done.
      * intros m Hm. apply elem_of_cons in Hm as [-> | Hm]; [| by apply IH].
        by apply dec_stable.
Qed.

Lemma select_fallback_confidence (r : BottleneckReport) (F : gset string)
    (sig : option (gmap string bool)) :
  confidence_invariant (confidence (_select_fallback_strategy r F sig)).
Proof.
  unfold _select_fallback_strategy.
  pose proof (first_not_failed_spec STRATEGY_PRIORITY F) as H.
  destruct (first_not_failed STRATEGY_PRIORITY F) as [d |].
  - destruct H as (Hin & _ & _ & ->). unfold STRATEGY_PRIORITY in Hin.
    repeat (apply elem_of_cons in Hin as [-> | Hin]);
      [| | | | by apply elem_of_nil in Hin];
      (split; [vm_compute; split; discriminate |]).
    + exists 55%Z. vm_compute. reflexivity.
    + exists 45%Z. vm_compute. reflexivity.
    + exists 35%Z. vm_compute. reflexivity.
    + exists 70%Z. vm_compute. reflexivity.
  - split; [vm_compute; split; discriminate | exists 25%Z; vm_compute; reflexivity].
Qed.

(** X14.  Whatever session a step starts from, it leaves the active record with
    a confidence in [0.10, 0.95] that has two decimals: the confidence is
    either the updated one or the one of a newly selected strategy. *)
Theorem step_leaves_confidence_in_range :
  forall (extract : AgentSession -> bool) (s : AgentSession) (o : string)
         (result : ProcessResult),
    process_outcome extract s o = Returns result ->
    exists r',
      current_strategy (res_session result) = Some r' /\
      0.10 <= current_confidence r' <= 0.95 /\
      two_decimals (current_confidence r') /\
      (strategy_history (res_session result) <> strategy_history s ->
       initial_confidence r' = current_confidence r' /\
       current_confidence r' = confidence (stage3_strategy (res_session result))).
Proof.
  intros extract s o result Hp.
  destruct (process_outcome_current extract s o result Hp) as [r Hc].
  destruct (process_outcome_unfold extract s r o result Hc Hp)
    as (s2 & _ & Hc2 & Hh2 & _ & _ & _ & _ & Hres & _).
  assert (Hupd : current_confidence (evaluated r o)
                 = update_confidence (current_confidence r) o).
  { unfold evaluated. cbv zeta. by destruct (should_invalidate _). }
  assert (Hkept : res_session result = s2 ->
            exists r', current_strategy (res_session result) = Some r' /\
              0.10 <= current_confidence r' <= 0.95 /\
              two_decimals (current_confidence r') /\
              (strategy_history (res_session result) <> strategy_history s ->
               initial_confidence r' = current_confidence r' /\
               current_confidence r'
               = confidence (stage3_strategy (res_session result)))).
  { intros ->. exists (evaluated r o). split; [done |]. rewrite Hupd.
    destruct (update_confidence_invariant (current_confidence r) o) as [? ?].
    split; [done |]. split; [done |]. intros Hgrew. by rewrite Hh2 in Hgrew. }
  destruct (bool_decide (strategy_state (evaluated r o) = RECONSIDER));
    [| by apply Hkept].
  destruct (failed (evaluated r o)) eqn:Hf.
  - pose proof (re_evaluate_strategy_failed s2 _ Hc2 Hf) as Hre. cbv zeta in Hre.
    rewrite Hre in Hres. rewrite Hres. cbn [current_strategy stage3_strategy].
    eexists. split; [reflexivity |]. cbn [current_confidence initial_confidence new_record].
    match goal with
    | |- context [confidence (if ?c then ?a else ?b)] =>
        assert (Hrange : confidence_invariant (confidence (if c then a else b)))
    end.
    { destruct (bool_decide _).
      - apply select_fallback_confidence.
      - unfold select_strategy_and_action. cbn [confidence].
        apply calculate_confidence_invariant. }
    destruct Hrange as [? ?]. done.
  - rewrite (re_evaluate_strategy_not_failed s2 _ Hc2 Hf) in Hres. by apply Hkept.
Qed.

Lemma step_leaves_confidence_in_range_witness :
  exists result r',
    process_outcome no_signals (with_current failed_record) "rejected" = Returns result /\
    current_strategy (res_session result) = Some r' /\
    0.10 <= current_confidence r' <= 0.95.
Proof.
  eexists. 
  destruct (step_leaves_confidence_in_range no_signals (with_current failed_record)
              "rejected" _ ltac:(vm_compute; reflexivity)) as (r' & Hc & Hr & _).
  exists r'. split; [vm_compute; reflexivity |]. split; [exact Hc | exact Hr].
Defined.

(** X15.  [strategy_changed] compares strategy names only.  It is false
    whenever the step archives nothing; when the step does archive the
    attempt and still reports no change, the archived strategy is
    HoldPosition, all four strategies are among the failed ones and the new
    decision is the exhausted HoldPosition at 0.25. *)
Theorem strategy_changed_misses_only_exhaustion :
  forall (extract : AgentSession -> bool) (s : AgentSession) (r : StrategyRecord)
         (o : string) (result : ProcessResult),
    current_strategy s = Some r ->
    process_outcome extract s o = Returns result ->
    let s' := res_session result in
    (strategy_history s' = strategy_history s -> strategy_changed result = false) /\
    (strategy_history s' <> strategy_history s ->
     exists archived r',
       strategy_history s' = (strategy_history s ++ [archived])%list /\
       rec_strategy archived = rec_strategy r /\
       current_strategy s' = Some r' /\
       strategy_changed result = negb (String.eqb (rec_strategy r') (rec_strategy r)) /\
       (strategy_changed result = false ->
        rec_strategy r = "HoldPosition" /\
        (forall n, n ∈ STRATEGY_PRIORITY ->
                   n ∈ failed_strategies_of (strategy_history s')) /\
        stage3_strategy s'
        = {| strategy := "HoldPosition"; action := EXHAUSTED_ACTION;
             confidence := 0.25 |})).
Proof.
  intros extract s r o result Hc Hp s'.
  destruct (process_outcome_unfold extract s r o result Hc Hp)
    as (s2 & _ & Hc2 & Hh2 & _ & _ & _ & _ & Hres & Hchanged & _).
  assert (Hname : rec_strategy (evaluated r o) = rec_strategy r).
  { unfold evaluated. cbv zeta.
    destruct (should_invalidate (set_failed (recorded r o) false)); reflexivity. }
  assert (Hkept : res_session result = s2 ->
            strategy_history s' = strategy_history s /\ strategy_changed result = false).
  { intros Hs2. unfold s'. rewrite Hs2, Hh2. split; [done |].
    rewrite Hchanged. destruct (bool_decide _); [| done].
    rewrite Hs2 in Hres. rewrite <- Hres, Hc2, Hname.
    by rewrite String.eqb_refl. }
  destruct (bool_decide (strategy_state (evaluated r o) = RECONSIDER)) eqn:Hrec;
    [| destruct (Hkept Hres) as [? ?]; by split].
  destruct (failed (evaluated r o)) eqn:Hf.
  2:{ rewrite (re_evaluate_strategy_not_failed s2 _ Hc2 Hf) in Hres.
      destruct (Hkept Hres) as [? ?]. by split. }
  pose proof (re_evaluate_strategy_failed s2 _ Hc2 Hf) as Hre. cbv zeta in Hre.
  rewrite Hh2 in Hre.
  set (history := (strategy_history s ++ [evaluated r o])%list) in *.
  set (F := failed_strategies_of history) in *.
  set (stage2 := analyze_bottlenecks (stage1_evidence s2)) in *.
  set (sig := section_signals (stage1_evidence s2)) in *.
  set (fresh := select_strategy_and_action stage2 sig) in *.
  set (chosen := if bool_decide (strategy fresh ∈ F)
                 then _select_fallback_strategy stage2 F sig else fresh) in *.
  assert (HinF : rec_strategy r ∈ F).
  { unfold F. apply failed_strategies_of_spec. exists (evaluated r o).
    split; [| done]. unfold history. apply elem_of_app. right. by left. }
  assert (Hchosen : strategy chosen = rec_strategy r ->
            (forall n, n ∈ STRATEGY_PRIORITY -> n ∈ F) /\
            chosen = {| strategy := "HoldPosition"; action := EXHAUSTED_ACTION;
                        confidence := 0.25 |}).
  { unfold chosen. destruct (decide (strategy fresh ∈ F)) as [Hin | Hnin].
    - rewrite bool_decide_eq_true_2 by done. unfold _select_fallback_strategy.
      pose proof (first_not_failed_spec STRATEGY_PRIORITY F) as Hspec.
      destruct (first_not_failed STRATEGY_PRIORITY F) as [d |].
      + destruct Hspec as (_ & Hd & _). intros Heq. rewrite Heq in Hd. done.
      + done.
    - rewrite bool_decide_eq_false_2 by done. intros Heq. by rewrite Heq in Hnin. }
  assert (Hs' : s' = re_evaluate_strategy s2) by done.
  rewrite Hre in Hs'.
  split.
  - intros Hsame. exfalso. rewrite Hs' in Hsame. cbn [strategy_history] in Hsame.
    unfold history in Hsame. apply (f_equal length) in Hsame.
    rewrite length_app in Hsame. simpl in Hsame. lia.
  - intros _. exists (evaluated r o), (new_record (strategy chosen) (confidence chosen)).
    rewrite Hs'. cbn [strategy_history current_strategy stage3_strategy].
    split; [done |]. split; [done |]. split; [done |].
    assert (Hch : strategy_changed result
                  = negb (String.eqb (strategy chosen) (rec_strategy r))).
    { rewrite Hchanged, Hre. reflexivity. }
    split; [exact Hch |].
    intros Hfalse. rewrite Hch in Hfalse. apply negb_false_iff, String.eqb_eq in Hfalse.
    destruct (Hchosen Hfalse) as [Hall Heq].
    rewrite Heq in Hfalse. simpl in Hfalse. done.
Qed.

(** X16.  A step never moves the lifecycle state of an attempt backwards
    and never skips a stage: unless the step archives the attempt, the
    record keeps its state, or goes from EXPLORE to VALIDATE with at least
    one interview and a confidence of at least 0.55, or from VALIDATE to
    EXECUTE with at least two interviews and a confidence of at least
    0.65. *)
Theorem step_advances_one_stage :
  forall (extract : AgentSession -> bool) (s : AgentSession) (r : StrategyRecord)
         (o : string) (result : ProcessResult),
    current_strategy s = Some r ->
    process_outcome extract s o = Returns result ->
    strategy_history (res_session result) = strategy_history s ->
    exists r',
      current_strategy (res_session result) = Some r' /\
      outcomes r' = (outcomes r ++ [o])%list /\
      (strategy_state r' = strategy_state r \/
       (strategy_state r = EXPLORE /\ strategy_state r' = VALIDATE /\
        (1 <= interview_count (outcomes r'))%nat /\ 0.55 <= current_confidence r') \/
       (strategy_state r = VALIDATE /\ strategy_state r' = EXECUTE /\
        (2 <= interview_count (outcomes r'))%nat /\ 0.65 <= current_confidence r')).
Proof.
  intros extract s r o result Hc Hp Hsame.
  destruct (process_outcome_unfold extract s r o result Hc Hp)
    as (s2 & _ & Hc2 & Hh2 & _ & _ & _ & _ & Hres & _).
  assert (Hs2 : res_session result = s2).
  { destruct (bool_decide (strategy_state (evaluated r o) = RECONSIDER)); [| done].
    destruct (failed (evaluated r o)) eqn:Hf.
    - exfalso. destruct (re_evaluate_strategy_fields s2 _ Hc2 Hf) as (Hh & _).
      rewrite <- Hres, Hsame, Hh2 in Hh. apply (f_equal length) in Hh.
      rewrite length_app in Hh. simpl in Hh. lia.
    - by rewrite (re_evaluate_strategy_not_failed s2 _ Hc2 Hf) in Hres. }
  rewrite Hs2, Hc2. exists (evaluated r o). split; [done |].
  unfold evaluated. cbv zeta.
  destruct (should_invalidate (set_failed (recorded r o) false)) eqn:Hfail.
  - (* a failing attempt stays only if it was already in RECONSIDER *)
    exfalso.
    assert (Hf : failed (evaluated r o) = true).
    { unfold evaluated. cbv zeta. by rewrite Hfail. }
    assert (Hst : strategy_state (evaluated r o) = RECONSIDER).
    { unfold evaluated. cbv zeta. by rewrite Hfail. }
    rewrite bool_decide_eq_true_2 in Hres by done.
    destruct (re_evaluate_strategy_fields s2 _ Hc2 Hf) as (Hh & _).
    rewrite <- Hres, Hsame, Hh2 in Hh. apply (f_equal length) in Hh.
    rewrite length_app in Hh. simpl in Hh. lia.
  - split; [done |].
    assert (Hno : ~ failure_condition (recorded r o)).
    { intros H. apply failure_condition_dec in H. congruence. }
    pose proof (next_state_forward _ Hno) as Hfw. cbv zeta in Hfw.
    change (strategy_state (recorded r o)) with (strategy_state r) in Hfw.
    cbn [strategy_state set_state outcomes current_confidence].
    destruct (strategy_state r).
    + destruct Hfw as [-> | (-> & ? & ?)]; [by left | right; left; done].
    + destruct Hfw as [-> | (-> & ? & ?)]; [by left | right; right; done].
    + by left.
    + by left.
Qed.

Lemma step_advances_one_stage_witness :
  exists result r',
    process_outcome no_signals fresh_session "interview" = Returns result /\
    current_strategy (res_session result) = Some r' /\
    strategy_state r' = VALIDATE.
Proof.
  eexists.
  destruct (step_advances_one_stage no_signals fresh_session _ "interview" _
              eq_refl ltac:(vm_compute; reflexivity) ltac:(reflexivity))
    as (r' & Hc & _ & _).
  exists r'. split; [vm_compute; reflexivity |]. split; [exact Hc |].
  vm_compute in Hc. by injection Hc as <-.
Defined.

Lemma reconstruct_record_to_dict (r : RawRecord) :
  reconstruct_record (to_dict r) = Done r.
Proof. by destruct r. Qed.

Lemma reconstruct_history_to_dict (l : list RawRecord) :
  reconstruct_history (to_dict <$> l) = Done l.
Proof.
  induction l as [| r l IH]; [done |].
  rewrite fmap_cons. cbn [reconstruct_history].
  rewrite reconstruct_record_to_dict, IH. reflexivity.
Qed.

(** X17.  Reading back what [to_dict] wrote gives the session again:
    [_reconstruct_session] never raises on a serialised session and
    recovers every field of it, of the current record and of each archived
    one. *)
Theorem reconstruct_session_round_trip :
  forall s : RawSession, _reconstruct_session (session_to_dict s) = Done s.
Proof.
  intros [s1 s2 s3 current history iteration log].
  unfold _reconstruct_session, session_to_dict, get_or.
  cbn [py_get assoc_get String.eqb Ascii.eqb Bool.eqb mbind mret Attempt_bind Attempt_ret
       default from_option id raw_stage1_evidence raw_stage2_bottleneck
       raw_stage3_strategy raw_current_strategy raw_strategy_history
       raw_loop_iteration raw_explanation_log py_iter].
  rewrite reconstruct_history_to_dict.
  destruct current as [r |]; cbn; [| reflexivity].
  by destruct r.
Qed.

Lemma get_or_object (fields : list (string * json)) (key : string) (fallback : json) :
  get_or (JObj fields) key fallback = Done (default fallback (assoc_get key fields)).
Proof. reflexivity. Qed.

Lemma reconstruct_record_done (d : json) (r : RawRecord) :
  reconstruct_record d = Done r ->
  exists fields,
    d = JObj fields /\
    assoc_get "strategy" fields = Some (raw_strategy r) /\
    assoc_get "initial_confidence" fields = Some (raw_initial_confidence r) /\
    assoc_get "current_confidence" fields = Some (raw_current_confidence r) /\
    raw_outcomes r = default (JArr []) (assoc_get "outcomes" fields) /\
    raw_failed r = default (JBool false) (assoc_get "failed" fields) /\
    raw_strategy_state r = default (JStr "explore") (assoc_get "strategy_state" fields).
Proof.
  unfold reconstruct_record.
  destruct d as [| | | | | fields]; try discriminate.
  unfold py_item. rewrite !get_or_object.
  destruct (assoc_get "strategy" fields) as [a |] eqn:Ha; [| discriminate].
  destruct (assoc_get "initial_confidence" fields) as [b |] eqn:Hb; [| discriminate].
  destruct (assoc_get "current_confidence" fields) as [c |] eqn:Hc; [| discriminate].
  cbn. intros [= <-]. exists fields. done.
Qed.

Lemma reconstruct_session_done (data : json) (s : RawSession) :
  _reconstruct_session data = Done s ->
  exists fields,
    data = JObj fields /\
    let current := default JNull (assoc_get "current_strategy" fields) in
    (if truthy current
     then exists r, raw_current_strategy s = Some r /\ reconstruct_record current = Done r
     else raw_current_strategy s = None).
Proof.
  unfold _reconstruct_session.
  destruct data as [| | | | | fields]; try discriminate.
  rewrite !get_or_object. cbn [mbind Attempt_bind].
  intros H. exists fields. split; [done |]. cbv zeta.
  destruct (truthy (default JNull (assoc_get "current_strategy" fields))).
  - destruct (reconstruct_record _) as [r |]; [| discriminate].
    cbn in H. exists r. split; [| done].
    destruct (py_iter _) as [items |]; [| discriminate]. cbn in H.
    destruct (reconstruct_history items); [| discriminate].
    cbn in H. by injection H as <-.
  - cbn in H.
    destruct (py_iter _) as [items |]; [| discriminate]. cbn in H.
    destruct (reconstruct_history items); [| discriminate].
    cbn in H. by injection H as <-.
Qed.

(** X18.  The roadmap gate gives the same answer on a session document and
    on the document written back after reconstruction: the defaults of
    [_reconstruct_session] agree with those of the gate. *)
Theorem gate_agrees_after_reconstruction :
  forall (data : json) (s : RawSession),
    _reconstruct_session data = Done s ->
    truthy data = true ->
    check_roadmap_eligibility (session_to_dict s) = check_roadmap_eligibility data.
Proof.
  intros data s Hrec Htruthy.
  destruct (reconstruct_session_done data s Hrec) as (fields & -> & Hcur).
  cbv zeta in Hcur.
  unfold check_roadmap_eligibility. rewrite Htruthy.
  cbn [negb truthy session_to_dict py_get].
  change (assoc_get "current_strategy"
            (("stage1_evidence", raw_stage1_evidence s)
             :: ("stage2_bottleneck", raw_stage2_bottleneck s)
             :: ("stage3_strategy", raw_stage3_strategy s)
             :: ("current_strategy", from_option to_dict JNull (raw_current_strategy s))
             :: ("strategy_history", JArr (to_dict <$> raw_strategy_history s))
             :: ("loop_iteration", raw_loop_iteration s)
             :: [("explanation_log", raw_explanation_log s)]))
    with (Some (from_option to_dict JNull (raw_current_strategy s))).
  cbn [default from_option id].
  destruct (truthy (default JNull (assoc_get "current_strategy" fields))) eqn:Ht.
  - destruct Hcur as (r & Hr & Hrr). rewrite Hr. cbn [from_option].
    destruct (reconstruct_record_done _ r Hrr) as (cur & Hd & Hs & Hi & Hc & Ho & Hf & Hst).
    rewrite Hd. change (truthy (to_dict r)) with true.
    cbn [negb py_get to_dict assoc_get String.eqb Ascii.eqb Bool.eqb].
    rewrite Hs, Hc, Hst. cbn [default from_option id].
    by destruct (assoc_get "strategy_state" cur).
  - rewrite Hcur. reflexivity.
Qed.


Lemma gate_agrees_after_reconstruction_witness :
  exists s,
    _reconstruct_session (create_test_session "execute" "ResumeOptimization") = Done s /\
    check_roadmap_eligibility (session_to_dict s)
    = check_roadmap_eligibility (create_test_session "execute" "ResumeOptimization").
Proof.
  eexists. split; [vm_compute; reflexivity |].
  apply gate_agrees_after_reconstruction; reflexivity.
Defined.

(** X19.  What [_reconstruct_session] needs and what it fills in: a document
    that is not a dict raises AttributeError; a truthy current strategy
    that is not a dict raises TypeError and one without [strategy],
    [initial_confidence] or [current_confidence] raises KeyError; the keys
    [outcomes], [failed] and [strategy_state] are optional and default to
    the empty list, False and EXPLORE. *)
Theorem reconstruct_session_required_keys :
  (forall data : json,
      (forall fields, data <> JObj fields) ->
      _reconstruct_session data = Fails AttributeError) /\
  (forall (fields : list (string * json)) (current : json),
      assoc_get "current_strategy" fields = Some current ->
      truthy current = true ->
      ((forall cur, current <> JObj cur) ->
       _reconstruct_session (JObj fields) = Fails TypeError) /\
      (forall cur,
          current = JObj cur ->
          assoc_get "strategy" cur = None \/
          assoc_get "initial_confidence" cur = None \/
          assoc_get "current_confidence" cur = None ->
          _reconstruct_session (JObj fields) = Fails KeyError) /\
      (forall (cur : list (string * json)) (s : RawSession),
          current = JObj cur ->
          _reconstruct_session (JObj fields) = Done s ->
          exists r,
            raw_current_strategy s = Some r /\
            assoc_get "strategy" cur = Some (raw_strategy r) /\
            assoc_get "initial_confidence" cur = Some (raw_initial_confidence r) /\
            assoc_get "current_confidence" cur = Some (raw_current_confidence r) /\
            (assoc_get "outcomes" cur = None -> raw_outcomes r = JArr []) /\
            (assoc_get "failed" cur = None -> raw_failed r = JBool false) /\
            (assoc_get "strategy_state" cur = None ->
             raw_strategy_state r = JStr "explore"))).
Proof.
  split.
  - intros data Hnot. destruct data as [| | | | | fields]; try reflexivity.
    by destruct (Hnot fields).
  - intros fields current Hcur Htruthy.
    assert (Hk : exists k' : option RawRecord -> Attempt RawSession,
              _reconstruct_session (JObj fields)
              = (record ← (if truthy current
                           then Some <$> reconstruct_record current else mret None);
                 k' record)).
    { eexists. unfold _reconstruct_session.
      rewrite !get_or_object, Hcur. cbn [mbind Attempt_bind default from_option id].
      reflexivity. }
    destruct Hk as [k' Hk].
    rewrite Htruthy in Hk.
    split; [| split].
    + intros Hnot. rewrite Hk.
      destruct current as [| | | | | cur]; try reflexivity.
      by destruct (Hnot cur).
    + intros cur -> Hmissing. rewrite Hk. unfold reconstruct_record, py_item.
      destruct (assoc_get "strategy" cur); [| reflexivity].
      destruct (assoc_get "initial_confidence" cur);
        [| reflexivity].
      destruct (assoc_get "current_confidence" cur); [| reflexivity].
      destruct Hmissing as [? | [? | ?]]; discriminate.
    + intros cur s -> Hdone.
      destruct (reconstruct_session_done _ s Hdone) as (fields' & [= <-] & Hc).
      cbv zeta in Hc. rewrite Hcur in Hc. cbn [default from_option id] in Hc.
      rewrite Htruthy in Hc. destruct Hc as (r & Hr & Hrr).
      destruct (reconstruct_record_done _ r Hrr)
        as (cur' & [= <-] & Hs & Hi & Hcc & Ho & Hf & Hst).
      exists r. split; [done |]. split; [done |]. split; [done |]. split; [done |].
      split; [intros H; by rewrite H in Ho |].
      split; [intros H; by rewrite H in Hf |].
      intros H; by rewrite H in Hst.
Qed.

Lemma reconstruct_session_required_keys_witness :
  exists s r,
    _reconstruct_session (JObj legacy_session) = Done s /\
    raw_current_strategy s = Some r /\
    raw_strategy_state r = JStr "explore".
Proof.
  eexists.
  destruct (proj2 (proj2 (proj2 reconstruct_session_required_keys legacy_session
                            (JObj legacy_record) eq_refl eq_refl))
              legacy_record _ eq_refl ltac:(vm_compute; reflexivity))
    as (r & Hr & _ & _ & _ & _ & _ & Hst).
  exists r. split; [vm_compute; reflexivity |]. split; [exact Hr |].
  apply Hst. reflexivity.
Defined.

Lemma assoc_get_set (key : string) (value : json) (fields : list (string * json)) :
  assoc_get key (assoc_set key value fields) = Some value.
Proof.
  induction fields as [| [k v] rest IH]; simpl.
  - by rewrite String.eqb_refl.
  - destruct (String.eqb key k) eqn:Hk; simpl; by rewrite Hk.
Qed.

Lemma invalidate_done (roadmap : list (string * json)) (reason : InvalidationReason)
    (res : Checked) :
  invalidate roadmap reason = Done res ->
  written_reason res = Some reason /\
  exists fields, roadmap_after res = JObj fields /\
                 assoc_get "invalidated" fields = Some (JBool true).
Proof.
  intros [= <-]. split; [done |]. eexists. split; [reflexivity |].
  apply assoc_get_set.
Qed.

(** What a completed check returns. *)
Lemma invalidate_roadmap_cases (roadmap session : json) (res : Checked) :
  invalidate_roadmap_if_strategy_changed roadmap session = Done res ->
  (written_reason res = None /\ roadmap_after res = roadmap) \/
  (exists reason fields,
      written_reason res = Some reason /\ roadmap_after res = JObj fields /\
      assoc_get "invalidated" fields = Some (JBool true)).
Proof.
  unfold invalidate_roadmap_if_strategy_changed.
  destruct (py_get roadmap "invalidated") as [flag |]; [| discriminate].
  cbn [mbind Attempt_bind].
  destruct (truthy (default JNull flag)); [intros [= <-]; by left |].
  destruct (get_or session "current_strategy" (JObj [])) as [cs |]; [| discriminate].
  cbn [mbind Attempt_bind].
  destruct (get_or cs "strategy" JNull) as [name |]; [| discriminate].
  cbn [mbind Attempt_bind].
  destruct (get_or cs "strategy_state" JNull) as [state |]; [| discriminate].
  cbn [mbind Attempt_bind].
  destruct (py_item roadmap "strategy") as [rs |]; [| discriminate].
  cbn [mbind Attempt_bind].
  destruct roadmap as [| | | | | fields]; try discriminate.
  repeat match goal with
         | |- context [if ?c then _ else _] => destruct c
         end;
    intros H;
    try (apply invalidate_done in H as (Hr & fs & Hf & Hi); right; by eexists _, _);
    injection H as <-; by left.
Qed.

(** X20.  Invalidation is final and the check is idempotent: a roadmap the
    check has invalidated is returned unchanged by every later check,
    whatever session it is given, and checking twice against the same
    session gives what checking once gave. *)
Theorem invalidation_is_final :
  forall (roadmap session : json) (res : Checked),
    invalidate_roadmap_if_strategy_changed roadmap session = Done res ->
    (written_reason res <> None ->
     forall session',
       invalidate_roadmap_if_strategy_changed (roadmap_after res) session'
       = Done {| roadmap_after := roadmap_after res; written_reason := None |}) /\
    invalidate_roadmap_if_strategy_changed (roadmap_after res) session
    = Done {| roadmap_after := roadmap_after res; written_reason := None |}.
Proof.
  intros roadmap session res Hres.
  assert (Hfinal : forall fields session',
            roadmap_after res = JObj fields ->
            assoc_get "invalidated" fields = Some (JBool true) ->
            invalidate_roadmap_if_strategy_changed (roadmap_after res) session'
            = Done {| roadmap_after := roadmap_after res; written_reason := None |}).
  { intros fields session' Hf Hi. rewrite Hf.
    unfold invalidate_roadmap_if_strategy_changed. cbn [py_get mbind Attempt_bind].
    rewrite Hi. reflexivity. }
  destruct (invalidate_roadmap_cases roadmap session res Hres)
    as [[Hnone Hsame] | (reason & fields & Hsome & Hf & Hi)].
  - split; [by rewrite Hnone |].
    rewrite Hsame, Hres. f_equal. destruct res; simpl in *. by subst.
  - split; [intros _ session' |]; by apply (Hfinal fields).
Qed.


Lemma invalidation_is_final_witness :
  exists res,
    invalidate_roadmap_if_strategy_changed sample_roadmap
      (create_test_session "validate" "ResumeOptimization") = Done res /\
    invalidate_roadmap_if_strategy_changed (roadmap_after res)
      (create_test_session "execute" "ResumeOptimization")
    = Done {| roadmap_after := roadmap_after res; written_reason := None |}.
Proof.
  eexists. split; [vm_compute; reflexivity |].
  refine (proj1 (invalidation_is_final sample_roadmap
                   (create_test_session "validate" "ResumeOptimization") _ eq_refl) _ _).
  discriminate.
Defined.

(** X21.  A roadmap that the check leaves valid belongs to a session whose
    current strategy has the roadmap's strategy name and is in EXECUTE, so
    the eligibility gate still opens for that session. *)
Theorem surviving_roadmap_is_still_eligible :
  forall (roadmap session : json) (res : Checked),
    invalidate_roadmap_if_strategy_changed roadmap session = Done res ->
    written_reason res = None ->
    roadmap_after res = roadmap /\
    ((exists flag, py_get roadmap "invalidated" = Done (Some flag) /\
                   truthy flag = true) \/
     (exists fields record name roadmap_strategy el,
         session = JObj fields /\
         assoc_get "current_strategy" fields = Some (JObj record) /\
         assoc_get "strategy_state" record = Some (JStr "execute") /\
         assoc_get "strategy" record = name /\
         py_item roadmap "strategy" = Done roadmap_strategy /\
         py_eq roadmap_strategy (default JNull name) = true /\
         check_roadmap_eligibility session = Done el /\ eligible el = true)).
Proof.
  intros roadmap session res Hres Hnone.
  split.
  { destruct (invalidate_roadmap_cases roadmap session res Hres)
      as [[_ ?] | (reason & fields & Hsome & _)]; [done | congruence]. }
  revert Hres. unfold invalidate_roadmap_if_strategy_changed.
  destruct (py_get roadmap "invalidated") as [flag |] eqn:Hflag; [| discriminate].
  cbn [mbind Attempt_bind].
  destruct (truthy (default JNull flag)) eqn:Ht.
  { intros _. left. destruct flag as [flag |]; [| discriminate]. by exists flag. }
  destruct session as [| | | | | fields]; try discriminate.
  rewrite get_or_object. cbn [mbind Attempt_bind].
  destruct (default (JObj []) (assoc_get "current_strategy" fields))
    as [| | | | | record] eqn:Hcs; try discriminate.
  rewrite !get_or_object. cbn [mbind Attempt_bind].
  destruct (py_item roadmap "strategy") as [rs |] eqn:Hrs; [| discriminate].
  cbn [mbind Attempt_bind].
  destruct roadmap as [| | | | | rfields]; try discriminate.
  destruct (py_eq rs (default JNull (assoc_get "strategy" record))) eqn:Heq;
    cbn [negb]; [| intros [= <-]; discriminate].
  destruct (is_str _ "reconsider"); [intros [= <-]; discriminate |].
  destruct (is_str _ "execute") eqn:Hexec; cbn [negb]; [| intros [= <-]; discriminate].
  intros _. right.
  apply is_str_true in Hexec.
  assert (Hstate : assoc_get "strategy_state" record = Some (JStr "execute")).
  { destruct (assoc_get "strategy_state" record); [| discriminate].
    simpl in Hexec. by subst. }
  assert (Hcur : assoc_get "current_strategy" fields = Some (JObj record)).
  { destruct (assoc_get "current_strategy" fields) as [c |]; simpl in Hcs.
    - by subst.
    - injection Hcs as <-. discriminate. }
  assert (Hdoc : document_in_execute (JObj fields)) by (by exists fields, record).
  apply check_roadmap_eligibility_eligible in Hdoc as (el & Hel & Helig).
  exists fields, record, (assoc_get "strategy" record), rs, el. done.
Qed.

Lemma surviving_roadmap_is_still_eligible_witness :
  exists res,
    invalidate_roadmap_if_strategy_changed sample_roadmap
      (create_test_session "execute" "ResumeOptimization") = Done res /\
    roadmap_after res = sample_roadmap.
Proof.
  eexists. split; [vm_compute; reflexivity |].
  refine (proj1 (surviving_roadmap_is_still_eligible sample_roadmap
                   (create_test_session "execute" "ResumeOptimization") _ eq_refl _)).
  reflexivity.
Defined.

(** X22.  A session without an active strategy is serialised with
    [current_strategy] null, and on such a document the check of a roadmap
    that is not yet invalidated raises AttributeError instead of
    invalidating it. *)
Theorem invalidation_raises_without_strategy :
  (forall (roadmap : list (string * json)) (fields : list (string * json)),
      truthy (default JNull (assoc_get "invalidated" roadmap)) = false ->
      assoc_get "current_strategy" fields = Some JNull ->
      invalidate_roadmap_if_strategy_changed (JObj roadmap) (JObj fields)
      = Fails AttributeError) /\
  (forall (roadmap : list (string * json)) (s : RawSession),
      truthy (default JNull (assoc_get "invalidated" roadmap)) = false ->
      raw_current_strategy s = None ->
      invalidate_roadmap_if_strategy_changed (JObj roadmap) (session_to_dict s)
      = Fails AttributeError) /\
  (forall (roadmap : list (string * json)) (fields : list (string * json))
          (roadmap_strategy : json),
      truthy (default JNull (assoc_get "invalidated" roadmap)) = false ->
      assoc_get "current_strategy" fields = None ->
      assoc_get "strategy" roadmap = Some roadmap_strategy ->
      exists res reason,
        invalidate_roadmap_if_strategy_changed (JObj roadmap) (JObj fields) = Done res /\
        written_reason res = Some reason).
Proof.
  split; [| split].
  - intros roadmap fields Hflag Hcur.
    unfold invalidate_roadmap_if_strategy_changed.
    cbn [py_get mbind Attempt_bind]. rewrite Hflag, get_or_object, Hcur. reflexivity.
  - intros roadmap s Hflag Hcur.
    unfold invalidate_roadmap_if_strategy_changed.
    cbn [py_get mbind Attempt_bind]. rewrite Hflag.
    unfold session_to_dict. rewrite get_or_object, Hcur. reflexivity.
  - intros roadmap fields rs Hflag Hcur Hrs.
    unfold invalidate_roadmap_if_strategy_changed.
    cbn [py_get mbind Attempt_bind]. rewrite Hflag, get_or_object, Hcur.
    cbn [default from_option id mbind Attempt_bind get_or py_get assoc_get mret
         Attempt_ret py_item].
    rewrite Hrs. cbn [mbind Attempt_bind is_str negb].
    destruct (py_eq rs JNull); cbn [negb]; eexists _, _; split; reflexivity.
Qed.

Lemma invalidation_raises_without_strategy_witness :
  invalidate_roadmap_if_strategy_changed sample_roadmap
    (JObj [("current_strategy", JNull); ("strategy_history", JArr [])])
  = Fails AttributeError.
Proof.
  apply (proj1 invalidation_raises_without_strategy sample_roadmap_entries); reflexivity.
Defined.

#[local] Set Warnings "-clear-no-such-hyp".

(** *** Skill depth *)

Lemma determine_skill_depth_fold (l : list string) (acc : CareerSnapshot.SkillDepth) :
  foldl (fun max_depth source_str =>
           match CareerSnapshot.evidence_source source_str with
           | Some source =>
               let depth := CareerSnapshot.EVIDENCE_DEPTH_MAP source in
               if (CareerSnapshot.precedence_index max_depth
                   <? CareerSnapshot.precedence_index depth)%nat
               then depth else max_depth
           | None => max_depth
           end) acc l
  = if decide (acc = CareerSnapshot.PRODUCTION \/ "internship" ∈ l \/ "job" ∈ l)
    then CareerSnapshot.PRODUCTION
    else if decide (acc = CareerSnapshot.APPLIED \/ "project" ∈ l)
         then CareerSnapshot.APPLIED
         else CareerSnapshot.THEORETICAL.
Proof.
  revert acc. induction l as [| x l IH]; intros acc.
  - simpl. destruct acc; repeat case_decide; try done;
      exfalso; set_solver.
  - cbn [foldl]. rewrite IH. clear IH. unfold CareerSnapshot.evidence_source.
    repeat match goal with
           | |- context [String.eqb x ?k] =>
               destruct (String.eqb_spec x k) as [-> | ?]
           end;
      destruct acc; cbn; repeat case_decide; try done; exfalso;
      rewrite ?elem_of_cons in *; naive_solver.
Qed.

(** X23.  The depth of a skill is the highest one among its evidence
    sources: production as soon as an internship or a job is listed,
    otherwise applied as soon as a project is listed, otherwise
    theoretical; unknown sources, order and repetitions do not matter. *)
Theorem determine_skill_depth_highest_wins :
  forall evidence_sources : list string,
    CareerSnapshot.determine_skill_depth evidence_sources
    = if decide ("internship" ∈ evidence_sources \/ "job" ∈ evidence_sources)
      then "production"
      else if decide ("project" ∈ evidence_sources) then "applied"
           else "theoretical".
Proof.
  intros l. unfold CareerSnapshot.determine_skill_depth.
  destruct l as [| x l].
  - repeat case_decide; try done; exfalso; set_solver.
  - rewrite determine_skill_depth_fold.
    repeat case_decide; try done; exfalso; naive_solver.
Qed.


Lemma streak_bounded (l : list string) :
  forall m c h,
    let '(m', c', _) := foldl CareerSnapshot.streak_step (m, c, h) l in
    (c' <= c + CareerSnapshot.count "rejected" l)%nat /\
    (m' <= Nat.max m (c + CareerSnapshot.count "rejected" l))%nat.
Proof.
  induction l as [| o l IH]; intros m c h.
  - simpl. change (CareerSnapshot.count "rejected" []) with 0%nat. lia.
  - cbn [foldl]. unfold CareerSnapshot.streak_step at 2.
    assert (Hcount : forall t, CareerSnapshot.count t (o :: l)
                       = ((if decide (o = t) then 1 else 0)
                          + CareerSnapshot.count t l)%nat).
    { intros t. unfold CareerSnapshot.count.
      destruct (decide (o = t)) as [Heq | Hne].
      - by rewrite filter_cons_True.
      - by rewrite filter_cons_False. }
    rewrite (Hcount "rejected").
    destruct (String.eqb_spec o "interview") as [-> | Hni].
    + specialize (IH m 0%nat true).
      destruct (foldl CareerSnapshot.streak_step (m, 0%nat, true) l) as [[m' c'] h'].
      rewrite decide_False by done. lia.
    + destruct (String.eqb_spec o "rejected") as [-> | Hnr]; cbn [andb].
      * rewrite decide_True by done. destruct h.
        -- specialize (IH (Nat.max m (c + 1)) (c + 1)%nat true).
           destruct (foldl _ _ l) as [[m' c'] h']. lia.
        -- specialize (IH m c false).
           destruct (foldl _ _ l) as [[m' c'] h']. lia.
      * rewrite decide_False by done. specialize (IH m c h).
        destruct (foldl _ _ l) as [[m' c'] h']. lia.
Qed.

Lemma count_two_tags (outcomes : list string) :
  (CareerSnapshot.count "interview" outcomes + CareerSnapshot.count "rejected" outcomes
   <= length outcomes)%nat.
Proof.
  unfold CareerSnapshot.count. induction outcomes as [| o l IH]; [done |].
  destruct (decide (o = "interview")) as [-> | Hni].
  - rewrite filter_cons_True, filter_cons_False by done. simpl. lia.
  - rewrite (filter_cons_False (fun o => o = "interview")) by done.
    destruct (decide (o = "rejected")) as [-> | Hnr].
    + rewrite filter_cons_True by done. simpl. lia.
    + rewrite filter_cons_False by done. simpl. lia.
Qed.

(** X24.  The execution gap signal is triggered exactly when there are at
    least three interviews and a streak of at least two rejections after
    an interview; this takes at least two rejections and five outcomes.
    A signal that is not triggered reports the confidence 0.0. *)
Theorem execution_gap_needs_three_interviews :
  forall (snapshot : CareerSnapshot.EnhancedSnapshot) (outcomes : list string),
    let s := CareerSnapshot.extract_execution_gap snapshot outcomes in
    (CareerSnapshot.triggered s = true <->
     (3 <= CareerSnapshot.count "interview" outcomes)%nat /\
     (2 <= CareerSnapshot.max_consecutive_rejections outcomes)%nat) /\
    (CareerSnapshot.triggered s = true ->
     (2 <= CareerSnapshot.count "rejected" outcomes)%nat /\
     (5 <= length outcomes)%nat) /\
    (CareerSnapshot.triggered s = false ->
     CareerSnapshot.confidence s = Binary64.decimal 0 1).
Proof.
  intros snapshot outcomes s.
  set (i := CareerSnapshot.count "interview" outcomes).
  set (m := CareerSnapshot.max_consecutive_rejections outcomes).
  assert (Hm : (m <= CareerSnapshot.count "rejected" outcomes)%nat).
  { pose proof (streak_bounded outcomes 0%nat 0%nat false) as H.
    unfold m, CareerSnapshot.max_consecutive_rejections.
    destruct (foldl _ _ outcomes) as [[m' c'] h']. simpl. lia. }
  pose proof (count_two_tags outcomes) as Hlen. fold i in Hlen.
  unfold s, CareerSnapshot.extract_execution_gap.
  destruct outcomes as [| o l].
  { cbn [CareerSnapshot.triggered CareerSnapshot.confidence CareerSnapshot.no_outcome_data].
    split; [split; [done | intros [H3 _]; vm_compute in H3; lia] |].
    split; [done | reflexivity]. }
  fold i m.
  unfold CareerSnapshot.execution_interview_min,
    CareerSnapshot.execution_rejection_consecutive.
  destruct (Nat.leb_spec 3 i) as [Hi | Hi].
  2:{ cbn [CareerSnapshot.triggered CareerSnapshot.confidence].
      split; [split; [done | intros [? _]; lia] |].
      split; [done | intros _; vm_compute; reflexivity]. }
  destruct (Nat.leb_spec 2 m) as [H2 | H2].
  2:{ cbn [CareerSnapshot.triggered CareerSnapshot.confidence].
      split; [split; [done | intros [_ ?]; lia] |].
      split; [done | intros _; vm_compute; reflexivity]. }
  cbn [CareerSnapshot.triggered CareerSnapshot.confidence].
  split; [split; [done | done] |]. split; [| done].
  intros _. split; lia.
Qed.

Lemma execution_gap_needs_three_interviews_witness :
  (5 <= length ["interview"; "interview"; "interview"; "rejected"; "rejected"])%nat.
Proof.
  refine (proj2 (proj1 (proj2 (execution_gap_needs_three_interviews sample_snapshot
            ["interview"; "interview"; "interview"; "rejected"; "rejected"])) _)).
  vm_compute. reflexivity.
Defined.

Ltac by_branches :=
  repeat match goal with
         | |- context [if ?c then _ else _] => destruct c
         end;
  reflexivity.

(** The confidence of a triggered signal lies between one half and one. *)
Ltac closed_confidence :=
  cbn [CareerSnapshot.triggered CareerSnapshot.confidence];
  first [ discriminate
        | intros _; split; vm_compute; intros [=] ].

Lemma extract_overlearning_trap_confidence
    (snapshot : CareerSnapshot.EnhancedSnapshot) :
  let s := CareerSnapshot.extract_overlearning_trap snapshot in
  CareerSnapshot.triggered s = true ->
  0.5 <= Binary64.value (CareerSnapshot.confidence s) <= 1.
Proof.
  unfold CareerSnapshot.extract_overlearning_trap. cbv zeta.
  destruct (_ <=? _)%Z; [| closed_confidence].
  destruct (_ <=? _)%Z; [| closed_confidence].
  destruct (Binary64.lt _ _), (_ =? 0)%Z, (20 <? _)%Z; closed_confidence.
Qed.

Lemma extract_market_exposure_gap_confidence
    (snapshot : CareerSnapshot.EnhancedSnapshot) :
  let s := CareerSnapshot.extract_market_exposure_gap snapshot in
  CareerSnapshot.triggered s = true ->
  0.5 <= Binary64.value (CareerSnapshot.confidence s) <= 1.
Proof.
  unfold CareerSnapshot.extract_market_exposure_gap. cbv zeta.
  destruct (_ <=? _)%Z; [| closed_confidence].
  destruct (_ <=? _)%Z; [| closed_confidence].
  destruct (4 <? _)%Z, (_ =? 0)%Z; closed_confidence.
Qed.

Ltac untriggered :=
  repeat match goal with
         | |- context [if ?c then _ else _] => destruct c
         end;
  cbn [CareerSnapshot.triggered CareerSnapshot.confidence];
  first [ discriminate | intros _; vm_compute; reflexivity ].

Lemma untriggered_confidence_zero
    (snapshot : CareerSnapshot.EnhancedSnapshot) (outcomes : list string) :
  Forall (fun s => CareerSnapshot.triggered s = false ->
                   CareerSnapshot.confidence s = Binary64.decimal 0 1)
    [ CareerSnapshot.extract_overlearning_trap snapshot;
      CareerSnapshot.extract_market_exposure_gap snapshot;
      CareerSnapshot.extract_resume_positioning_issue snapshot outcomes;
      CareerSnapshot.extract_execution_gap snapshot outcomes ].
Proof.
  repeat constructor.
  - unfold CareerSnapshot.extract_overlearning_trap. cbv zeta. untriggered.
  - unfold CareerSnapshot.extract_market_exposure_gap. cbv zeta. untriggered.
  - unfold CareerSnapshot.extract_resume_positioning_issue.
    destruct outcomes; [reflexivity |]. cbv zeta. untriggered.
  - unfold CareerSnapshot.extract_execution_gap.
    destruct outcomes; [reflexivity |]. cbv zeta. untriggered.
Qed.

(** X25.  [extract_profile_signals] always returns the same four signals, in
    the same order, each stored under its own name, and notes four
    signals and at most four triggered ones; no outcome list and an empty
    one give the same result.  A signal that is not triggered reports the
    confidence 0.0; a triggered overlearning trap or market exposure gap
    reports a confidence between 0.5 and 1. *)
Theorem profile_signals_are_graded :
  forall (snapshot : CareerSnapshot.EnhancedSnapshot) (outcomes : option (list string)),
    let extracted := CareerSnapshot.extract_profile_signals snapshot outcomes in
    (CareerSnapshot.signals extracted).*1
    = ["overlearning_trap"; "market_exposure_gap"; "resume_positioning_issue";
       "execution_gap"] /\
    (forall key s,
        (key, s) ∈ CareerSnapshot.signals extracted ->
        CareerSnapshot.name s = key /\
        (CareerSnapshot.triggered s = false ->
         CareerSnapshot.confidence s = Binary64.decimal 0 1) /\
        (key = "overlearning_trap" \/ key = "market_exposure_gap" ->
         CareerSnapshot.triggered s = true ->
         0.5 <= Binary64.value (CareerSnapshot.confidence s) <= 1)) /\
    (exists n,
        CareerSnapshot.extraction_notes extracted !! 0%nat
        = Some (CareerSnapshot.ExtractedSignals 4) /\
        CareerSnapshot.extraction_notes extracted !! 1%nat
        = Some (CareerSnapshot.TriggeredSignals n) /\ (n <= 4)%nat) /\
    CareerSnapshot.extract_profile_signals snapshot None
    = CareerSnapshot.extract_profile_signals snapshot (Some []).
Proof.
  intros snapshot outcomes extracted.
  split; [reflexivity |]. split; [| split; [| reflexivity]].
  - intros key s Hin. unfold extracted, CareerSnapshot.extract_profile_signals in Hin.
    cbn [CareerSnapshot.signals] in Hin.
    pose proof (untriggered_confidence_zero snapshot (default [] outcomes)) as Hzero.
    apply Forall_cons in Hzero as [Hz1 Hzero].
    apply Forall_cons in Hzero as [Hz2 Hzero].
    apply Forall_cons in Hzero as [Hz3 Hzero].
    apply Forall_cons in Hzero as [Hz4 _].
    repeat (apply elem_of_cons in Hin as [[= -> ->] | Hin]);
      [| | | | by apply elem_of_nil in Hin].
    + split; [unfold CareerSnapshot.extract_overlearning_trap; by_branches |].
      split; [exact Hz1 |].
      intros _. apply extract_overlearning_trap_confidence.
    + split; [unfold CareerSnapshot.extract_market_exposure_gap; by_branches |].
      split; [exact Hz2 |].
      intros _. apply extract_market_exposure_gap_confidence.
    + split.
      { unfold CareerSnapshot.extract_resume_positioning_issue.
        destruct (default [] outcomes); [reflexivity | by_branches]. }
      split; [exact Hz3 | intros [[=] | [=]]].
    + split.
      { unfold CareerSnapshot.extract_execution_gap.
        destruct (default [] outcomes); [reflexivity | by_branches]. }
      split; [exact Hz4 | intros [[=] | [=]]].
  - eexists. split; [reflexivity |]. split; [reflexivity |].
    etransitivity; [apply length_filter |]. reflexivity.
Qed.

Lemma profile_signals_are_graded_witness :
  CareerSnapshot.name (CareerSnapshot.extract_overlearning_trap sample_snapshot)
  = "overlearning_trap" /\
  0.5 <= Binary64.value
           (CareerSnapshot.confidence
              (CareerSnapshot.extract_overlearning_trap sample_snapshot)) <= 1.
Proof.
  destruct (proj1 (proj2 (profile_signals_are_graded sample_snapshot None))
              "overlearning_trap"
              (CareerSnapshot.extract_overlearning_trap sample_snapshot))
    as (Hname & _ & Hconf).
  - apply list_elem_of_here.
  - split; [exact Hname |]. apply Hconf; [by left | vm_compute; reflexivity].
Defined.

Lemma strategy_changed_misses_only_exhaustion_witness :
  exists result,
    process_outcome no_signals exhausted_session "rejected" = Returns result /\
    strategy_changed result = false /\
    stage3_strategy (res_session result)
    = {| strategy := "HoldPosition"; action := EXHAUSTED_ACTION; confidence := 0.25 |}.
Proof.
  eexists. split; [vm_compute; reflexivity |].
  split; [vm_compute; reflexivity |].
  destruct (proj2 (strategy_changed_misses_only_exhaustion no_signals exhausted_session
                     _ "rejected" _ eq_refl eq_refl))
    as (archived & r' & _ & _ & _ & _ & Hmiss).
  - vm_compute. discriminate.
  - apply Hmiss. vm_compute. reflexivity.
Defined.
